(** * lambda-extensions: the Lambda Extensions API client

    A shallow embedding of package [extensions] (the client with
    [NewClient], [Register], [fetchNextEvent], [Run], [SubscribeTelemetry]
    and [Event.UnmarshalJSON]) together with the parts of Go's
    [encoding/json], [net/http] and [fmt] the client relies on.

    Conventions.
    - A Go [[]byte] is a [list byte]; a Go [string] is a [string] (a
      sequence of bytes, not of code points).
    - A Go [int] is a [Z]; the 64-bit range is enforced where the program
      can observe it (decoding a JSON number into an [int]).
    - A Go [error] is an [option error], [None] being [nil]; a nilable
      pointer or function value is an [option].
    - Everything outside the client (the HTTP transport, the state of the
      context, whatever the callbacks touch) is a world [W] threaded
      through the calls; what the client itself does (requests, log
      records, callback invocations) is appended to a trace. *)

From Stdlib Require Import ZArith NArith Lia Bool.
From Stdlib Require Import Strings.String Strings.Ascii Strings.Byte.
From Stdlib Require Import Numbers.DecimalString.
From stdpp Require Import gmap strings list.

Import ListNotations.
Set Warnings "-register-all".
#[local] Open Scope string_scope.
#[local] Open Scope list_scope.

Abbreviation bytes := (list byte).

(** ** Bytes and UTF-8 (unicode/utf8, unicode/utf16) *)

Module utf8.

Definition within (lo hi : N) (b : byte) : bool :=
  ((lo <=? Byte.to_N b) && (Byte.to_N b <=? hi))%N.

(** A continuation byte, 10xxxxxx. *)
Definition cont (b : byte) : bool := within 0x80 0xBF b.

Definition low6 (b : byte) : N := N.land (Byte.to_N b) 0x3F.

Definition byte_of (n : N) : byte :=
  match Byte.of_N n with Some b => b | None => x00 end.

Definition RuneError : N := 0xFFFD.

(** [utf8.DecodeRune]: the code point at the head of [s] and its width;
    [None] stands for the pair (RuneError, 1) of an invalid or short
    encoding (and for the empty input). *)
Definition DecodeRune (s : bytes) : option (N * nat) :=
  match s with
  | [] => None
  | b0 :: t =>
      let n0 := Byte.to_N b0 in
      if (n0 <? 0x80)%N then Some (n0, 1)
      else if within 0xC2 0xDF b0 then
        match t with
        | b1 :: _ =>
            if cont b1
            then Some (N.lor (N.shiftl (N.land n0 0x1F) 6) (low6 b1), 2)
            else None
        | _ => None
        end
      else if within 0xE0 0xEF b0 then
        match t with
        | b1 :: b2 :: _ =>
            let lo := if (n0 =? 0xE0)%N then 0xA0%N else 0x80%N in
            let hi := if (n0 =? 0xED)%N then 0x9F%N else 0xBF%N in
            if within lo hi b1 && cont b2
            then Some (N.lor (N.shiftl (N.land n0 0x0F) 12)
                         (N.lor (N.shiftl (low6 b1) 6) (low6 b2)), 3)
            else None
        | _ => None
        end
      else if within 0xF0 0xF4 b0 then
        match t with
        | b1 :: b2 :: b3 :: _ =>
            let lo := if (n0 =? 0xF0)%N then 0x90%N else 0x80%N in
            let hi := if (n0 =? 0xF4)%N then 0x8F%N else 0xBF%N in
            if within lo hi b1 && cont b2 && cont b3
            then Some (N.lor (N.shiftl (N.land n0 0x07) 18)
                         (N.lor (N.shiftl (low6 b1) 12)
                            (N.lor (N.shiftl (low6 b2) 6) (low6 b3))), 4)
            else None
        | _ => None
        end
      else None
  end.

Definition tail6 (r : N) (k : N) : byte :=
  byte_of (N.lor 0x80 (N.land (N.shiftr r k) 0x3F)).

(** [utf8.EncodeRune]; surrogates and values past U+10FFFF are written
    as U+FFFD. *)
Definition EncodeRune (r : N) : bytes :=
  if (r <? 0x80)%N then [byte_of r]
  else if (r <? 0x800)%N then
    [byte_of (N.lor 0xC0 (N.shiftr r 6)); tail6 r 0]
  else if ((0xD800 <=? r) && (r <? 0xE000) || (0x10FFFF <? r))%N then
    [xef; xbf; xbd]
  else if (r <? 0x10000)%N then
    [byte_of (N.lor 0xE0 (N.shiftr r 12)); tail6 r 6; tail6 r 0]
  else
    [byte_of (N.lor 0xF0 (N.shiftr r 18)); tail6 r 12; tail6 r 6; tail6 r 0].

End utf8.

Module utf16.

Definition IsSurrogate (r : N) : bool := ((0xD800 <=? r) && (r <? 0xE000))%N.

(** [utf16.DecodeRune r1 r2]; [None] stands for U+FFFD (not a valid
    surrogate pair). *)
Definition DecodeRune (r1 : N) (r2 : option N) : option N :=
  match r2 with
  | Some r2 =>
      if ((0xD800 <=? r1) && (r1 <? 0xDC00) && (0xDC00 <=? r2) && (r2 <? 0xE000))%N
      then Some (N.lor (N.shiftl (r1 - 0xD800) 10) (r2 - 0xDC00) + 0x10000)%N
      else None
  | None => None
  end.

End utf16.

(** ** JSON values and the scanner of encoding/json *)

(** A JSON text after scanning.  A number keeps its literal (the target
    type decides how it is converted), a string is already unquoted, and
    an object keeps its members in order, duplicates included. *)
Inductive json : Type :=
| JNull
| JBool (b : bool)
| JNumber (lit : string)
| JString (s : string)
| JArray (elems : list json)
| JObject (members : list (string * json)).

Module scanner.

(** [isSpace]: space, tab, carriage return, line feed. *)
Definition isSpace (b : byte) : bool :=
  match b with
  | x20 | x09 | x0d | x0a => true
  | _ => false
  end.

Fixpoint skipSpace (s : bytes) : bytes :=
  match s with
  | b :: t => if isSpace b then skipSpace t else s
  | [] => []
  end.

Definition isDigit (b : byte) : bool := utf8.within 0x30 0x39 b.

Fixpoint digits (s : bytes) : bytes * bytes :=
  match s with
  | b :: t =>
      if isDigit b then let '(ds, r) := digits t in (b :: ds, r) else ([], s)
  | [] => ([], [])
  end.

Definition hexval (b : byte) : option N :=
  let n := Byte.to_N b in
  if utf8.within 0x30 0x39 b then Some (n - 0x30)%N
  else if utf8.within 0x61 0x66 b then Some (n - 0x61 + 10)%N
  else if utf8.within 0x41 0x46 b then Some (n - 0x41 + 10)%N
  else None.

(** Four hexadecimal digits at the head of [s]. *)
Definition hex4 (s : bytes) : option N :=
  match s with
  | a :: b :: c :: d :: _ =>
      match hexval a, hexval b, hexval c, hexval d with
      | Some a, Some b, Some c, Some d =>
          Some (a * 4096 + b * 256 + c * 16 + d)%N
      | _, _, _, _ => None
      end
  | _ => None
  end.

(** [getu4]: the value of a [\uXXXX] escape at the head of [s]. *)
Definition getu4 (s : bytes) : option N :=
  match s with
  | x5c :: x75 :: t => hex4 t
  | _ => None
  end.

(** The body of a string literal, after the opening quote, up to and
    including the closing quote: the scanner's validation and [unquote]
    in one pass.  Control bytes are refused; invalid UTF-8 and unpaired
    surrogates become U+FFFD. *)
Fixpoint stringBody (fuel : nat) (s : bytes) : option (bytes * bytes) :=
  match fuel with
  | O => None
  | S fuel =>
      let emit (out : bytes) (rest : bytes) :=
        match stringBody fuel rest with
        | Some (w, r) => Some (out ++ w, r)
        | None => None
        end in
      match s with
      | [] => None
      | x22 :: rest => Some ([], rest)
      | x5c :: e :: rest =>
          match e with
          | x22 | x5c | x2f => emit [e] rest
          | x62 => emit [x08] rest
          | x66 => emit [x0c] rest
          | x6e => emit [x0a] rest
          | x72 => emit [x0d] rest
          | x74 => emit [x09] rest
          | x75 =>
              match hex4 rest with
              | None => None
              | Some rr =>
                  let rest1 := skipn 4 rest in
                  if utf16.IsSurrogate rr then
                    match utf16.DecodeRune rr (getu4 rest1) with
                    | Some dec => emit (utf8.EncodeRune dec) (skipn 6 rest1)
                    | None => emit (utf8.EncodeRune utf8.RuneError) rest1
                    end
                  else emit (utf8.EncodeRune rr) rest1
              end
          | _ => None
          end
      | b :: rest =>
          if (Byte.to_N b <? 0x20)%N then None
          else if (Byte.to_N b <? 0x80)%N then emit [b] rest
          else
            match utf8.DecodeRune s with
            | Some (_, n) => emit (firstn n s) (skipn n s)
            | None => emit (utf8.EncodeRune utf8.RuneError) rest
            end
      end
  end.

(** A number literal: an optional minus sign; 0, or a digit 1-9 and
    further digits; optionally a point and one or more digits;
    optionally e or E, an optional sign, and one or more digits. *)
Definition number (s : bytes) : option (bytes * bytes) :=
  let '(sign, s1) :=
    match s with
    | x2d :: t => ([x2d], t)
    | _ => ([], s)
    end in
  let int :=
    match s1 with
    | x30 :: t => Some ([x30], t)
    | d :: t => if isDigit d then let '(ds, r) := digits t in Some (d :: ds, r) else None
    | [] => None
    end in
  match int with
  | None => None
  | Some (ip, s2) =>
      let frac :=
        match s2 with
        | x2e :: t =>
            match digits t with
            | ([], _) => None
            | (ds, r) => Some (x2e :: ds, r)
            end
        | _ => Some ([], s2)
        end in
      match frac with
      | None => None
      | Some (fp, s3) =>
          match s3 with
          | (x65 | x45) as e :: t =>
              let '(es, t1) :=
                match t with
                | (x2b | x2d) as c :: t1 => ([c], t1)
                | _ => ([], t)
                end in
              match digits t1 with
              | ([], _) => None
              | (ds, r) => Some (sign ++ ip ++ fp ++ e :: es ++ ds, r)
              end
          | _ => Some (sign ++ ip ++ fp, s3)
          end
      end
  end.

Definition maxNestingDepth : N := 10000.

(** One JSON value at the head of [s] (leading white space skipped) and
    the input that follows it. *)
Fixpoint value (fuel : nat) (depth : N) (s : bytes) : option (json * bytes) :=
  match fuel with
  | O => None
  | S fuel =>
      match skipSpace s with
      | x7b :: s1 =>
          if (maxNestingDepth <=? depth)%N then None
          else
            match skipSpace s1 with
            | x7d :: s2 => Some (JObject [], s2)
            | _ =>
                match members fuel (depth + 1) s1 with
                | Some (ms, r) => Some (JObject ms, r)
                | None => None
                end
            end
      | x5b :: s1 =>
          if (maxNestingDepth <=? depth)%N then None
          else
            match skipSpace s1 with
            | x5d :: s2 => Some (JArray [], s2)
            | _ =>
                match elements fuel (depth + 1) s1 with
                | Some (es, r) => Some (JArray es, r)
                | None => None
                end
            end
      | x22 :: s1 =>
          match stringBody (S (length s1)) s1 with
          | Some (w, r) => Some (JString (string_of_list_byte w), r)
          | None => None
          end
      | x74 :: x72 :: x75 :: x65 :: r => Some (JBool true, r)
      | x66 :: x61 :: x6c :: x73 :: x65 :: r => Some (JBool false, r)
      | x6e :: x75 :: x6c :: x6c :: r => Some (JNull, r)
      | s0 =>
          match number s0 with
          | Some (lit, r) => Some (JNumber (string_of_list_byte lit), r)
          | None => None
          end
      end
  end
with elements (fuel : nat) (depth : N) (s : bytes) : option (list json * bytes) :=
  match fuel with
  | O => None
  | S fuel =>
      match value fuel depth s with
      | Some (v, r) =>
          match skipSpace r with
          | x2c :: r1 =>
              match elements fuel depth r1 with
              | Some (vs, r2) => Some (v :: vs, r2)
              | None => None
              end
          | x5d :: r1 => Some ([v], r1)
          | _ => None
          end
      | None => None
      end
  end
with members (fuel : nat) (depth : N) (s : bytes)
  : option (list (string * json) * bytes) :=
  match fuel with
  | O => None
  | S fuel =>
      match skipSpace s with
      | x22 :: s1 =>
          match stringBody (S (length s1)) s1 with
          | Some (k, r) =>
              match skipSpace r with
              | x3a :: r1 =>
                  match value fuel depth r1 with
                  | Some (v, r2) =>
                      match skipSpace r2 with
                      | x2c :: r3 =>
                          match members fuel depth r3 with
                          | Some (ms, r4) =>
                              Some ((string_of_list_byte k, v) :: ms, r4)
                          | None => None
                          end
                      | x7d :: r3 => Some ([(string_of_list_byte k, v)], r3)
                      | _ => None
                      end
                  | None => None
                  end
              | _ => None
              end
          | None => None
          end
      | _ => None
      end
  end.

(** The first value of a stream, as [Decoder.Decode] reads it: the raw
    bytes of the value (without the white space before it), the value,
    and what follows. *)
Definition next (s : bytes) : option (bytes * json * bytes) :=
  let s0 := skipSpace s in
  match value (2 * length s0 + 2) 0 s0 with
  | Some (v, r) => Some (firstn (length s0 - length r) s0, v, r)
  | None => None
  end.

(** [checkValid] followed by the scan of the whole of [data], as
    [json.Unmarshal] does it: one value and nothing but white space
    after it. *)
Definition whole (data : bytes) : option json :=
  match value (2 * length data + 2) 0 data with
  | Some (v, r) =>
      match skipSpace r with
      | [] => Some v
      | _ => None
      end
  | None => None
  end.

End scanner.

(** ** Errors (errors, fmt.Errorf) and formatted values *)

(** The Go types the decoder reports in a type error. *)
Inductive gotype : Type :=
| TString (name : string)
| TInt
| TStruct (name : string)
| TMap.

(** An [error] value.  [fmt.Errorf] is kept as its format and operands, so
    that an error made with the verb [%w] still holds the error it wraps.
    The errors of encoding/json keep their kind; their position and text
    are left out. *)
Inductive error : Type :=
| errorString (text : string)
| Errorf (format : string) (args : list operand)
| SyntaxError
| UnmarshalTypeError (Value : string) (Type_ : gotype)
with operand : Type :=
| AString (s : string)
| AInt (n : Z)
| AError (e : error)
| AHeader (h : gmap string (list string)).

Fixpoint firstError (args : list operand) : option error :=
  match args with
  | AError e :: _ => Some e
  | _ :: rest => firstError rest
  | [] => None
  end.

Definition hasVerbW (format : string) : bool :=
  match String.index 0 "%w" format with
  | Some _ => true
  | None => false
  end.

(** [errors.Unwrap]. *)
Definition Unwrap (e : error) : option error :=
  match e with
  | Errorf format args => if hasVerbW format then firstError args else None
  | _ => None
  end.

(** [strconv.Itoa] and the verb [%d]. *)
Definition Itoa (n : Z) : string := NilZero.string_of_int (Z.to_int n).

(** ** Decoding: json.Unmarshal and Decoder.Decode *)

Module decode.

(** The name of a JSON value in a type error. *)
Definition describe (v : json) : string :=
  match v with
  | JNull => "null"
  | JBool _ => "bool"
  | JNumber _ => "number"
  | JString _ => "string"
  | JArray _ => "array"
  | JObject _ => "object"
  end.

(** [decodeState.saveError]: the first error is the one reported. *)
Definition saveError (saved new : option error) : option error :=
  match saved with
  | Some _ => saved
  | None => new
  end.

Definition upper (c : byte) : byte :=
  if utf8.within 0x61 0x7A c then utf8.byte_of (Byte.to_N c - 32) else c.

(** [foldName] on the bytes of a key.  ASCII letters go to upper case; the
    two runes of other scripts that fold to an ASCII letter, U+017F (long s)
    and U+212A (Kelvin sign), go to S and K.  Any other rune is kept: its
    fold is not ASCII either, which is all the matching of the field names
    below depends on. *)
Fixpoint foldBytes (s : bytes) : bytes :=
  match s with
  | xc5 :: xbf :: t => x53 :: foldBytes t
  | xe2 :: x84 :: xaa :: t => x4b :: foldBytes t
  | c :: t => upper c :: foldBytes t
  | [] => []
  end.

Definition foldName (s : string) : string :=
  string_of_list_byte (foldBytes (list_byte_of_string s)).

(** The field a member key selects: the field of that exact name, or else
    the first field equal to it under folding. *)
Definition lookupField (fields : list string) (key : string) : option string :=
  match find (String.eqb key) fields with
  | Some f => Some f
  | None => find (fun f => String.eqb (foldName f) (foldName key)) fields
  end.

(** A JSON value stored into a target of kind string. *)
Definition intoString (ty : gotype) (v : json) (old : string) : string * option error :=
  match v with
  | JNull => (old, None)
  | JString s => (s, None)
  | _ => (old, Some (UnmarshalTypeError (describe v) ty))
  end.

Definition digitVal (b : byte) : option Z :=
  if scanner.isDigit b then Some (Z.of_N (Byte.to_N b) - 48)%Z else None.

Fixpoint decimal (acc : Z) (s : bytes) : option Z :=
  match s with
  | [] => Some acc
  | b :: t =>
      match digitVal b with
      | Some d => decimal (10 * acc + d)%Z t
      | None => None
      end
  end.

(** [strconv.ParseInt lit 10 64]: an optional sign and decimal digits, in
    the range of int64. *)
Definition ParseInt (lit : string) : option Z :=
  let '(neg, ds) :=
    match list_byte_of_string lit with
    | x2d :: t => (true, t)
    | x2b :: t => (false, t)
    | t => (false, t)
    end in
  match ds with
  | [] => None
  | _ =>
      match decimal 0 ds with
      | Some n =>
          let z := if neg then (- n)%Z else n in
          if ((- 2 ^ 63 <=? z) && (z <? 2 ^ 63))%Z then Some z else None
      | None => None
      end
  end.

(** A JSON value stored into a target of type int. *)
Definition intoInt (v : json) (old : Z) : Z * option error :=
  match v with
  | JNull => (old, None)
  | JNumber lit =>
      match ParseInt lit with
      | Some n => (n, None)
      | None => (old, Some (UnmarshalTypeError ("number " ++ lit) TInt))
      end
  | _ => (old, Some (UnmarshalTypeError (describe v) TInt))
  end.

(** One member of an object stored into a struct: a key that selects no
    field is skipped; a value of the wrong type leaves the field as it is
    and its error is saved while decoding goes on. *)
Definition member {T : Type} (fields : list string)
  (setField : string -> json -> T -> T * option error)
  (st : T * option error) (kv : string * json) : T * option error :=
  match lookupField fields (fst kv) with
  | Some f =>
      let '(t, err) := setField f (snd kv) (fst st) in
      (t, saveError (snd st) err)
  | None => st
  end.

(** A JSON value stored into a struct: [null] changes nothing, an object
    is stored member by member, anything else is a type error. *)
Definition intoStruct {T : Type} (ty : gotype) (fields : list string)
  (setField : string -> json -> T -> T * option error)
  (v : json) (old : T) : T * option error :=
  match v with
  | JNull => (old, None)
  | JObject ms => fold_left (member fields setField) ms (old, None)
  | _ => (old, Some (UnmarshalTypeError (describe v) ty))
  end.

(** A JSON value stored into a [map[string]string]: a member whose value
    fails to decode is still entered, with the zero value. *)
Definition intoMap (v : json) (old : option (gmap string string))
  : option (gmap string string) * option error :=
  match v with
  | JNull => (None, None)
  | JObject ms =>
      let step (st : gmap string string * option error) (kv : string * json) :=
        let '(s, err) := intoString (TString "string") (snd kv) "" in
        (<[fst kv := s]> (fst st), saveError (snd st) err) in
      let '(m, err) := fold_left step ms (default ∅ old, None) in
      (Some m, err)
  | _ => (old, Some (UnmarshalTypeError (describe v) TMap))
  end.

(** [json.Unmarshal data &t]: the syntax of the whole of [data] is checked
    before anything is stored. *)
Definition Unmarshal {T : Type} (into : json -> T -> T * option error)
  (data : bytes) (old : T) : T * option error :=
  match scanner.whole data with
  | Some v => into v old
  | None => (old, Some SyntaxError)
  end.

(** [json.NewDecoder(body).Decode(&t)] for a target that does not implement
    [Unmarshaler]: the first value of the stream is stored. *)
Definition Decode {T : Type} (into : json -> T -> T * option error)
  (body : bytes) (old : T) : T * option error :=
  match scanner.next body with
  | Some (_, v, _) => into v old
  | None => (old, Some SyntaxError)
  end.

End decode.

(** ** Encoding: json.Marshal *)

Module encode.

Definition hexDigit (n : N) : byte :=
  utf8.byte_of (if (n <? 10)%N then 0x30 + n else 0x61 + (n - 10))%N.

(** [htmlSafeSet]: the ASCII bytes written as they are. *)
Definition htmlSafe (b : byte) : bool :=
  match b with
  | x22 | x5c | x3c | x3e | x26 => false
  | _ => utf8.within 0x20 0x7F b
  end.

(** The escaped contents of a string, as [json.Marshal] writes them (with
    the escaping of HTML characters it applies by default, and the short
    forms of backspace and form feed of Go 1.22 and later). *)
Fixpoint escape (fuel : nat) (s : bytes) : bytes :=
  match fuel with
  | O => []
  | S fuel =>
      match s with
      | [] => []
      | b :: rest =>
          if (Byte.to_N b <? 0x80)%N then
            if htmlSafe b then b :: escape fuel rest
            else
              match b with
              | x5c | x22 => x5c :: b :: escape fuel rest
              | x08 => x5c :: x62 :: escape fuel rest
              | x0c => x5c :: x66 :: escape fuel rest
              | x0a => x5c :: x6e :: escape fuel rest
              | x0d => x5c :: x72 :: escape fuel rest
              | x09 => x5c :: x74 :: escape fuel rest
              | _ =>
                  [x5c; x75; x30; x30;
                   hexDigit (N.shiftr (Byte.to_N b) 4);
                   hexDigit (N.land (Byte.to_N b) 0xF)]
                    ++ escape fuel rest
              end
          else
            match utf8.DecodeRune s with
            | None => [x5c; x75; x66; x66; x66; x64] ++ escape fuel rest
            | Some (r, n) =>
                if ((r =? 0x2028) || (r =? 0x2029))%N
                then [x5c; x75; x32; x30; x32; hexDigit (N.land r 0xF)]
                       ++ escape fuel (skipn n s)
                else firstn n s ++ escape fuel (skipn n s)
            end
      end
  end.

Definition String (s : string) : bytes :=
  let b := list_byte_of_string s in
  x22 :: escape (length b) b ++ [x22].

Definition Int (n : Z) : bytes := list_byte_of_string (Itoa n).

(** Values separated by commas. *)
Fixpoint commas (items : list bytes) : bytes :=
  match items with
  | [] => []
  | [x] => x
  | x :: rest => x ++ x2c :: commas rest
  end.

(** A slice: [null] when nil, else an array. *)
Definition Slice {A : Type} (elem : A -> bytes) (s : option (list A)) : bytes :=
  match s with
  | None => list_byte_of_string "null"
  | Some l => x5b :: commas (map elem l) ++ [x5d]
  end.

(** A struct: its fields in declaration order, under their JSON names. *)
Definition Struct (fields : list (string * bytes)) : bytes :=
  x7b :: commas (map (fun f => String (fst f) ++ x3a :: snd f) fields) ++ [x7d].

End encode.

(** ** net/http: headers, requests, responses *)

Module http.

Abbreviation Header := (gmap string (list string)).

(** [validHeaderFieldByte]: the token characters of RFC 7230. *)
Definition validHeaderFieldByte (b : byte) : bool :=
  utf8.within 0x30 0x39 b || utf8.within 0x41 0x5A b || utf8.within 0x61 0x7A b
  || match b with
     | x21 | x23 | x24 | x25 | x26 | x27 | x2a | x2b | x2d | x2e
     | x5e | x5f | x60 | x7c | x7e => true
     | _ => false
     end.

Definition lower (c : byte) : byte :=
  if utf8.within 0x41 0x5A c then utf8.byte_of (Byte.to_N c + 32) else c.

Fixpoint canonical (up : bool) (s : bytes) : bytes :=
  match s with
  | [] => []
  | c :: t =>
      (if up then decode.upper c else lower c)
        :: canonical (if c is x2d then true else false) t
  end.

(** [textproto.CanonicalMIMEHeaderKey]: the first letter and each letter
    after a hyphen in upper case, the others in lower case; a key with a
    byte that is no token character is returned as it is. *)
Definition CanonicalHeaderKey (k : string) : string :=
  let b := list_byte_of_string k in
  if forallb validHeaderFieldByte b
  then string_of_list_byte (canonical true b)
  else k.

(** [Header.Set]. *)
Definition Set_ (h : Header) (key value : string) : Header :=
  <[CanonicalHeaderKey key := [value]]> h.

(** [Header.Get]: the first value under the key, or the empty string. *)
Definition Get (h : Header) (key : string) : string :=
  match h !! CanonicalHeaderKey key with
  | Some (v :: _) => v
  | _ => ""
  end.

Definition MethodGet : string := "GET".
Definition MethodPost : string := "POST".
Definition MethodPut : string := "PUT".
Definition StatusOK : Z := 200.

Record Request : Type := mkRequest {
  Method : string;
  URL : string;
  ReqHeader : Header;
  ReqBody : bytes;
}.

(** [http.NewRequestWithContext ctx method url body], taken to succeed (the
    client ignores its error): the endpoint is assumed to be a URL that
    parses. *)
Definition NewRequest (method url : string) (body : bytes) : Request :=
  {| Method := method; URL := url; ReqHeader := ∅; ReqBody := body |}.

Definition SetHeader (req : Request) (key value : string) : Request :=
  {| Method := Method req; URL := URL req;
     ReqHeader := Set_ (ReqHeader req) key value; ReqBody := ReqBody req |}.

(** A response whose body has been received in full. *)
Record Response : Type := mkResponse {
  Status : string;
  StatusCode : Z;
  Header_ : Header;
  Body : bytes;
}.

End http.

(** ** Protocol types *)

Definition EventType : Type := string.

(** The constants of the package. *)
Module extensions.

Definition Invoke : EventType := "INVOKE".
Definition Shutdown : EventType := "SHUTDOWN".
Definition DefaultTelemetryPort : Z := 8080.

Definition lambdaExtensionNameHeader : string := "Lambda-Extension-Name".
Definition lambdaExtensionIdentifierHeader : string := "Lambda-Extension-Identifier".

End extensions.

(** The anonymous struct of [InvokeEvent.Tracing]. *)
Module Tracing.

Record t : Type := mk {
  Type_ : string;
  Value : string;
}.

Definition zero : t := mk "" "".

Definition fields : list string := ["type"; "value"].

Definition setField (f : string) (v : json) (x : t) : t * option error :=
  if String.eqb f "type" then
    let '(s, err) := decode.intoString (TString "string") v (Type_ x) in
    (mk s (Value x), err)
  else
    let '(s, err) := decode.intoString (TString "string") v (Value x) in
    (mk (Type_ x) s, err).

Definition into : json -> t -> t * option error :=
  decode.intoStruct (TStruct "struct { Type string; Value string }") fields setField.

End Tracing.

Module InvokeEvent.

Record t : Type := mk {
  EventType : EventType;
  DeadlineMs : Z;
  RequestID : string;
  InvokedFunctionArn : string;
  Tracing : Tracing.t;
}.

Definition zero : t := mk "" 0 "" "" Tracing.zero.

Definition fields : list string :=
  ["eventType"; "deadlineMs"; "requestId"; "invokedFunctionArn"; "tracing"].

Definition setField (f : string) (v : json) (x : t) : t * option error :=
  if String.eqb f "eventType" then
    let '(s, err) := decode.intoString (TString "extensions.EventType") v (EventType x) in
    (mk s (DeadlineMs x) (RequestID x) (InvokedFunctionArn x) (Tracing x), err)
  else if String.eqb f "deadlineMs" then
    let '(n, err) := decode.intoInt v (DeadlineMs x) in
    (mk (EventType x) n (RequestID x) (InvokedFunctionArn x) (Tracing x), err)
  else if String.eqb f "requestId" then
    let '(s, err) := decode.intoString (TString "string") v (RequestID x) in
    (mk (EventType x) (DeadlineMs x) s (InvokedFunctionArn x) (Tracing x), err)
  else if String.eqb f "invokedFunctionArn" then
    let '(s, err) := decode.intoString (TString "string") v (InvokedFunctionArn x) in
    (mk (EventType x) (DeadlineMs x) (RequestID x) s (Tracing x), err)
  else
    let '(tr, err) := Tracing.into v (Tracing x) in
    (mk (EventType x) (DeadlineMs x) (RequestID x) (InvokedFunctionArn x) tr, err).

Definition into : json -> t -> t * option error :=
  decode.intoStruct (TStruct "extensions.InvokeEvent") fields setField.

End InvokeEvent.

Module ShutdownEvent.

Record t : Type := mk {
  EventType : EventType;
  DeadlineMs : Z;
  ShutdownReason : string;
}.

Definition zero : t := mk "" 0 "".

Definition fields : list string := ["eventType"; "deadlineMs"; "shutdownReason"].

Definition setField (f : string) (v : json) (x : t) : t * option error :=
  if String.eqb f "eventType" then
    let '(s, err) := decode.intoString (TString "extensions.EventType") v (EventType x) in
    (mk s (DeadlineMs x) (ShutdownReason x), err)
  else if String.eqb f "deadlineMs" then
    let '(n, err) := decode.intoInt v (DeadlineMs x) in
    (mk (EventType x) n (ShutdownReason x), err)
  else
    let '(s, err) := decode.intoString (TString "string") v (ShutdownReason x) in
    (mk (EventType x) (DeadlineMs x) s, err).

Definition into : json -> t -> t * option error :=
  decode.intoStruct (TStruct "extensions.ShutdownEvent") fields setField.

End ShutdownEvent.

(** ** The event decoder *)

Module Event.

Record t : Type := mk {
  Invoke : option InvokeEvent.t;
  Shutdown : option ShutdownEvent.t;
}.

(** [var ev Event]. *)
Definition zero : t := mk None None.

(** The local [var common struct { EventType EventType }]. *)
Record common : Type := mkCommon {
  EventType : EventType;
}.

Definition commonFields : list string := ["eventType"].

Definition commonSetField (f : string) (v : json) (x : common)
  : common * option error :=
  let '(s, err) := decode.intoString (TString "extensions.EventType") v (EventType x) in
  (mkCommon s, err).

Definition intoCommon : json -> common -> common * option error :=
  decode.intoStruct (TStruct "struct { EventType extensions.EventType }")
    commonFields commonSetField.

(** [func (r *Event) UnmarshalJSON(data []byte) error]: the receiver after
    the call, and the error returned. *)
Definition UnmarshalJSON (r : t) (data : bytes) : t * option error :=
  match decode.Unmarshal intoCommon data (mkCommon "") with
  | (_, Some err) => (r, Some err)
  | (common, None) =>
      if String.eqb (EventType common) extensions.Invoke then
        let '(iv, err) := decode.Unmarshal InvokeEvent.into data InvokeEvent.zero in
        (mk (Some iv) (Shutdown r), err)
      else if String.eqb (EventType common) extensions.Shutdown then
        let '(sv, err) := decode.Unmarshal ShutdownEvent.into data ShutdownEvent.zero in
        (mk (Invoke r) (Some sv), err)
      else
        (r, Some (Errorf "unknown event type: %s" [AString (EventType common)]))
  end.

(** [json.NewDecoder(body).Decode(&ev)]: [Event] implements [Unmarshaler],
    so the decoder hands the raw bytes of the first value of the stream,
    whatever its kind, to [UnmarshalJSON]. *)
Definition Decode (body : bytes) (ev : t) : t * option error :=
  match scanner.next body with
  | Some (raw, _, _) => UnmarshalJSON ev raw
  | None => (ev, Some SyntaxError)
  end.

End Event.

(** ** Telemetry subscription *)

Module TelemetryBuffering.

Record t : Type := mk {
  MaxItems : Z;
  MaxBytes : Z;
  TimeoutMs : Z;
}.

Definition Marshal (b : t) : bytes :=
  encode.Struct [("maxItems", encode.Int (MaxItems b));
                 ("maxBytes", encode.Int (MaxBytes b));
                 ("timeoutMs", encode.Int (TimeoutMs b))].

End TelemetryBuffering.

Module TelemetryDestination.

Record t : Type := mk {
  Protocol : string;
  URI : string;
}.

Definition Marshal (d : t) : bytes :=
  encode.Struct [("protocol", encode.String (Protocol d));
                 ("URI", encode.String (URI d))].

End TelemetryDestination.

Module TelemetrySubscription.

(** [Types] is a slice: [None] is the nil slice. *)
Record t : Type := mk {
  SchemaVersion : string;
  Types : option (list string);
  Buffering : TelemetryBuffering.t;
  Destination : TelemetryDestination.t;
}.

Definition Marshal (s : t) : bytes :=
  encode.Struct [("schemaVersion", encode.String (SchemaVersion s));
                 ("types", encode.Slice encode.String (Types s));
                 ("buffering", TelemetryBuffering.Marshal (Buffering s));
                 ("destination", TelemetryDestination.Marshal (Destination s))].

End TelemetrySubscription.

Definition DefaultTelemetrySubscription : TelemetrySubscription.t :=
  TelemetrySubscription.mk
    "2022-12-13"
    (Some ["function"; "platform"])
    (TelemetryBuffering.mk 500 (1024 * 1024) 1000)
    (TelemetryDestination.mk "HTTP"
       ("http://sandbox.localdomain:" ++ Itoa extensions.DefaultTelemetryPort)).

(** A copy of the package variable, which nothing in the package assigns. *)
Definition NewDefaultTelemetrySubscription : TelemetrySubscription.t :=
  DefaultTelemetrySubscription.

Module registerPayload.

Record t : Type := mk {
  Events : option (list EventType);
}.

Definition Marshal (p : t) : bytes :=
  encode.Struct [("events", encode.Slice encode.String (Events p))].

End registerPayload.

(** ** The world, the trace and the client *)

(** [slog] levels and attribute values. *)
Inductive Level : Type := LevelDebug | LevelInfo | LevelWarn | LevelError.

Inductive attr : Type :=
| VString (s : string)
| VHeader (h : http.Header)
| VEvents (l : option (list EventType))
| VMap (m : option (gmap string string))
| VError (e : error).

(** What the client does, in order: log records, HTTP round trips handed
    to the transport, and calls of the two callbacks. *)
Inductive action : Type :=
| Log (level : Level) (msg : string) (attrs : list (string * attr))
| RoundTrip (req : http.Request)
| CalledInvoke (ev : InvokeEvent.t)
| CalledShutdown (ev : ShutdownEvent.t).

Definition isRoundTrip (a : action) : bool :=
  match a with
  | RoundTrip _ => true
  | _ => false
  end.

Definition isCallback (a : action) : bool :=
  match a with
  | CalledInvoke _ | CalledShutdown _ => true
  | _ => false
  end.

(** The number of network calls in a trace. *)
Definition roundTrips (tr : list action) : nat := length (List.filter isRoundTrip tr).

Module context.

(** [context.Context], as far as the client looks at it: whether [Done] is
    closed in the present world. *)
Record Context (W : Type) : Type := mk {
  Done : W -> bool;
}.

Arguments mk {W} _.
Arguments Done {W} _ _.

End context.

Section WithWorld.

Context {W : Type}.

(** The state threaded through the client: the world and the trace. *)
Definition state : Type := W * list action.

Definition M (A : Type) : Type := state -> A * state.

Definition ret {A : Type} (a : A) : M A := fun s => (a, s).

Definition bind {A B : Type} (m : M A) (k : A -> M B) : M B :=
  fun s => let '(a, s') := m s in k a s'.

Definition emit (a : action) : M unit :=
  fun s => (tt, (fst s, snd s ++ [a])).

(** A computation of the world alone. *)
Definition world {A : Type} (f : W -> A * W) : M A :=
  fun s => let '(a, w) := f (fst s) in (a, (w, snd s)).

Definition log (level : Level) (msg : string) (attrs : list (string * attr)) : M unit :=
  emit (Log level msg attrs).

Definition callback (A : Type) : Type :=
  context.Context W -> A -> W -> option error * W.

(** [Client].  The field [client] is the transport: what [c.client.Do]
    answers to a request in a world, a response or an error.  The
    callbacks may change the world (they may cancel the context, say) but
    not the client. *)
Record Client : Type := mkClient {
  Name : string;
  CallbackInvoke : option (callback InvokeEvent.t);
  CallbackShutdown : option (callback ShutdownEvent.t);
  extensionId : string;
  client : http.Request -> W -> (http.Response + error) * W;
  lambdaExtensionAPIEndpoint : string;
  lambdaTelemetryAPIEndpoint : string;
}.

Definition withExtensionId (c : Client) (id : string) : Client :=
  {| Name := Name c;
     CallbackInvoke := CallbackInvoke c;
     CallbackShutdown := CallbackShutdown c;
     extensionId := id;
     client := client c;
     lambdaExtensionAPIEndpoint := lambdaExtensionAPIEndpoint c;
     lambdaTelemetryAPIEndpoint := lambdaTelemetryAPIEndpoint c |}.

(** [NewClient], given what it reads from the process: the base name of
    the program, the value of AWS_LAMBDA_RUNTIME_API, and the default HTTP
    client. *)
Definition NewClient (name host : string)
  (defaultClient : http.Request -> W -> (http.Response + error) * W)
  : Client + error :=
  if String.eqb host "" then inr (Errorf "AWS_LAMBDA_RUNTIME_API is not set" [])
  else
    inl {| Name := name;
           CallbackInvoke := None;
           CallbackShutdown := None;
           extensionId := "";
           client := defaultClient;
           lambdaExtensionAPIEndpoint := "http://" ++ host ++ "/2020-01-01/extension";
           lambdaTelemetryAPIEndpoint := "http://" ++ host ++ "/2022-07-01/telemetry" |}.

(** [c.client.Do(req)]. *)
Definition Do (c : Client) (req : http.Request) : M (http.Response + error) :=
  bind (emit (RoundTrip req)) (fun _ => world (client c req)).

End WithWorld.

Arguments state : clear implicits.
Arguments M : clear implicits.
Arguments Client : clear implicits.
Arguments callback : clear implicits.

Declare Scope client_scope.
Delimit Scope client_scope with client.
Notation "x <- m ;; k" := (bind m (fun x => k))
  (at level 100, m at next level, right associativity) : client_scope.
Notation "m ;; k" := (bind m (fun _ => k))
  (at level 100, right associativity) : client_scope.
#[local] Open Scope client_scope.

Section Operations.

Context {W : Type}.

Implicit Types (c : Client W) (ctx : context.Context W).

(** [Register]: the client after the call and the error returned. *)
Definition Register c ctx : M W (Client W * option error) :=
  let u := (lambdaExtensionAPIEndpoint c ++ "/register")%string in
  let events : list EventType := [] in
  let events := if CallbackInvoke c is Some _ then events ++ [extensions.Invoke] else events in
  let events := if CallbackShutdown c is Some _ then events ++ [extensions.Shutdown] else events in
  let b := registerPayload.Marshal (registerPayload.mk (Some events)) in
  let req := http.NewRequest http.MethodPost u b in
  let req := http.SetHeader req extensions.lambdaExtensionNameHeader (Name c) in
  log LevelInfo "registering extension"
    [("url", VString u); ("name", VString (Name c));
     ("headers", VHeader (http.ReqHeader req)); ("events", VEvents (Some events))] ;;
  r <- Do c req ;;
  match r with
  | inr err => ret (c, Some (Errorf "failed to register extension: %w" [AError err]))
  | inl resp =>
      match decode.Decode decode.intoMap (http.Body resp) None with
      | (_, Some err) =>
          ret (c, Some (Errorf "failed to decode register response: %w" [AError err]))
      | (result, None) =>
          log LevelInfo "register status"
            [("status", VString (http.Status resp)); ("response", VMap result)] ;;
          let c := withExtensionId c
                     (http.Get (http.Header_ resp) extensions.lambdaExtensionIdentifierHeader) in
          if String.eqb (extensionId c) "" then
            ret (c, Some (Errorf "extension identifier is empty: %d %v"
                            [AInt (http.StatusCode resp); AHeader (http.Header_ resp)]))
          else
            log LevelInfo "extension registered"
              [("extension_id", VString (extensionId c))] ;;
            ret (c, None)
      end
  end.

(** [fetchNextEvent]: the event ([inl]) or the error ([inr]). *)
Definition fetchNextEvent c ctx : M W (Event.t + error) :=
  let u := (lambdaExtensionAPIEndpoint c ++ "/event/next")%string in
  log LevelDebug "getting next event"
    [("url", VString u); ("extension_id", VString (extensionId c))] ;;
  let req := http.NewRequest http.MethodGet u [] in
  let req := http.SetHeader req extensions.lambdaExtensionIdentifierHeader (extensionId c) in
  r <- Do c req ;;
  match r with
  | inr err => ret (inr (Errorf "failed to get next event: %w" [AError err]))
  | inl resp =>
      if negb (Z.eqb (http.StatusCode resp) http.StatusOK) then
        ret (inr (Errorf "failed to get next event: %d" [AInt (http.StatusCode resp)]))
      else
        match Event.Decode (http.Body resp) Event.zero with
        | (_, Some err) =>
            ret (inr (Errorf "failed to decode event response: %w" [AError err]))
        | (ev, None) => ret (inl ev)
        end
  end.

(** Where the loop of [Run] stands after one pass through its body: back
    at the poll, or returned with a result. *)
Inductive next : Type :=
| Polling
| Returned (err : option error).

(** The body of the loop after a successful fetch. *)
Definition dispatch c ctx (ev : Event.t) : M W next :=
  match Event.Invoke ev with
  | Some iv =>
      log LevelDebug "invoke event received" [] ;;
      match CallbackInvoke c with
      | Some f =>
          emit (CalledInvoke iv) ;;
          r <- world (f ctx iv) ;;
          match r with
          | Some err =>
              log LevelError "invoke callback failed" [("error", VError err)] ;;
              ret Polling
          | None => ret Polling
          end
      | None =>
          log LevelWarn "invoke callback is not set" [] ;;
          ret Polling
      end
  | None =>
      match Event.Shutdown ev with
      | Some sv =>
          log LevelDebug "shutdown event received. shutting down extension" [] ;;
          match CallbackShutdown c with
          | Some f =>
              emit (CalledShutdown sv) ;;
              r <- world (f ctx sv) ;;
              match r with
              | Some err =>
                  log LevelError "shutdown callback failed" [("error", VError err)] ;;
                  ret (Returned (Some (Errorf "shutdown callback failed: %w" [AError err])))
              | None => ret (Returned None)
              end
          | None =>
              log LevelWarn "shutdown callback is not set" [] ;;
              ret (Returned None)
          end
      | None =>
          log LevelWarn "unknown event received" [] ;;
          ret Polling
      end
  end.

(** One pass through the body of the loop of [Run]. *)
Definition iteration c ctx : M W next :=
  r <- fetchNextEvent c ctx ;;
  match r with
  | inr err =>
      done <- world (fun w => (context.Done ctx w, w)) ;;
      if done then ret (Returned None)
      else
        log LevelError "failed to fetch next event" [("error", VError err)] ;;
        ret Polling
  | inl ev => dispatch c ctx ev
  end.

(** The loop of [Run], for at most [fuel] passes: [Some r] when it has
    returned [r], [None] when it is still polling after [fuel] passes. *)
Fixpoint loop (fuel : nat) c ctx : M W (option (option error)) :=
  match fuel with
  | O => ret None
  | S fuel =>
      n <- iteration c ctx ;;
      match n with
      | Returned r => ret (Some r)
      | Polling => loop fuel c ctx
      end
  end.

(** [Run]. *)
Definition Run (fuel : nat) c ctx : M W (option (option error)) :=
  if String.eqb (extensionId c) "" then
    ret (Some (Some (Errorf "extension is not registered. call Register method first" [])))
  else loop fuel c ctx.

(** [SubscribeTelemetry]; [None] is the nil subscription. *)
Definition SubscribeTelemetry c ctx (subscription : option TelemetrySubscription.t)
  : M W (option error) :=
  let u := lambdaTelemetryAPIEndpoint c in
  let subscription :=
    match subscription with
    | None => NewDefaultTelemetrySubscription
    | Some s => s
    end in
  let s := TelemetrySubscription.Marshal subscription in
  let req := http.NewRequest http.MethodPut u s in
  let req := http.SetHeader req extensions.lambdaExtensionNameHeader (Name c) in
  let req := http.SetHeader req extensions.lambdaExtensionIdentifierHeader (extensionId c) in
  log LevelInfo "subscribing telemetry API"
    [("url", VString u); ("name", VString (Name c));
     ("headers", VHeader (http.ReqHeader req));
     ("payload", VString (string_of_list_byte s))] ;;
  r <- Do c req ;;
  match r with
  | inr err => ret (Some (Errorf "failed to register extension: %w" [AError err]))
  | inl resp =>
      let b := http.Body resp in
      if negb (Z.eqb (http.StatusCode resp) http.StatusOK) then
        ret (Some (Errorf "failed to subscribe telemetry API: %d %s"
                     [AInt (http.StatusCode resp); AString (string_of_list_byte b)]))
      else
        log LevelInfo "subscribed telemetry API"
          [("status", VString (http.Status resp));
           ("response", VString (string_of_list_byte b))] ;;
        ret None
  end.

End Operations.

(** ** A scripted host

    A world for running the client: the replies the transport will give,
    in order, and whether the context has been cancelled.  The reply
    bodies are those of the mock host of the repository
    ([MockExtensionAPIHandler]). *)

Module script.

Record world : Type := mk {
  replies : list (http.Response + error);
  cancelled : bool;
}.

(** The transport: the next scripted reply, or a refused connection when
    the script is over. *)
Definition transport (req : http.Request) (w : world)
  : (http.Response + error) * world :=
  match replies w with
  | r :: rest => (r, mk rest (cancelled w))
  | [] => (inr (errorString "connection refused"), w)
  end.

Definition ctx : context.Context world := context.mk cancelled.

(** [cancel()] of [context.WithCancel]. *)
Definition cancel (w : world) : world := mk (replies w) true.

Definition quoted (s : string) : bytes := x22 :: list_byte_of_string s ++ [x22].

(** An object with string members, written the way the mock host writes
    its bodies: a colon and a space after each key. *)
Definition object (ms : list (string * string)) : bytes :=
  x7b :: encode.commas
           (map (fun m => quoted (fst m) ++ list_byte_of_string ": " ++ quoted (snd m)) ms)
      ++ [x7d].

Definition ok (h : http.Header) (body : bytes) : http.Response + error :=
  inl (http.mkResponse "200 OK" 200 h body).

Definition jsonHeader : http.Header :=
  http.Set_ ∅ "Content-Type" "application/json".

(** The reply of the mock host to /event/next. *)
Definition event (kind : EventType) : http.Response + error :=
  ok jsonHeader (object [("eventType", kind)]).

(** The reply of the mock host to /register, with a given identifier. *)
Definition registered (id : string) : http.Response + error :=
  ok (http.Set_ jsonHeader extensions.lambdaExtensionIdentifierHeader id)
     (object [("functionName", "helloWorld"); ("functionVersion", "$LATEST");
              ("handler", "handler")]).

(** A reply to /register without the identifier header. *)
Definition unidentified : http.Response + error :=
  ok jsonHeader (object [("functionName", "helloWorld")]).

Definition fresh (name : string) : Client world :=
  match NewClient name "127.0.0.1:9001" transport with
  | inl c => c
  | inr _ => mkClient name None None "" transport "" ""
  end.

(** Callbacks returning a fixed result. *)
Definition answering {A : Type} (r : option error) : callback world A :=
  fun _ _ w => (r, w).

Definition withCallbacks (c : Client world)
  (onInvoke : option (callback world InvokeEvent.t))
  (onShutdown : option (callback world ShutdownEvent.t)) : Client world :=
  mkClient (Name c) onInvoke onShutdown (extensionId c) (client c)
    (lambdaExtensionAPIEndpoint c) (lambdaTelemetryAPIEndpoint c).

Definition start (rs : list (http.Response + error)) : state world := (mk rs false, []).

End script.


From Stdlib Require DecimalPos DecimalFacts.

(** ** The mock host (api.go)

    [MockExtensionAPIHandler] serves three paths.  The handlers of
    /register and /telemetry decode the body of the request, start
    goroutines, and answer; they are embedded as functions from the body
    to the answer and the goroutines started.  What the goroutines then do
    (tick, send on a channel, post telemetry) and the handler of
    /event/next, which blocks until one of them sends, are matters of time
    and are not embedded; the two bodies /event/next writes are those of
    [script.event].  Of the headers of an answer only those a handler sets
    are kept. *)

Module mock.

(** [strings.Replace s old new 1]: the first occurrence of [old], which
    is not empty, replaced. *)
Definition ReplaceOnce (s old new : string) : string :=
  match String.index 0 old s with
  | Some i =>
      (String.substring 0 i s ++ new
         ++ String.substring (i + String.length old)
              (String.length s - (i + String.length old)) s)%string
  | None => s
  end.

(** A JSON value stored into a [[]string] (or a slice of a string type):
    the slice is made anew, an element that is no string is left empty and
    its error saved.  The slice type is reported by its name. *)
Definition intoStrings (name elem : string) (v : json) (old : option (list string))
  : option (list string) * option error :=
  match v with
  | JNull => (None, None)
  | JArray es =>
      let step (st : list string * option error) (e : json) :=
        let '(s, err) := decode.intoString (TString elem) e "" in
        (fst st ++ [s], decode.saveError (snd st) err) in
      let '(l, err) := fold_left step es ([], None) in
      (Some l, err)
  | _ => (old, Some (UnmarshalTypeError (decode.describe v) (TStruct name)))
  end.

Definition payloadFields : list string := ["events"].

Definition payloadSetField (f : string) (v : json) (x : registerPayload.t)
  : registerPayload.t * option error :=
  let '(l, err) := intoStrings "[]extensions.EventType" "extensions.EventType" v (registerPayload.Events x) in
  (registerPayload.mk l, err).

Definition intoPayload : json -> registerPayload.t -> registerPayload.t * option error :=
  decode.intoStruct (TStruct "extensions.registerPayload") payloadFields payloadSetField.

Definition bufferingFields : list string := ["maxItems"; "maxBytes"; "timeoutMs"].

Definition bufferingSetField (f : string) (v : json) (x : TelemetryBuffering.t)
  : TelemetryBuffering.t * option error :=
  if String.eqb f "maxItems" then
    let '(n, err) := decode.intoInt v (TelemetryBuffering.MaxItems x) in
    (TelemetryBuffering.mk n (TelemetryBuffering.MaxBytes x) (TelemetryBuffering.TimeoutMs x), err)
  else if String.eqb f "maxBytes" then
    let '(n, err) := decode.intoInt v (TelemetryBuffering.MaxBytes x) in
    (TelemetryBuffering.mk (TelemetryBuffering.MaxItems x) n (TelemetryBuffering.TimeoutMs x), err)
  else
    let '(n, err) := decode.intoInt v (TelemetryBuffering.TimeoutMs x) in
    (TelemetryBuffering.mk (TelemetryBuffering.MaxItems x) (TelemetryBuffering.MaxBytes x) n, err).

Definition intoBuffering
  : json -> TelemetryBuffering.t -> TelemetryBuffering.t * option error :=
  decode.intoStruct (TStruct "extensions.TelemetryBuffering") bufferingFields bufferingSetField.

Definition destinationFields : list string := ["protocol"; "URI"].

Definition destinationSetField (f : string) (v : json) (x : TelemetryDestination.t)
  : TelemetryDestination.t * option error :=
  if String.eqb f "protocol" then
    let '(s, err) := decode.intoString (TString "string") v (TelemetryDestination.Protocol x) in
    (TelemetryDestination.mk s (TelemetryDestination.URI x), err)
  else
    let '(s, err) := decode.intoString (TString "string") v (TelemetryDestination.URI x) in
    (TelemetryDestination.mk (TelemetryDestination.Protocol x) s, err).

Definition intoDestination
  : json -> TelemetryDestination.t -> TelemetryDestination.t * option error :=
  decode.intoStruct (TStruct "extensions.TelemetryDestination")
    destinationFields destinationSetField.

Definition subscriptionFields : list string :=
  ["schemaVersion"; "types"; "buffering"; "destination"].

Definition subscriptionSetField (f : string) (v : json) (x : TelemetrySubscription.t)
  : TelemetrySubscription.t * option error :=
  if String.eqb f "schemaVersion" then
    let '(s, err) := decode.intoString (TString "string") v (TelemetrySubscription.SchemaVersion x) in
    (TelemetrySubscription.mk s (TelemetrySubscription.Types x)
       (TelemetrySubscription.Buffering x) (TelemetrySubscription.Destination x), err)
  else if String.eqb f "types" then
    let '(l, err) := intoStrings "[]string" "string" v (TelemetrySubscription.Types x) in
    (TelemetrySubscription.mk (TelemetrySubscription.SchemaVersion x) l
       (TelemetrySubscription.Buffering x) (TelemetrySubscription.Destination x), err)
  else if String.eqb f "buffering" then
    let '(b, err) := intoBuffering v (TelemetrySubscription.Buffering x) in
    (TelemetrySubscription.mk (TelemetrySubscription.SchemaVersion x)
       (TelemetrySubscription.Types x) b (TelemetrySubscription.Destination x), err)
  else
    let '(d, err) := intoDestination v (TelemetrySubscription.Destination x) in
    (TelemetrySubscription.mk (TelemetrySubscription.SchemaVersion x)
       (TelemetrySubscription.Types x) (TelemetrySubscription.Buffering x) d, err).

Definition intoSubscription
  : json -> TelemetrySubscription.t -> TelemetrySubscription.t * option error :=
  decode.intoStruct (TStruct "extensions.TelemetrySubscription")
    subscriptionFields subscriptionSetField.

(** [sub := TelemetrySubscription{}]. *)
Definition zeroSubscription : TelemetrySubscription.t :=
  TelemetrySubscription.mk "" None (TelemetryBuffering.mk 0 0 0)
    (TelemetryDestination.mk "" "").

(** The goroutines a handler starts: the ticker that offers an Invoke
    event every second, the timer that offers the Shutdown event after
    five seconds, the ticker that posts a telemetry record to a
    destination every second. *)
Inductive sender : Type :=
| InvokeTicker
| ShutdownTimer
| TelemetrySender (dest : string).

(** The body of the loop over the events of a registration. *)
Definition started (e : EventType) : list sender :=
  if String.eqb e extensions.Invoke then [InvokeTicker]
  else if String.eqb e extensions.Shutdown then [ShutdownTimer]
  else [].

Definition registered : bytes :=
  script.object [("functionName", "helloWorld"); ("functionVersion", "$LATEST");
                 ("handler", "handler")].

Section Handlers.

(** The text of an error ([err.Error()]), which the model of the errors of
    encoding/json leaves out. *)
Variable errorText : error -> string.

(** [http.Error w msg 400] on a response whose headers are [h]. *)
Definition BadRequest (h : http.Header) (msg : string) : http.Response :=
  http.mkResponse "400 Bad Request" 400
    (http.Set_ (http.Set_ h "Content-Type" "text/plain; charset=utf-8")
       "X-Content-Type-Options" "nosniff")
    (list_byte_of_string msg ++ [x0a]).

(** The handler of /2020-01-01/extension/register: the answer to a
    request with the given body, and the goroutines started. *)
Definition register (body : bytes) : http.Response * list sender :=
  let h := http.Set_ ∅ "Content-Type" "application/json" in
  let h := http.Set_ h extensions.lambdaExtensionIdentifierHeader "0000-0000-0000-0000" in
  match decode.Decode intoPayload body (registerPayload.mk None) with
  | (_, Some err) => (BadRequest h (errorText err), [])
  | (ev, None) =>
      (http.mkResponse "200 OK" 200 h registered,
       flat_map started (default [] (registerPayload.Events ev)))
  end.

(** The handler of /2022-07-01/telemetry. *)
Definition telemetry (body : bytes) : http.Response * list sender :=
  match decode.Decode intoSubscription body zeroSubscription with
  | (_, Some err) => (BadRequest ∅ (errorText err), [])
  | (sub, None) =>
      (http.mkResponse "200 OK" 200 ∅ [],
       [TelemetrySender
          (ReplaceOnce (TelemetryDestination.URI (TelemetrySubscription.Destination sub))
             "sandbox.localdomain" "localhost")])
  end.

End Handlers.

End mock.

(** ** The package extension

    The first version of the client, kept beside the package extensions.
    Its events have the fields of the later ones under other type names
    ([InvokeEventResponse], [ShutdownEventResponse], [EventResponse],
    [CommonResponse]), with the event type a plain string; they are held
    in the same records, and the names differ in the type errors of the
    decoder.  The two endpoints are variables of the package, which
    [init] sets; the client holds them in its fields. *)

Module extension.

Definition EventInvoke : string := "INVOKE".
Definition EventShutdown : string := "SHUTDOWN".

(** [init], given the value of AWS_LAMBDA_RUNTIME_API: the two endpoints,
    or [None] when it panics. *)
Definition init (host : string) : option (string * string) :=
  if String.eqb host "" then None
  else Some ("http://" ++ host ++ "/2020-01-01/extension",
             "http://" ++ host ++ "/2022-07-01/telemetry")%string.

Module InvokeEventResponse.

Definition setField (f : string) (v : json) (x : InvokeEvent.t)
  : InvokeEvent.t * option error :=
  if String.eqb f "eventType" then
    let '(s, err) := decode.intoString (TString "string") v (InvokeEvent.EventType x) in
    (InvokeEvent.mk s (InvokeEvent.DeadlineMs x) (InvokeEvent.RequestID x)
       (InvokeEvent.InvokedFunctionArn x) (InvokeEvent.Tracing x), err)
  else if String.eqb f "deadlineMs" then
    let '(n, err) := decode.intoInt v (InvokeEvent.DeadlineMs x) in
    (InvokeEvent.mk (InvokeEvent.EventType x) n (InvokeEvent.RequestID x)
       (InvokeEvent.InvokedFunctionArn x) (InvokeEvent.Tracing x), err)
  else if String.eqb f "requestId" then
    let '(s, err) := decode.intoString (TString "string") v (InvokeEvent.RequestID x) in
    (InvokeEvent.mk (InvokeEvent.EventType x) (InvokeEvent.DeadlineMs x) s
       (InvokeEvent.InvokedFunctionArn x) (InvokeEvent.Tracing x), err)
  else if String.eqb f "invokedFunctionArn" then
    let '(s, err) :=
      decode.intoString (TString "string") v (InvokeEvent.InvokedFunctionArn x) in
    (InvokeEvent.mk (InvokeEvent.EventType x) (InvokeEvent.DeadlineMs x)
       (InvokeEvent.RequestID x) s (InvokeEvent.Tracing x), err)
  else
    let '(tr, err) := Tracing.into v (InvokeEvent.Tracing x) in
    (InvokeEvent.mk (InvokeEvent.EventType x) (InvokeEvent.DeadlineMs x)
       (InvokeEvent.RequestID x) (InvokeEvent.InvokedFunctionArn x) tr, err).

Definition into : json -> InvokeEvent.t -> InvokeEvent.t * option error :=
  decode.intoStruct (TStruct "extension.InvokeEventResponse") InvokeEvent.fields setField.

End InvokeEventResponse.

Module ShutdownEventResponse.

Definition setField (f : string) (v : json) (x : ShutdownEvent.t)
  : ShutdownEvent.t * option error :=
  if String.eqb f "eventType" then
    let '(s, err) := decode.intoString (TString "string") v (ShutdownEvent.EventType x) in
    (ShutdownEvent.mk s (ShutdownEvent.DeadlineMs x) (ShutdownEvent.ShutdownReason x), err)
  else if String.eqb f "deadlineMs" then
    let '(n, err) := decode.intoInt v (ShutdownEvent.DeadlineMs x) in
    (ShutdownEvent.mk (ShutdownEvent.EventType x) n (ShutdownEvent.ShutdownReason x), err)
  else
    let '(s, err) :=
      decode.intoString (TString "string") v (ShutdownEvent.ShutdownReason x) in
    (ShutdownEvent.mk (ShutdownEvent.EventType x) (ShutdownEvent.DeadlineMs x) s, err).

Definition into : json -> ShutdownEvent.t -> ShutdownEvent.t * option error :=
  decode.intoStruct (TStruct "extension.ShutdownEventResponse")
    ShutdownEvent.fields setField.

End ShutdownEventResponse.

Module EventResponse.

Definition commonSetField (f : string) (v : json) (x : Event.common)
  : Event.common * option error :=
  let '(s, err) := decode.intoString (TString "string") v (Event.EventType x) in
  (Event.mkCommon s, err).

Definition intoCommon : json -> Event.common -> Event.common * option error :=
  decode.intoStruct (TStruct "extension.CommonResponse") Event.commonFields commonSetField.

(** [func (r *EventResponse) UnmarshalJSON(data []byte) error]. *)
Definition UnmarshalJSON (r : Event.t) (data : bytes) : Event.t * option error :=
  match decode.Unmarshal intoCommon data (Event.mkCommon "") with
  | (_, Some err) => (r, Some err)
  | (common, None) =>
      if String.eqb (Event.EventType common) EventInvoke then
        let '(iv, err) :=
          decode.Unmarshal InvokeEventResponse.into data InvokeEvent.zero in
        (Event.mk (Some iv) (Event.Shutdown r), err)
      else if String.eqb (Event.EventType common) EventShutdown then
        let '(sv, err) :=
          decode.Unmarshal ShutdownEventResponse.into data ShutdownEvent.zero in
        (Event.mk (Event.Invoke r) (Some sv), err)
      else
        (r, Some (Errorf "unknown event type: %s" [AString (Event.EventType common)]))
  end.

Definition Decode (body : bytes) (ev : Event.t) : Event.t * option error :=
  match scanner.next body with
  | Some (raw, _, _) => UnmarshalJSON ev raw
  | None => (ev, Some SyntaxError)
  end.

End EventResponse.

Section Operations.

Context {W : Type}.

Implicit Types (c : Client W) (ctx : context.Context W).

(** [NewClient ctx name], after an [init] that gave the endpoints: it
    cannot fail. *)
Definition NewClient (name : string)
  (defaultClient : http.Request -> W -> (http.Response + error) * W)
  (endpoints : string * string) : Client W :=
  {| Name := name;
     CallbackInvoke := None;
     CallbackShutdown := None;
     extensionId := "";
     client := defaultClient;
     lambdaExtensionAPIEndpoint := fst endpoints;
     lambdaTelemetryAPIEndpoint := snd endpoints |}.

(** [Register ctx events]: the events are those the caller gives; [None]
    is the nil slice. *)
Definition Register c ctx (events : option (list string))
  : M W (Client W * option error) :=
  let u := (lambdaExtensionAPIEndpoint c ++ "/register")%string in
  let b := registerPayload.Marshal (registerPayload.mk events) in
  let req := http.NewRequest http.MethodPost u b in
  let req := http.SetHeader req extensions.lambdaExtensionNameHeader (Name c) in
  log LevelInfo "registering extension"
    [("url", VString u); ("name", VString (Name c));
     ("headers", VHeader (http.ReqHeader req)); ("events", VEvents events)] ;;
  r <- Do c req ;;
  match r with
  | inr err => ret (c, Some (Errorf "failed to register extension: %w" [AError err]))
  | inl resp =>
      match decode.Decode decode.intoMap (http.Body resp) None with
      | (_, Some err) =>
          ret (c, Some (Errorf "failed to decode register response: %w" [AError err]))
      | (result, None) =>
          log LevelInfo "register status"
            [("status", VString (http.Status resp)); ("response", VMap result)] ;;
          let c := withExtensionId c
                     (http.Get (http.Header_ resp) extensions.lambdaExtensionIdentifierHeader) in
          if String.eqb (extensionId c) "" then
            ret (c, Some (Errorf "extension identifier is empty: %d %v"
                            [AInt (http.StatusCode resp); AHeader (http.Header_ resp)]))
          else
            log LevelInfo "extension registered"
              [("extension_id", VString (extensionId c))] ;;
            ret (c, None)
      end
  end.

Definition fetchNextEvent c ctx : M W (Event.t + error) :=
  let u := (lambdaExtensionAPIEndpoint c ++ "/event/next")%string in
  log LevelDebug "getting next event"
    [("url", VString u); ("extension_id", VString (extensionId c))] ;;
  let req := http.NewRequest http.MethodGet u [] in
  let req := http.SetHeader req extensions.lambdaExtensionIdentifierHeader (extensionId c) in
  r <- Do c req ;;
  match r with
  | inr err => ret (inr (Errorf "failed to get next event: %w" [AError err]))
  | inl resp =>
      if negb (Z.eqb (http.StatusCode resp) http.StatusOK) then
        ret (inr (Errorf "failed to get next event: %d" [AInt (http.StatusCode resp)]))
      else
        match EventResponse.Decode (http.Body resp) Event.zero with
        | (_, Some err) =>
            ret (inr (Errorf "failed to decode event response: %w" [AError err]))
        | (ev, None) => ret (inl ev)
        end
  end.

(** One pass through the body of the loop of [Run]: the context is
    looked at first; what follows a successful fetch is, statement for
    statement, the [dispatch] of the later package. *)
Definition iteration c ctx : M W next :=
  done <- world (fun w => (context.Done ctx w, w)) ;;
  if done then ret (Returned None)
  else
    r <- fetchNextEvent c ctx ;;
    match r with
    | inr err =>
        log LevelError "failed to fetch next event" [("error", VError err)] ;;
        ret Polling
    | inl ev => dispatch c ctx ev
    end.

(** [Run], for at most [fuel] passes: there is no test of the
    identifier. *)
Fixpoint Run (fuel : nat) c ctx : M W (option (option error)) :=
  match fuel with
  | O => ret None
  | S fuel =>
      n <- iteration c ctx ;;
      match n with
      | Returned r => ret (Some r)
      | Polling => Run fuel c ctx
      end
  end.

End Operations.

End extension.
(** * Vocabulary of the properties *)

Section PollVocabulary.

Context {W : Type}.

Implicit Types (c : Client W).

(** The request of a poll and the state the poll leaves behind. *)
Definition pollRequest c : http.Request :=
  http.SetHeader
    (http.NewRequest http.MethodGet (lambdaExtensionAPIEndpoint c ++ "/event/next")%string [])
    extensions.lambdaExtensionIdentifierHeader (extensionId c).

Definition polled c (tr : list action) : list action :=
  tr ++ [Log LevelDebug "getting next event"
           [("url", VString (lambdaExtensionAPIEndpoint c ++ "/event/next"));
            ("extension_id", VString (extensionId c))];
         RoundTrip (pollRequest c)].

End PollVocabulary.

(** The wrapped error [Run] returns when the shutdown callback fails. *)
Definition shutdownFailed (e : error) : error :=
  Errorf "shutdown callback failed: %w" [AError e].

(** The error of [Run] on a client that is not registered. *)
Definition notRegistered : error :=
  Errorf "extension is not registered. call Register method first" [].

(** ** Payloads *)

(** The discriminator of a payload: what the first pass of the decoder
    reads into [common.EventType]; [None] when that pass fails (the payload
    is no JSON text, or not an object, or gives the field a value that is
    no string). *)
Definition discriminator (data : bytes) : option EventType :=
  match decode.Unmarshal Event.intoCommon data (Event.mkCommon "") with
  | (common, None) => Some (Event.EventType common)
  | (_, Some _) => None
  end.

(** A member selects the field [f] of a struct with the fields [fields]. *)
Definition selects (fields : list string) (f : string) (kv : string * json) : bool :=
  match decode.lookupField fields (fst kv) with
  | Some g => String.eqb g f
  | None => false
  end.

(** The payload is an object none of whose members selects [eventType]. *)
Definition missingDiscriminator (data : bytes) : Prop :=
  exists ms, scanner.whole data = Some (JObject ms)
             /\ forallb (fun kv => negb (selects Event.commonFields "eventType" kv)) ms = true.

(** Exactly one of the two variants of an event is set. *)
Definition oneVariant (ev : Event.t) : Prop :=
  (is_Some (Event.Invoke ev) /\ Event.Shutdown ev = None)
  \/ (Event.Invoke ev = None /\ is_Some (Event.Shutdown ev)).

(** The error of the decoder on a discriminator it does not know, and the
    error of the poll that carries it. *)
Definition unknownEventType (d : EventType) : error :=
  Errorf "unknown event type: %s" [AString d].

Definition decodeFailed (err : error) : error :=
  Errorf "failed to decode event response: %w" [AError err].

(** The log record of the last branch of the loop of [Run]. *)
Definition unknownEventReceived : action := Log LevelWarn "unknown event received" [].

(** ** Well-formed payloads and what they say *)

(** The value a list of members gives to the field [f]: that of the last
    member that selects [f]. *)
Fixpoint given (fields : list string) (f : string) (ms : list (string * json))
  : option json :=
  match ms with
  | [] => None
  | kv :: rest =>
      match given fields f rest with
      | Some v => Some v
      | None => if selects fields f kv then Some (snd kv) else None
      end
  end.

Definition stringOf (v : option json) : string :=
  match v with
  | Some (JString s) => s
  | _ => ""
  end.

Definition intOf (v : option json) : Z :=
  match v with
  | Some (JNumber lit) => default 0%Z (decode.ParseInt lit)
  | _ => 0%Z
  end.

Definition isString (v : json) : bool :=
  match v with
  | JString _ => true
  | _ => false
  end.

(** A number that is an integer of 64 bits. *)
Definition isInt (v : json) : bool :=
  match v with
  | JNumber lit => if decode.ParseInt lit is Some _ then true else false
  | _ => false
  end.

(** A member of a well-formed payload either selects no field or carries
    a value of the JSON type of the field it selects: a string for a
    string, an integer for [deadlineMs], an object with string members for
    [tracing]. *)
Definition wfTracingMember (kv : string * json) : bool :=
  match decode.lookupField Tracing.fields (fst kv) with
  | Some _ => isString (snd kv)
  | None => true
  end.

Definition isTracing (v : json) : bool :=
  match v with
  | JObject tms => forallb wfTracingMember tms
  | _ => false
  end.

Definition wfInvokeMember (kv : string * json) : bool :=
  match decode.lookupField InvokeEvent.fields (fst kv) with
  | Some f =>
      if String.eqb f "deadlineMs" then isInt (snd kv)
      else if String.eqb f "tracing" then isTracing (snd kv)
      else isString (snd kv)
  | None => true
  end.

Definition wfShutdownMember (kv : string * json) : bool :=
  match decode.lookupField ShutdownEvent.fields (fst kv) with
  | Some f =>
      if String.eqb f "deadlineMs" then isInt (snd kv) else isString (snd kv)
  | None => true
  end.

(** A well-formed payload of each kind: an object of well-formed members
    whose discriminator is that of the kind. *)
Definition wellFormedInvoke (data : bytes) (ms : list (string * json)) : Prop :=
  scanner.whole data = Some (JObject ms)
  /\ forallb wfInvokeMember ms = true
  /\ discriminator data = Some extensions.Invoke.

Definition wellFormedShutdown (data : bytes) (ms : list (string * json)) : Prop :=
  scanner.whole data = Some (JObject ms)
  /\ forallb wfShutdownMember ms = true
  /\ discriminator data = Some extensions.Shutdown.

(** The members of all the objects given for [tracing], in order. *)
Definition tracingMembers (ms : list (string * json)) : list (string * json) :=
  flat_map (fun kv =>
              if selects InvokeEvent.fields "tracing" kv then
                match snd kv with
                | JObject tms => tms
                | _ => []
                end
              else []) ms.

Definition tracingOf (tms : list (string * json)) : Tracing.t :=
  Tracing.mk (stringOf (given Tracing.fields "type" tms))
             (stringOf (given Tracing.fields "value" tms)).

(** The events the members of a payload describe, field by field. *)
Definition invokeOf (ms : list (string * json)) : InvokeEvent.t :=
  InvokeEvent.mk
    (stringOf (given InvokeEvent.fields "eventType" ms))
    (intOf (given InvokeEvent.fields "deadlineMs" ms))
    (stringOf (given InvokeEvent.fields "requestId" ms))
    (stringOf (given InvokeEvent.fields "invokedFunctionArn" ms))
    (tracingOf (tracingMembers ms)).

Definition shutdownOf (ms : list (string * json)) : ShutdownEvent.t :=
  ShutdownEvent.mk
    (stringOf (given ShutdownEvent.fields "eventType" ms))
    (intOf (given ShutdownEvent.fields "deadlineMs" ms))
    (stringOf (given ShutdownEvent.fields "shutdownReason" ms)).

(** The same for the struct of the first pass. *)
Definition wfCommonMember (kv : string * json) : bool :=
  match decode.lookupField Event.commonFields (fst kv) with
  | Some _ => isString (snd kv)
  | None => true
  end.

Definition commonOf (ms : list (string * json)) : Event.common :=
  Event.mkCommon (stringOf (given Event.commonFields "eventType" ms)).

(** ** Registration and telemetry *)

Section HandshakeVocabulary.

Context {W : Type}.

Implicit Types (c : Client W) (ctx : context.Context W).

(** The event kinds [Register] asks for: those with a callback. *)
Definition requestedEvents c : list EventType :=
  (if CallbackInvoke c is Some _ then [extensions.Invoke] else [])
    ++ (if CallbackShutdown c is Some _ then [extensions.Shutdown] else []).

Definition registerRequest c : http.Request :=
  http.SetHeader
    (http.NewRequest http.MethodPost (lambdaExtensionAPIEndpoint c ++ "/register")%string
       (registerPayload.Marshal (registerPayload.mk (Some (requestedEvents c)))))
    extensions.lambdaExtensionNameHeader (Name c).

(** The trace of [Register] up to the answer of the transport. *)
Definition registering c (tr : list action) : list action :=
  tr ++ [Log LevelInfo "registering extension"
           [("url", VString (lambdaExtensionAPIEndpoint c ++ "/register"));
            ("name", VString (Name c));
            ("headers", VHeader (http.ReqHeader (registerRequest c)));
            ("events", VEvents (Some (requestedEvents c)))];
         RoundTrip (registerRequest c)].

(** The identifier a response carries. *)
Definition identifierOf (resp : http.Response) : string :=
  http.Get (http.Header_ resp) extensions.lambdaExtensionIdentifierHeader.

Definition telemetryRequest c (sub : TelemetrySubscription.t) : http.Request :=
  http.SetHeader
    (http.SetHeader
       (http.NewRequest http.MethodPut (lambdaTelemetryAPIEndpoint c)
          (TelemetrySubscription.Marshal sub))
       extensions.lambdaExtensionNameHeader (Name c))
    extensions.lambdaExtensionIdentifierHeader (extensionId c).

(** The trace of [SubscribeTelemetry] up to the answer of the transport. *)
Definition subscribing c (sub : TelemetrySubscription.t) (tr : list action) : list action :=
  tr ++ [Log LevelInfo "subscribing telemetry API"
           [("url", VString (lambdaTelemetryAPIEndpoint c));
            ("name", VString (Name c));
            ("headers", VHeader (http.ReqHeader (telemetryRequest c sub)));
            ("payload", VString (string_of_list_byte (TelemetrySubscription.Marshal sub)))];
         RoundTrip (telemetryRequest c sub)].

End HandshakeVocabulary.

(** The default subscription as the documentation gives it, as a record
    and as a JSON document. *)
Definition documentedSubscription : TelemetrySubscription.t :=
  TelemetrySubscription.mk "2022-12-13" (Some ["function"; "platform"])
    (TelemetryBuffering.mk 500 1048576 1000)
    (TelemetryDestination.mk "HTTP" "http://sandbox.localdomain:8080").

Definition documentedDocument : json :=
  JObject
    [("schemaVersion", JString "2022-12-13");
     ("types", JArray [JString "function"; JString "platform"]);
     ("buffering",
      JObject [("maxItems", JNumber "500");
               ("maxBytes", JNumber "1048576");
               ("timeoutMs", JNumber "1000")]);
     ("destination",
      JObject [("protocol", JString "HTTP");
               ("URI", JString "http://sandbox.localdomain:8080")])].

(** The text of that document as [json.Marshal] writes it, without white
    space. *)
Definition documentedText : bytes :=
  let text := list_byte_of_string in
  text "{" ++ script.quoted "schemaVersion" ++ text ":" ++ script.quoted "2022-12-13"
    ++ text "," ++ script.quoted "types" ++ text ":["
    ++ script.quoted "function" ++ text "," ++ script.quoted "platform" ++ text "]"
    ++ text "," ++ script.quoted "buffering" ++ text ":{"
    ++ script.quoted "maxItems" ++ text ":500,"
    ++ script.quoted "maxBytes" ++ text ":1048576,"
    ++ script.quoted "timeoutMs" ++ text ":1000}"
    ++ text "," ++ script.quoted "destination" ++ text ":{"
    ++ script.quoted "protocol" ++ text ":" ++ script.quoted "HTTP" ++ text ","
    ++ script.quoted "URI" ++ text ":" ++ script.quoted "http://sandbox.localdomain:8080"
    ++ text "}}".

(** The requests of a trace, in order. *)
Fixpoint requests (tr : list action) : list http.Request :=
  match tr with
  | [] => []
  | RoundTrip req :: rest => req :: requests rest
  | _ :: rest => requests rest
  end.

(** ** Scenarios on the scripted host *)

Module scenario.

Definition boom : error := errorString "boom".

(** A registered client with both callbacks set: the invoke callback
    fails, the shutdown callback fails too. *)
Definition failing : Client script.world :=
  script.withCallbacks (withExtensionId (script.fresh "ext") "0000-0000-0000-0000")
    (Some (script.answering (Some boom)))
    (Some (script.answering (Some boom))).

(** A registered client whose invoke callback cancels the context, as a
    callback that calls [cancel()] does. *)
Definition cancelling : Client script.world :=
  script.withCallbacks (withExtensionId (script.fresh "ext") "0000-0000-0000-0000")
    (Some (fun _ _ w => (None, script.cancel w)))
    None.

(** A registered client without callbacks. *)
Definition silent : Client script.world :=
  withExtensionId (script.fresh "ext") "0000-0000-0000-0000".

Definition refused : http.Response + error := inr (errorString "connection refused").

End scenario.

(** The two payloads of the documentation of the Extensions API that the
    source quotes. *)
Module payload.

Definition text : string -> bytes := list_byte_of_string.

Definition invoke : bytes :=
  text "{ " ++ script.quoted "eventType" ++ text ": " ++ script.quoted "INVOKE"
    ++ text ", " ++ script.quoted "deadlineMs" ++ text ": 676051"
    ++ text ", " ++ script.quoted "requestId" ++ text ": "
    ++ script.quoted "3da1f2dc-3222-475e-9205-e2e6c6318895"
    ++ text ", " ++ script.quoted "invokedFunctionArn" ++ text ": "
    ++ script.quoted "arn:aws:lambda:us-east-1:123456789012:function:ExtensionTest"
    ++ text ", " ++ script.quoted "tracing" ++ text ": { "
    ++ script.quoted "type" ++ text ": " ++ script.quoted "X-Amzn-Trace-Id"
    ++ text ", " ++ script.quoted "value" ++ text ": "
    ++ script.quoted "Root=1-5f35ae12-0c0fec141ab77a00bc047aa2;Parent=2be948a625588e32;Sampled=1"
    ++ text " } }".

Definition invokeMembers : list (string * json) :=
  [("eventType", JString "INVOKE");
   ("deadlineMs", JNumber "676051");
   ("requestId", JString "3da1f2dc-3222-475e-9205-e2e6c6318895");
   ("invokedFunctionArn",
    JString "arn:aws:lambda:us-east-1:123456789012:function:ExtensionTest");
   ("tracing",
    JObject [("type", JString "X-Amzn-Trace-Id");
             ("value",
              JString "Root=1-5f35ae12-0c0fec141ab77a00bc047aa2;Parent=2be948a625588e32;Sampled=1")])].

Definition shutdown : bytes :=
  text "{ " ++ script.quoted "eventType" ++ text ": " ++ script.quoted "SHUTDOWN"
    ++ text ", " ++ script.quoted "shutdownReason" ++ text ": " ++ script.quoted "spindown"
    ++ text ", " ++ script.quoted "deadlineMs" ++ text ": 1596036475071 }".

Definition shutdownMembers : list (string * json) :=
  [("eventType", JString "SHUTDOWN");
   ("shutdownReason", JString "spindown");
   ("deadlineMs", JNumber "1596036475071")].

End payload.

(** ** Sentences of the specification, as they are worded *)

(** "If the shutdown handler returns an error, Run returns that same error
    and performs no further polling": [Run] is polling in state [s] after
    [k] passes, the next poll brings a Shutdown event, and the callback
    answers with the error [e]. *)
Definition shutdown_error_returned_unchanged : Prop :=
  forall (W : Type) (c : Client W) (ctx : context.Context W)
         (k : nat) (s0 s s1 : state W) (ev : Event.t) (sv : ShutdownEvent.t)
         (f : callback W ShutdownEvent.t) (e : error) (w2 : W) (n : nat),
    Run k c ctx s0 = (None, s) ->
    fetchNextEvent c ctx s = (inl ev, s1) ->
    Event.Shutdown ev = Some sv ->
    CallbackShutdown c = Some f ->
    f ctx sv (fst s1) = (Some e, w2) ->
    fst (Run (k + S n) c ctx s0) = Some (Some e)
    /\ roundTrips (snd (snd (Run (k + S n) c ctx s0))) = S (roundTrips (snd s)).

(** "Unrecognized event-kind payloads are not errors; they are logged and
    skipped": the transport answers the poll with status 200 and a body
    whose first value has a discriminator that is neither INVOKE nor
    SHUTDOWN. *)
Definition unknown_kind_accepted_and_skipped : Prop :=
  forall (W : Type) (c : Client W) (ctx : context.Context W) (s : state W)
         (resp : http.Response) (w1 : W) (raw : bytes) (v : json) (rest : bytes)
         (d : EventType),
    client c (pollRequest c) (fst s) = (inl resp, w1) ->
    http.StatusCode resp = http.StatusOK ->
    scanner.next (http.Body resp) = Some (raw, v, rest) ->
    discriminator raw = Some d ->
    d <> extensions.Invoke -> d <> extensions.Shutdown ->
    snd (Event.Decode (http.Body resp) Event.zero) = None
    /\ iteration c ctx s = (Polling, (w1, polled c (snd s) ++ [unknownEventReceived])).

(** "Session identifier set once by Register and never changes", "mutates
    the Client's session identifier field exactly once, on success": a
    call that fails leaves the identifier as it was, and after a call that
    succeeds no further call changes it. *)
Definition session_identifier_set_once : Prop :=
  forall (W : Type) (c c1 : Client W) (ctx : context.Context W) (s s1 : state W)
         (e1 : option error),
    Register c ctx s = ((c1, e1), s1) ->
    (e1 <> None -> extensionId c1 = extensionId c)
    /\ (e1 = None ->
        forall (s' s2 : state W) (c2 : Client W) (e2 : option error),
          Register c1 ctx s' = ((c2, e2), s2) ->
          extensionId c2 = extensionId c1).

(** * Vocabulary of the further properties *)

(** What the two bodies of the mock host, an object with the event type
    and nothing else, decode to. *)
Definition bareInvoke : InvokeEvent.t := InvokeEvent.mk "INVOKE" 0 "" "" Tracing.zero.

Definition bareShutdown : ShutdownEvent.t := ShutdownEvent.mk "SHUTDOWN" 0 "".

(** An event handed to a callback carries the event type of its kind. *)
Definition wellTyped (a : action) : Prop :=
  match a with
  | CalledInvoke iv => InvokeEvent.EventType iv = extensions.Invoke
  | CalledShutdown sv => ShutdownEvent.EventType sv = extensions.Shutdown
  | _ => True
  end.

(** A key that selects no field of either event. *)
Definition unknownKey (k : string) : Prop :=
  decode.lookupField InvokeEvent.fields k = None
  /\ decode.lookupField ShutdownEvent.fields k = None.

(** ** What round trips through JSON unchanged *)

(** A byte of ASCII, a string of ASCII bytes, an integer of 64 bits. *)
Definition ascii7 (b : byte) : bool := (Byte.to_N b <? 0x80)%N.

Definition isASCII (s : string) : bool := forallb ascii7 (list_byte_of_string s).

Definition isInt64 (n : Z) : bool := ((- 2 ^ 63 <=? n) && (n <? 2 ^ 63))%Z.

(** The bytes after which a value ends: a comma, a closing bracket or
    brace, or the end of the input. *)
Definition delimited (tail : bytes) : bool :=
  match tail with
  | [] => true
  | x2c :: _ | x5d :: _ | x7d :: _ => true
  | _ => false
  end.

(** The digits of a decimal numeral as bytes, and the integer they spell
    after the digits already read have given [acc]. *)
Definition uintBytes (d : Decimal.uint) : bytes :=
  list_byte_of_string (NilEmpty.string_of_uint d).

Fixpoint uintZ (acc : Z) (d : Decimal.uint) : Z :=
  match d with
  | Decimal.Nil => acc
  | Decimal.D0 l => uintZ (10 * acc) l
  | Decimal.D1 l => uintZ (10 * acc + 1) l
  | Decimal.D2 l => uintZ (10 * acc + 2) l
  | Decimal.D3 l => uintZ (10 * acc + 3) l
  | Decimal.D4 l => uintZ (10 * acc + 4) l
  | Decimal.D5 l => uintZ (10 * acc + 5) l
  | Decimal.D6 l => uintZ (10 * acc + 6) l
  | Decimal.D7 l => uintZ (10 * acc + 7) l
  | Decimal.D8 l => uintZ (10 * acc + 8) l
  | Decimal.D9 l => uintZ (10 * acc + 9) l
  end%Z.

(** The encoding [b] scans as the value [v] wherever a value may stand:
    with fuel [k] or more, at a depth that leaves room for [d] levels,
    before any tail that delimits it. *)
Definition parsesAs (b : bytes) (v : json) (k : nat) (d : N) : Prop :=
  forall fuel depth tail,
    k <= fuel -> (depth + d <= scanner.maxNestingDepth)%N -> delimited tail = true ->
    scanner.value fuel depth (b ++ tail) = Some (v, tail).

(** A field of a struct with its encoding and the value it scans as. *)
Definition encoded (f : string * bytes * json) : string * bytes :=
  (fst (fst f), snd (fst f)).

Definition scanned (f : string * bytes * json) : string * json :=
  (fst (fst f), snd f).

Definition fieldParses (k : nat) (d : N) (f : string * bytes * json) : Prop :=
  isASCII (fst (fst f)) = true /\ parsesAs (snd (fst f)) (snd f) k d.

(** The value a slice of strings scans as. *)
Definition stringsJSON (l : option (list string)) : json :=
  match l with
  | None => JNull
  | Some l => JArray (map JString l)
  end.

(** A subscription whose strings are ASCII and whose numbers are in the
    range of int64 (as those of Go's [int] are). *)
Definition plainBuffering (b : TelemetryBuffering.t) : bool :=
  isInt64 (TelemetryBuffering.MaxItems b)
  && isInt64 (TelemetryBuffering.MaxBytes b)
  && isInt64 (TelemetryBuffering.TimeoutMs b).

Definition plainDestination (d : TelemetryDestination.t) : bool :=
  isASCII (TelemetryDestination.Protocol d) && isASCII (TelemetryDestination.URI d).

Definition plainSubscription (s : TelemetrySubscription.t) : bool :=
  isASCII (TelemetrySubscription.SchemaVersion s)
  && forallb isASCII (default [] (TelemetrySubscription.Types s))
  && plainBuffering (TelemetrySubscription.Buffering s)
  && plainDestination (TelemetrySubscription.Destination s).

Definition plainPayload (p : registerPayload.t) : bool :=
  forallb isASCII (default [] (registerPayload.Events p)).

(** The fields of the encoded structs: name, encoding, value scanned. *)
Definition bufferingParts (b : TelemetryBuffering.t) : list (string * bytes * json) :=
  [("maxItems", encode.Int (TelemetryBuffering.MaxItems b),
      JNumber (Itoa (TelemetryBuffering.MaxItems b)));
   ("maxBytes", encode.Int (TelemetryBuffering.MaxBytes b),
      JNumber (Itoa (TelemetryBuffering.MaxBytes b)));
   ("timeoutMs", encode.Int (TelemetryBuffering.TimeoutMs b),
      JNumber (Itoa (TelemetryBuffering.TimeoutMs b)))].

Definition destinationParts (d : TelemetryDestination.t) : list (string * bytes * json) :=
  [("protocol", encode.String (TelemetryDestination.Protocol d),
      JString (TelemetryDestination.Protocol d));
   ("URI", encode.String (TelemetryDestination.URI d),
      JString (TelemetryDestination.URI d))].

Definition subscriptionParts (s : TelemetrySubscription.t) : list (string * bytes * json) :=
  [("schemaVersion", encode.String (TelemetrySubscription.SchemaVersion s),
      JString (TelemetrySubscription.SchemaVersion s));
   ("types", encode.Slice encode.String (TelemetrySubscription.Types s),
      stringsJSON (TelemetrySubscription.Types s));
   ("buffering", TelemetryBuffering.Marshal (TelemetrySubscription.Buffering s),
      JObject (map scanned (bufferingParts (TelemetrySubscription.Buffering s))));
   ("destination", TelemetryDestination.Marshal (TelemetrySubscription.Destination s),
      JObject (map scanned (destinationParts (TelemetrySubscription.Destination s))))].

Definition payloadParts (p : registerPayload.t) : list (string * bytes * json) :=
  [("events", encode.Slice encode.String (registerPayload.Events p),
      stringsJSON (registerPayload.Events p))].

(** Two results of a decoder that hold the same value and fail
    together. *)
Definition agree {T : Type} (a b : T * option error) : Prop :=
  fst a = fst b /\ (snd a = None <-> snd b = None).

(** What a trace shows to the host and to the callbacks: the requests and
    the calls of callbacks, in order, without the log records. *)
Definition visible (tr : list action) : list action :=
  List.filter (fun a => isRoundTrip a || isCallback a) tr.

(** A context that is never done, as [context.Background()]. *)
Definition neverDone : context.Context script.world := context.mk (fun _ => false).
(** * Properties *)

(** ** The monad and the loop *)

Ltac unfold_M :=
  cbv [bind ret log emit world Do] in *; cbn [fst snd] in *.

Section LoopFacts.

Context {W : Type}.

Implicit Types (c : Client W) (ctx : context.Context W) (s : state W).

Lemma roundTrips_app (tr tr' : list action) :
  roundTrips (tr ++ tr') = roundTrips tr + roundTrips tr'.
Proof. unfold roundTrips. rewrite List.filter_app, length_app. reflexivity. Qed.

Lemma loop_S n c ctx s :
  loop (S n) c ctx s =
    match iteration c ctx s with
    | (Returned r, s') => (Some r, s')
    | (Polling, s') => loop n c ctx s'
    end.
Proof.
  cbn [loop]. unfold bind.
  destruct (iteration c ctx s) as [[|r] s']; reflexivity.
Qed.

(** Passes that leave the loop polling compose. *)
Lemma loop_polling k : forall n c ctx s s',
  loop k c ctx s = (None, s') -> loop (k + n) c ctx s = loop n c ctx s'.
Proof.
  induction k as [|k IH]; intros n c ctx s s' Hk.
  - cbn in Hk. injection Hk as <-. reflexivity.
  - rewrite loop_S in Hk. cbn [Nat.add]. rewrite loop_S.
    destruct (iteration c ctx s) as [[|r] s1].
    + apply IH. exact Hk.
    + discriminate Hk.
Qed.

(** Once the loop has returned, more fuel changes nothing. *)
Lemma loop_returned k : forall n c ctx s r s',
  loop k c ctx s = (Some r, s') -> loop (k + n) c ctx s = (Some r, s').
Proof.
  induction k as [|k IH]; intros n c ctx s r s' Hk.
  - discriminate Hk.
  - rewrite loop_S in Hk. cbn [Nat.add]. rewrite loop_S.
    destruct (iteration c ctx s) as [[|r1] s1].
    + apply IH. exact Hk.
    + exact Hk.
Qed.

Lemma Run_registered fuel c ctx s :
  extensionId c <> "" -> Run fuel c ctx s = loop fuel c ctx s.
Proof.
  intros Hid. unfold Run.
  destruct (String.eqb_spec (extensionId c) ""); [contradiction | reflexivity].
Qed.

(** [Run] is still polling only if the client is registered. *)
Lemma Run_polling k c ctx s s' :
  Run k c ctx s = (None, s') ->
  extensionId c <> "" /\ loop k c ctx s = (None, s').
Proof.
  unfold Run. destruct (String.eqb_spec (extensionId c) "") as [Heq|Hne].
  - discriminate.
  - intros H. split; assumption.
Qed.

Lemma Run_continues k n c ctx s s' :
  Run k c ctx s = (None, s') -> Run (k + n) c ctx s = loop n c ctx s'.
Proof.
  intros H. apply Run_polling in H as [Hid Hk].
  rewrite Run_registered by assumption. apply loop_polling. exact Hk.
Qed.

(** [fetchNextEvent] by cases on the answer of the transport. *)
Lemma fetchNextEvent_eq c ctx s :
  fetchNextEvent c ctx s =
    match client c (pollRequest c) (fst s) with
    | (inr err, w) =>
        (inr (Errorf "failed to get next event: %w" [AError err]), (w, polled c (snd s)))
    | (inl resp, w) =>
        if negb (Z.eqb (http.StatusCode resp) http.StatusOK) then
          (inr (Errorf "failed to get next event: %d" [AInt (http.StatusCode resp)]),
           (w, polled c (snd s)))
        else
          match Event.Decode (http.Body resp) Event.zero with
          | (_, Some err) =>
              (inr (Errorf "failed to decode event response: %w" [AError err]),
               (w, polled c (snd s)))
          | (ev, None) => (inl ev, (w, polled c (snd s)))
          end
    end.
Proof.
  unfold fetchNextEvent, polled, pollRequest. unfold_M.
  rewrite <- app_assoc. cbn [app].
  destruct (client c _ (fst s)) as [[resp|err] w]; [|reflexivity].
  destruct (negb _); [reflexivity|].
  destruct (Event.Decode _ _) as [ev [e|]]; reflexivity.
Qed.

(** The poll issues exactly one request, whatever comes of it, calls no
    callback, and leaves the world as the transport left it. *)
Lemma fetchNextEvent_state c ctx s :
  snd (fetchNextEvent c ctx s)
  = (snd (client c (pollRequest c) (fst s)), polled c (snd s)).
Proof.
  rewrite fetchNextEvent_eq.
  destruct (client c _ (fst s)) as [[resp|err] w]; [|reflexivity].
  destruct (negb _); [reflexivity|].
  destruct (Event.Decode _ _) as [ev [e|]]; reflexivity.
Qed.

Lemma roundTrips_polled c tr : roundTrips (polled c tr) = S (roundTrips tr).
Proof. unfold polled. rewrite roundTrips_app. cbn. lia. Qed.

Lemma callbacks_polled c tr :
  List.filter isCallback (polled c tr) = List.filter isCallback tr.
Proof. unfold polled. rewrite List.filter_app. cbn. apply app_nil_r. Qed.

End LoopFacts.

(** ** The event decoder never yields both variants, nor none *)

Lemma UnmarshalJSON_zero_one_variant (data : bytes) (ev : Event.t) :
  Event.UnmarshalJSON Event.zero data = (ev, None) ->
  (is_Some (Event.Invoke ev) /\ Event.Shutdown ev = None)
  \/ (Event.Invoke ev = None /\ is_Some (Event.Shutdown ev)).
Proof.
  unfold Event.UnmarshalJSON.
  destruct (decode.Unmarshal Event.intoCommon data _) as [common [err|]];
    [discriminate|].
  destruct (String.eqb _ extensions.Invoke).
  - destruct (decode.Unmarshal InvokeEvent.into data _) as [iv err].
    intros [= <- ->]. left. split; [eexists; reflexivity | reflexivity].
  - destruct (String.eqb _ extensions.Shutdown).
    + destruct (decode.Unmarshal ShutdownEvent.into data _) as [sv err].
      intros [= <- ->]. right. split; [reflexivity | eexists; reflexivity].
    + discriminate.
Qed.

Lemma Decode_zero_one_variant (body : bytes) (ev : Event.t) :
  Event.Decode body Event.zero = (ev, None) ->
  (is_Some (Event.Invoke ev) /\ Event.Shutdown ev = None)
  \/ (Event.Invoke ev = None /\ is_Some (Event.Shutdown ev)).
Proof.
  unfold Event.Decode.
  destruct (scanner.next body) as [[[raw v] rest]|]; [|discriminate].
  apply UnmarshalJSON_zero_one_variant.
Qed.

Section RunFacts.

Context {W : Type}.

Implicit Types (c : Client W) (ctx : context.Context W) (s : state W).

Lemma fetchNextEvent_one_variant c ctx s s1 ev :
  fetchNextEvent c ctx s = (inl ev, s1) ->
  (is_Some (Event.Invoke ev) /\ Event.Shutdown ev = None)
  \/ (Event.Invoke ev = None /\ is_Some (Event.Shutdown ev)).
Proof.
  rewrite fetchNextEvent_eq.
  destruct (client c _ (fst s)) as [[resp|err] w]; [|discriminate].
  destruct (negb _); [discriminate|].
  destruct (Event.Decode _ _) as [ev' [e|]] eqn:Hd; [discriminate|].
  intros [= -> _]. eapply Decode_zero_one_variant. exact Hd.
Qed.

(** [dispatch] on an event whose Invoke variant is set. *)
Lemma dispatch_invoke c ctx iv sh s :
  dispatch c ctx (Event.mk (Some iv) sh) s =
    match CallbackInvoke c with
    | Some f =>
        (Polling,
         (snd (f ctx iv (fst s)),
          snd s ++ [Log LevelDebug "invoke event received" []; CalledInvoke iv]
                ++ match fst (f ctx iv (fst s)) with
                   | Some err => [Log LevelError "invoke callback failed" [("error", VError err)]]
                   | None => []
                   end))
    | None =>
        (Polling,
         (fst s,
          snd s ++ [Log LevelDebug "invoke event received" [];
                    Log LevelWarn "invoke callback is not set" []]))
    end.
Proof.
  unfold dispatch. cbn [Event.Invoke].
  destruct (CallbackInvoke c) as [f|]; unfold_M.
  - destruct (f ctx iv (fst s)) as [[err|] w]; cbn [fst snd];
      rewrite <- ?app_assoc; cbn [app]; rewrite ?app_nil_r; reflexivity.
  - rewrite <- app_assoc. reflexivity.
Qed.

(** [dispatch] on an event whose only variant is Shutdown. *)
Lemma dispatch_shutdown c ctx sv s :
  dispatch c ctx (Event.mk None (Some sv)) s =
    match CallbackShutdown c with
    | Some f =>
        (Returned (option_map shutdownFailed (fst (f ctx sv (fst s)))),
         (snd (f ctx sv (fst s)),
          snd s ++ [Log LevelDebug "shutdown event received. shutting down extension" [];
                    CalledShutdown sv]
                ++ match fst (f ctx sv (fst s)) with
                   | Some err => [Log LevelError "shutdown callback failed" [("error", VError err)]]
                   | None => []
                   end))
    | None =>
        (Returned None,
         (fst s,
          snd s ++ [Log LevelDebug "shutdown event received. shutting down extension" [];
                    Log LevelWarn "shutdown callback is not set" []]))
    end.
Proof.
  unfold dispatch. cbn [Event.Invoke Event.Shutdown].
  destruct (CallbackShutdown c) as [f|]; unfold_M.
  - destruct (f ctx sv (fst s)) as [[err|] w]; cbn [fst snd option_map];
      rewrite <- ?app_assoc; cbn [app]; rewrite ?app_nil_r; reflexivity.
  - rewrite <- app_assoc. reflexivity.
Qed.

(** [iteration] by cases on the outcome of the poll. *)
Lemma iteration_eq c ctx s :
  iteration c ctx s =
    match fetchNextEvent c ctx s with
    | (inr err, s1) =>
        if context.Done ctx (fst s1) then (Returned None, s1)
        else (Polling,
              (fst s1,
               snd s1 ++ [Log LevelError "failed to fetch next event" [("error", VError err)]]))
    | (inl ev, s1) => dispatch c ctx ev s1
    end.
Proof.
  unfold iteration. unfold bind at 1.
  destruct (fetchNextEvent c ctx s) as [[ev|err] s1]; [reflexivity|].
  unfold_M. destruct s1 as [w tr]. cbn [fst snd].
  destruct (context.Done ctx w); reflexivity.
Qed.

End RunFacts.

(** ** Run *)

Section RunTheorems.

Context {W : Type}.

Implicit Types (c : Client W) (ctx : context.Context W) (s : state W).

(** C4.  On a client whose extension identifier is empty, [Run] returns
    the error "extension is not registered. call Register method first"
    at once, for any fuel: the world and the trace are left as they were,
    so no request has been issued. *)
Theorem Run_not_registered c ctx fuel s :
  extensionId c = "" ->
  Run fuel c ctx s = (Some (Some notRegistered), s)
  /\ roundTrips (snd (snd (Run fuel c ctx s))) = roundTrips (snd s).
Proof.
  intros Hid. unfold Run. rewrite Hid. cbn. split; reflexivity.
Qed.

(** C3.  [Run] is polling in state [s] after [k] passes; the next poll
    fails, in any of its three ways, and the context is done when the
    failure is looked at.  Then [Run] returns nil, with any fuel beyond
    [k], in the state the poll left. *)
Theorem Run_poll_failure_cancelled c ctx k s0 s s1 err :
  Run k c ctx s0 = (None, s) ->
  fetchNextEvent c ctx s = (inr err, s1) ->
  context.Done ctx (fst s1) = true ->
  forall n, Run (k + S n) c ctx s0 = (Some None, s1).
Proof.
  intros Hk Hf Hd n.
  rewrite (Run_continues k (S n) c ctx s0 s Hk).
  rewrite loop_S, iteration_eq, Hf, Hd. reflexivity.
Qed.

(** C1, as amended.  [Run] is polling in state [s] after [k] passes; the
    next poll brings a Shutdown event and the shutdown callback answers
    with an error [e].  Then [Run] returns, with any fuel beyond [k], the
    error made by [fmt.Errorf] with the format "shutdown callback failed:
    %w" from [e], which unwraps to [e]; the trace ends with the call of
    the callback and the log record of its failure, and holds one request
    more than in [s], that of this poll. *)
Theorem Run_shutdown_callback_error c ctx k s0 s s1 ev sv f e w2 :
  Run k c ctx s0 = (None, s) ->
  fetchNextEvent c ctx s = (inl ev, s1) ->
  Event.Shutdown ev = Some sv ->
  CallbackShutdown c = Some f ->
  f ctx sv (fst s1) = (Some e, w2) ->
  forall n,
    Run (k + S n) c ctx s0
    = (Some (Some (shutdownFailed e)),
       (w2,
        snd s1 ++ [Log LevelDebug "shutdown event received. shutting down extension" [];
                   CalledShutdown sv;
                   Log LevelError "shutdown callback failed" [("error", VError e)]]))
    /\ Unwrap (shutdownFailed e) = Some e
    /\ roundTrips (snd (snd (Run (k + S n) c ctx s0))) = S (roundTrips (snd s)).
Proof.
  intros Hk Hf Hsv Hcb He n.
  assert (Hev : ev = Event.mk None (Some sv)).
  { destruct (fetchNextEvent_one_variant _ _ _ _ _ Hf) as [[_ Hs]|[Hi _]].
    - congruence.
    - destruct ev as [i sh]. cbn in *. congruence. }
  subst ev.
  assert (Hrun : Run (k + S n) c ctx s0
                 = (Some (Some (shutdownFailed e)),
                    (w2,
                     snd s1 ++ [Log LevelDebug "shutdown event received. shutting down extension" [];
                                CalledShutdown sv;
                                Log LevelError "shutdown callback failed" [("error", VError e)]]))).
  { rewrite (Run_continues k (S n) c ctx s0 s Hk).
    rewrite loop_S, iteration_eq, Hf, dispatch_shutdown, Hcb, He. reflexivity. }
  split; [exact Hrun|]. split; [reflexivity|].
  rewrite Hrun. cbn [fst snd].
  rewrite roundTrips_app. cbn.
  pose proof (fetchNextEvent_state c ctx s) as Hst. rewrite Hf in Hst.
  cbn [snd] in Hst. rewrite Hst. cbn [snd]. rewrite roundTrips_polled. lia.
Qed.

(** C2.  After a successful fetch, an event whose Invoke variant is set
    sends the loop back to the poll, whether the invoke callback is set or
    not and whatever it answers; when it answers with an error, the error
    is logged.  An event whose variant is Shutdown makes the loop return,
    whether the shutdown callback is set or not and whatever it answers.
    In terms of [loop]: a pass that fetches an Invoke event is followed by
    the remaining passes, a pass that fetches a Shutdown event is the last
    one. *)
Theorem dispatch_invoke_polls_shutdown_returns c ctx s :
  (forall iv sh, fst (dispatch c ctx (Event.mk (Some iv) sh) s) = Polling)
  /\ (forall iv sh f err w,
        CallbackInvoke c = Some f ->
        f ctx iv (fst s) = (Some err, w) ->
        dispatch c ctx (Event.mk (Some iv) sh) s
        = (Polling,
           (w, snd s ++ [Log LevelDebug "invoke event received" [];
                         CalledInvoke iv;
                         Log LevelError "invoke callback failed" [("error", VError err)]])))
  /\ (forall sv, exists r, fst (dispatch c ctx (Event.mk None (Some sv)) s) = Returned r)
  /\ (forall s0 iv sh n,
        fetchNextEvent c ctx s0 = (inl (Event.mk (Some iv) sh), s) ->
        loop (S n) c ctx s0
        = loop n c ctx (snd (dispatch c ctx (Event.mk (Some iv) sh) s)))
  /\ (forall s0 sv n,
        fetchNextEvent c ctx s0 = (inl (Event.mk None (Some sv)), s) ->
        exists r, loop (S n) c ctx s0
                  = (Some r, snd (dispatch c ctx (Event.mk None (Some sv)) s))).
Proof.
  assert (Hinv : forall iv sh, fst (dispatch c ctx (Event.mk (Some iv) sh) s) = Polling).
  { intros iv sh. rewrite dispatch_invoke.
    destruct (CallbackInvoke c); reflexivity. }
  assert (Hshut : forall sv, exists r,
             fst (dispatch c ctx (Event.mk None (Some sv)) s) = Returned r).
  { intros sv. rewrite dispatch_shutdown.
    destruct (CallbackShutdown c); eexists; reflexivity. }
  split; [exact Hinv|]. split; [|split; [exact Hshut|split]].
  - intros iv sh f err w Hcb Hf.
    rewrite dispatch_invoke, Hcb, Hf. reflexivity.
  - intros s0 iv sh n Hf.
    rewrite loop_S, iteration_eq, Hf.
    specialize (Hinv iv sh).
    destruct (dispatch c ctx _ s) as [nx s']. cbn in Hinv. subst nx. reflexivity.
  - intros s0 sv n Hf.
    rewrite loop_S, iteration_eq, Hf.
    destruct (Hshut sv) as [r Hr].
    destruct (dispatch c ctx _ s) as [nx s']. cbn in Hr. subst nx.
    exists r. reflexivity.
Qed.

End RunTheorems.

Lemma Run_not_registered_witness :
  extensionId (script.fresh "ext") = ""
  /\ Run 7 (script.fresh "ext") script.ctx (script.start [script.event "INVOKE"])
     = (Some (Some notRegistered), script.start [script.event "INVOKE"])
  /\ roundTrips
       (snd (snd (Run 7 (script.fresh "ext") script.ctx
                    (script.start [script.event "INVOKE"])))) = 0.
Proof.
  split; [reflexivity|].
  apply (Run_not_registered (script.fresh "ext") script.ctx 7
           (script.start [script.event "INVOKE"])).
  reflexivity.
Defined.

Lemma Run_poll_failure_cancelled_witness :
  let c := scenario.cancelling in
  let s0 := script.start [script.event "INVOKE"; scenario.refused] in
  let s := snd (Run 1 c script.ctx s0) in
  let s1 := snd (fetchNextEvent c script.ctx s) in
  Run 1 c script.ctx s0 = (None, s)
  /\ fetchNextEvent c script.ctx s
     = (inr (Errorf "failed to get next event: %w" [AError (errorString "connection refused")]), s1)
  /\ context.Done script.ctx (fst s1) = true
  /\ Run 4 c script.ctx s0 = (Some None, s1).
Proof.
  intros c s0 s s1.
  assert (H1 : Run 1 c script.ctx s0 = (None, s)) by (vm_compute; reflexivity).
  assert (H2 : fetchNextEvent c script.ctx s
               = (inr (Errorf "failed to get next event: %w"
                         [AError (errorString "connection refused")]), s1))
    by (vm_compute; reflexivity).
  assert (H3 : context.Done script.ctx (fst s1) = true) by (vm_compute; reflexivity).
  split; [exact H1|]. split; [exact H2|]. split; [exact H3|].
  exact (Run_poll_failure_cancelled c script.ctx 1 s0 s s1 _ H1 H2 H3 2).
Defined.

Lemma Run_shutdown_callback_error_witness :
  let c := scenario.failing in
  let s0 := script.start [script.event "INVOKE"; script.event "SHUTDOWN"; script.event "INVOKE"] in
  let s := snd (Run 1 c script.ctx s0) in
  let s1 := snd (fetchNextEvent c script.ctx s) in
  let sv := ShutdownEvent.mk "SHUTDOWN" 0 "" in
  Run 1 c script.ctx s0 = (None, s)
  /\ fetchNextEvent c script.ctx s = (inl (Event.mk None (Some sv)), s1)
  /\ fst (Run 5 c script.ctx s0) = Some (Some (shutdownFailed scenario.boom))
  /\ Unwrap (shutdownFailed scenario.boom) = Some scenario.boom
  /\ roundTrips (snd (snd (Run 5 c script.ctx s0))) = 2.
Proof.
  intros c s0 s s1 sv.
  assert (H1 : Run 1 c script.ctx s0 = (None, s)) by (vm_compute; reflexivity).
  assert (H2 : fetchNextEvent c script.ctx s = (inl (Event.mk None (Some sv)), s1))
    by (vm_compute; reflexivity).
  split; [exact H1|]. split; [exact H2|].
  destruct (Run_shutdown_callback_error c script.ctx 1 s0 s s1
              (Event.mk None (Some sv)) sv (script.answering (Some scenario.boom))
              scenario.boom (fst s1) H1 H2 eq_refl eq_refl eq_refl 3)
    as (Hrun & Hun & Hrt).
  change (1 + 4) with 5 in Hrun, Hrt.
  split; [rewrite Hrun; reflexivity|]. split; [exact Hun|].
  rewrite Hrt. vm_compute. reflexivity.
Defined.

Lemma dispatch_invoke_polls_shutdown_returns_witness :
  let c := scenario.failing in
  let s0 := script.start [script.event "INVOKE"; script.event "SHUTDOWN"] in
  let s := snd (fetchNextEvent c script.ctx s0) in
  let iv := InvokeEvent.mk "INVOKE" 0 "" "" Tracing.zero in
  fetchNextEvent c script.ctx s0 = (inl (Event.mk (Some iv) None), s)
  /\ dispatch c script.ctx (Event.mk (Some iv) None) s
     = (Polling,
        (fst s, snd s ++ [Log LevelDebug "invoke event received" [];
                          CalledInvoke iv;
                          Log LevelError "invoke callback failed"
                            [("error", VError scenario.boom)]]))
  /\ loop 3 c script.ctx s0
     = loop 2 c script.ctx (snd (dispatch c script.ctx (Event.mk (Some iv) None) s))
  /\ exists r, loop 2 c script.ctx (snd (dispatch c script.ctx (Event.mk (Some iv) None) s))
               = (Some r,
                  snd (dispatch c script.ctx
                         (Event.mk None (Some (ShutdownEvent.mk "SHUTDOWN" 0 "")))
                         (snd (fetchNextEvent c script.ctx
                                 (snd (dispatch c script.ctx (Event.mk (Some iv) None) s)))))).
Proof.
  intros c s0 s iv.
  assert (H1 : fetchNextEvent c script.ctx s0 = (inl (Event.mk (Some iv) None), s))
    by (vm_compute; reflexivity).
  split; [exact H1|].
  destruct (dispatch_invoke_polls_shutdown_returns c script.ctx s)
    as (_ & Herr & _ & Hloop & _).
  split; [exact (Herr iv None (script.answering (Some scenario.boom)) scenario.boom (fst s)
                   eq_refl eq_refl)|].
  split; [exact (Hloop s0 iv None 2 H1)|].
  destruct (dispatch_invoke_polls_shutdown_returns c script.ctx
              (snd (fetchNextEvent c script.ctx
                      (snd (dispatch c script.ctx (Event.mk (Some iv) None) s)))))
    as (_ & _ & _ & _ & Hlast).
  apply (Hlast _ (ShutdownEvent.mk "SHUTDOWN" 0 "") 1).
  vm_compute. reflexivity.
Defined.

(** C1, as the claim words it, fails: the error [Run] returns is not the
    error the callback returned but a new one that wraps it. *)
Lemma shutdown_error_returned_unchanged_fails : ~ shutdown_error_returned_unchanged.
Proof.
  intros H.
  pose (c := scenario.failing).
  pose (s0 := script.start [script.event "SHUTDOWN"]).
  pose (s1 := snd (fetchNextEvent c script.ctx s0)).
  pose (sv := ShutdownEvent.mk "SHUTDOWN" 0 "").
  assert (H1 : Run 0 c script.ctx s0 = (None, s0)) by (vm_compute; reflexivity).
  assert (H2 : fetchNextEvent c script.ctx s0 = (inl (Event.mk None (Some sv)), s1))
    by (vm_compute; reflexivity).
  destruct (H script.world c script.ctx 0 s0 s0 s1 (Event.mk None (Some sv)) sv
              (script.answering (Some scenario.boom)) scenario.boom (fst s1) 0
              H1 H2 eq_refl eq_refl eq_refl) as [Hres _].
  vm_compute in Hres. discriminate Hres.
Qed.

(** ** The decoder on payloads it does not accept *)

Lemma discriminator_malformed (data : bytes) :
  scanner.whole data = None -> discriminator data = None.
Proof.
  intros H. unfold discriminator, decode.Unmarshal. rewrite H. reflexivity.
Qed.

Lemma lookupField_In (fields : list string) (k g : string) :
  decode.lookupField fields k = Some g -> In g fields.
Proof.
  unfold decode.lookupField.
  destruct (find (String.eqb k) fields) as [f|] eqn:Hx.
  - intros [= <-]. apply find_some in Hx. tauto.
  - intros Hf. apply find_some in Hf. tauto.
Qed.

Lemma selects_common_false (kv : string * json) :
  selects Event.commonFields "eventType" kv = false ->
  decode.lookupField Event.commonFields (fst kv) = None.
Proof.
  unfold selects.
  destruct (decode.lookupField Event.commonFields (fst kv)) as [g|] eqn:Hl;
    [|reflexivity].
  apply lookupField_In in Hl. cbn in Hl. destruct Hl as [<-|[]].
  cbn. discriminate.
Qed.

(** Members that select no field leave the struct as it is. *)
Lemma fold_members_skipped {T : Type} (fields : list string)
  (setField : string -> json -> T -> T * option error) (ms : list (string * json)) :
  forall st,
    Forall (fun kv => decode.lookupField fields (fst kv) = None) ms ->
    fold_left (decode.member fields setField) ms st = st.
Proof.
  induction ms as [|kv ms IH]; intros st Hall; [reflexivity|].
  inversion Hall as [|? ? Hkv Hms]; subst. cbn [fold_left].
  unfold decode.member at 2. rewrite Hkv. apply IH. exact Hms.
Qed.

Lemma discriminator_missing (data : bytes) :
  missingDiscriminator data -> discriminator data = Some "".
Proof.
  intros (ms & Hw & Hall).
  unfold discriminator, decode.Unmarshal. rewrite Hw.
  unfold Event.intoCommon, decode.intoStruct.
  rewrite fold_members_skipped; [reflexivity|].
  apply List.Forall_forall. intros kv Hin.
  rewrite forallb_forall in Hall. specialize (Hall kv Hin).
  apply selects_common_false. apply negb_true_iff. exact Hall.
Qed.

Lemma UnmarshalJSON_unknown (r : Event.t) (data : bytes) :
  discriminator data <> Some extensions.Invoke ->
  discriminator data <> Some extensions.Shutdown ->
  exists err,
    Event.UnmarshalJSON r data = (r, Some err)
    /\ forall d, discriminator data = Some d -> err = unknownEventType d.
Proof.
  unfold discriminator, Event.UnmarshalJSON.
  destruct (decode.Unmarshal Event.intoCommon data _) as [common [err|]].
  - intros _ _. exists err. split; [reflexivity | discriminate].
  - intros Hi Hs.
    destruct (String.eqb_spec (Event.EventType common) extensions.Invoke) as [E|_];
      [rewrite E in Hi; contradiction|].
    destruct (String.eqb_spec (Event.EventType common) extensions.Shutdown) as [E|_];
      [rewrite E in Hs; contradiction|].
    eexists. split; [reflexivity|]. intros d [= <-]. reflexivity.
Qed.

(** C6.  A payload that is no well-formed JSON text, or is an object
    without a member for [eventType], or has a discriminator other than
    INVOKE and SHUTDOWN (or none that the first pass can read), makes the
    decoder return an error and leave the receiver as it was; a fresh
    event keeps both variants nil.  The error names the discriminator when
    there is one. *)
Theorem UnmarshalJSON_rejects (r : Event.t) (data : bytes) :
  scanner.whole data = None
  \/ missingDiscriminator data
  \/ (discriminator data <> Some extensions.Invoke
      /\ discriminator data <> Some extensions.Shutdown) ->
  (exists err,
      Event.UnmarshalJSON r data = (r, Some err)
      /\ forall d, discriminator data = Some d -> err = unknownEventType d)
  /\ Event.Invoke (fst (Event.UnmarshalJSON Event.zero data)) = None
  /\ Event.Shutdown (fst (Event.UnmarshalJSON Event.zero data)) = None.
Proof.
  intros H.
  assert (Hd : discriminator data <> Some extensions.Invoke
               /\ discriminator data <> Some extensions.Shutdown).
  { destruct H as [H|[H|H]].
    - rewrite (discriminator_malformed _ H). split; discriminate.
    - rewrite (discriminator_missing _ H). split; discriminate.
    - exact H. }
  destruct Hd as [Hi Hs]. split.
  - apply UnmarshalJSON_unknown; assumption.
  - destruct (UnmarshalJSON_unknown Event.zero data Hi Hs) as (err & -> & _).
    split; reflexivity.
Qed.

Lemma UnmarshalJSON_rejects_witness :
  let malformed := list_byte_of_string "{eventType: INVOKE}" in
  let missing := script.object [("deadlineMs", "1")] in
  let future := script.object [("eventType", "FUTURE")] in
  scanner.whole malformed = None
  /\ Event.UnmarshalJSON Event.zero malformed = (Event.zero, Some SyntaxError)
  /\ missingDiscriminator missing
  /\ Event.UnmarshalJSON Event.zero missing = (Event.zero, Some (unknownEventType ""))
  /\ discriminator future = Some "FUTURE"
  /\ Event.UnmarshalJSON Event.zero future = (Event.zero, Some (unknownEventType "FUTURE")).
Proof.
  intros malformed missing future.
  assert (H1 : scanner.whole malformed = None) by (vm_compute; reflexivity).
  assert (H2 : missingDiscriminator missing).
  { eexists. split; vm_compute; reflexivity. }
  assert (H3 : discriminator future = Some "FUTURE") by (vm_compute; reflexivity).
  assert (H3' : discriminator future <> Some extensions.Invoke
                /\ discriminator future <> Some extensions.Shutdown).
  { rewrite H3. split; discriminate. }
  destruct (UnmarshalJSON_rejects Event.zero malformed (or_introl H1))
    as ((e1 & He1 & _) & _).
  destruct (UnmarshalJSON_rejects Event.zero missing (or_intror (or_introl H2)))
    as ((e2 & He2 & Hd2) & _).
  destruct (UnmarshalJSON_rejects Event.zero future (or_intror (or_intror H3')))
    as ((e3 & He3 & Hd3) & _).
  split; [exact H1|]. split.
  { rewrite He1. vm_compute in He1. congruence. }
  split; [exact H2|]. split.
  { rewrite He2, (Hd2 "" (discriminator_missing _ H2)). reflexivity. }
  split; [exact H3|].
  rewrite He3, (Hd3 _ H3). reflexivity.
Defined.

(** ** Events of an unknown kind in the loop *)

Section UnknownKind.

Context {W : Type}.

Implicit Types (c : Client W) (ctx : context.Context W) (s : state W).

(** C7, as amended.  The transport answers the poll with status 200 and a
    body whose first value has a discriminator [d] that is neither INVOKE
    nor SHUTDOWN.  The decoder refuses it with the error "unknown event
    type", so the poll fails.  If the context is done, [Run] returns nil;
    otherwise the failure is logged at the error level and the loop goes
    back to the poll.  Either way no callback is called and the world is
    as the transport left it. *)
Theorem iteration_unknown_kind c ctx s resp w1 raw v rest d :
  client c (pollRequest c) (fst s) = (inl resp, w1) ->
  http.StatusCode resp = http.StatusOK ->
  scanner.next (http.Body resp) = Some (raw, v, rest) ->
  discriminator raw = Some d ->
  d <> extensions.Invoke -> d <> extensions.Shutdown ->
  Event.Decode (http.Body resp) Event.zero = (Event.zero, Some (unknownEventType d))
  /\ fetchNextEvent c ctx s
     = (inr (decodeFailed (unknownEventType d)), (w1, polled c (snd s)))
  /\ iteration c ctx s
     = (if context.Done ctx w1 then (Returned None, (w1, polled c (snd s)))
        else (Polling,
              (w1, polled c (snd s)
                     ++ [Log LevelError "failed to fetch next event"
                           [("error", VError (decodeFailed (unknownEventType d)))]])))
  /\ List.filter isCallback (snd (snd (iteration c ctx s))) = List.filter isCallback (snd s).
Proof.
  intros Hc Hst Hn Hd Hi Hs.
  assert (Hdec : Event.Decode (http.Body resp) Event.zero
                 = (Event.zero, Some (unknownEventType d))).
  { unfold Event.Decode. rewrite Hn.
    destruct (UnmarshalJSON_unknown Event.zero raw) as (err & -> & Herr).
    - rewrite Hd. congruence.
    - rewrite Hd. congruence.
    - rewrite (Herr d Hd). reflexivity. }
  assert (Hf : fetchNextEvent c ctx s
               = (inr (decodeFailed (unknownEventType d)), (w1, polled c (snd s)))).
  { rewrite fetchNextEvent_eq, Hc, Hst, Hdec. reflexivity. }
  assert (Hit : iteration c ctx s
                = (if context.Done ctx w1 then (Returned None, (w1, polled c (snd s)))
                   else (Polling,
                         (w1, polled c (snd s)
                                ++ [Log LevelError "failed to fetch next event"
                                      [("error", VError (decodeFailed (unknownEventType d)))]])))).
  { rewrite iteration_eq, Hf. cbn [fst snd]. reflexivity. }
  split; [exact Hdec|]. split; [exact Hf|]. split; [exact Hit|].
  rewrite Hit. destruct (context.Done ctx w1); cbn [fst snd].
  - apply callbacks_polled.
  - rewrite List.filter_app, callbacks_polled. cbn. apply app_nil_r.
Qed.

End UnknownKind.

Lemma iteration_unknown_kind_witness :
  let c := scenario.failing in
  let s := script.start [script.event "FUTURE"] in
  let resp := http.mkResponse "200 OK" 200 script.jsonHeader
                (script.object [("eventType", "FUTURE")]) in
  let w1 := script.mk [] false in
  client c (pollRequest c) (fst s) = (inl resp, w1)
  /\ discriminator (script.object [("eventType", "FUTURE")]) = Some "FUTURE"
  /\ iteration c script.ctx s
     = (Polling,
        (w1, polled c []
               ++ [Log LevelError "failed to fetch next event"
                     [("error", VError (decodeFailed (unknownEventType "FUTURE")))]]))
  /\ List.filter isCallback (snd (snd (iteration c script.ctx s))) = [].
Proof.
  intros c s resp w1.
  assert (H1 : client c (pollRequest c) (fst s) = (inl resp, w1)) by reflexivity.
  assert (H2 : scanner.next (http.Body resp)
               = Some (script.object [("eventType", "FUTURE")],
                       JObject [("eventType", JString "FUTURE")], []))
    by (vm_compute; reflexivity).
  assert (H3 : discriminator (script.object [("eventType", "FUTURE")]) = Some "FUTURE")
    by (vm_compute; reflexivity).
  destruct (iteration_unknown_kind c script.ctx s resp w1 _ _ _ "FUTURE"
              H1 eq_refl H2 H3 ltac:(discriminate) ltac:(discriminate))
    as (_ & _ & Hit & Hcb).
  split; [exact H1|]. split; [exact H3|]. split; [exact Hit | exact Hcb].
Defined.

(** C7, as the claim words it, fails: the decoder does not accept a
    payload of an unknown kind, and what the loop logs is the failure of the
    poll, at the error level. *)
Lemma unknown_kind_accepted_and_skipped_fails : ~ unknown_kind_accepted_and_skipped.
Proof.
  intros H.
  pose (c := scenario.failing).
  pose (s := script.start [script.event "FUTURE"]).
  pose (resp := http.mkResponse "200 OK" 200 script.jsonHeader
                  (script.object [("eventType", "FUTURE")])).
  assert (H2 : scanner.next (http.Body resp)
               = Some (script.object [("eventType", "FUTURE")],
                       JObject [("eventType", JString "FUTURE")], []))
    by (vm_compute; reflexivity).
  assert (H3 : discriminator (script.object [("eventType", "FUTURE")]) = Some "FUTURE")
    by (vm_compute; reflexivity).
  destruct (H script.world c script.ctx s resp (script.mk [] false) _ _ _ "FUTURE"
              eq_refl eq_refl H2 H3 ltac:(discriminate) ltac:(discriminate))
    as [Hdec _].
  vm_compute in Hdec. discriminate Hdec.
Qed.

(** ** The branch for unknown events *)

Section UnknownBranch.

Context {W : Type}.

Implicit Types (c : Client W) (ctx : context.Context W) (s : state W).

Lemma polled_no_unknown c tr :
  In unknownEventReceived (polled c tr) -> In unknownEventReceived tr.
Proof.
  unfold polled. rewrite in_app_iff. cbn.
  intros [H|[H|[H|[]]]]; [exact H | discriminate H | discriminate H].
Qed.

Lemma dispatch_no_unknown c ctx ev s :
  oneVariant ev ->
  In unknownEventReceived (snd (snd (dispatch c ctx ev s))) ->
  In unknownEventReceived (snd s).
Proof.
  intros [[[iv Hi] Hs]|[Hi [sv Hs]]]; destruct ev as [i sh]; cbn in Hi, Hs; subst.
  - rewrite dispatch_invoke.
    destruct (CallbackInvoke c) as [f|]; cbn [fst snd].
    + destruct (fst (f ctx iv (fst s))); rewrite !in_app_iff; cbn;
        intuition discriminate.
    + rewrite in_app_iff. cbn. intuition discriminate.
  - rewrite dispatch_shutdown.
    destruct (CallbackShutdown c) as [f|]; cbn [fst snd].
    + destruct (fst (f ctx sv (fst s))); rewrite !in_app_iff; cbn;
        intuition discriminate.
    + rewrite in_app_iff. cbn. intuition discriminate.
Qed.

Lemma iteration_no_unknown c ctx s :
  In unknownEventReceived (snd (snd (iteration c ctx s))) ->
  In unknownEventReceived (snd s).
Proof.
  rewrite iteration_eq.
  pose proof (fetchNextEvent_state c ctx s) as Hst.
  destruct (fetchNextEvent c ctx s) as [[ev|err] s1] eqn:Hf; cbn [snd] in Hst; subst s1.
  - intros H. apply (polled_no_unknown c).
    apply (dispatch_no_unknown c ctx ev _ (fetchNextEvent_one_variant _ _ _ _ _ Hf)) in H.
    exact H.
  - cbn [fst snd]. destruct (context.Done ctx _); cbn [fst snd].
    + apply polled_no_unknown.
    + rewrite in_app_iff. cbn. intros [H|[H|[]]].
      * apply (polled_no_unknown c). exact H.
      * discriminate H.
Qed.

Lemma loop_no_unknown fuel : forall c ctx s,
  In unknownEventReceived (snd (snd (loop fuel c ctx s))) ->
  In unknownEventReceived (snd s).
Proof.
  induction fuel as [|fuel IH]; intros c ctx s; [exact (fun H => H)|].
  rewrite loop_S.
  destruct (iteration c ctx s) as [[|r] s1] eqn:Hit; intros H.
  - apply IH in H. apply (iteration_no_unknown c ctx). rewrite Hit. exact H.
  - apply (iteration_no_unknown c ctx). rewrite Hit. exact H.
Qed.

End UnknownBranch.

(** C10.  When the decoder succeeds on a fresh event, exactly one of the
    two variants is set.  So it is for the event of every successful
    fetch, and [Run], with any fuel and from any state, never adds the
    record "unknown event received" to the trace: the last branch of its
    loop is not taken. *)
Theorem decoded_event_has_one_variant :
  (forall (data : bytes) (ev : Event.t),
      Event.UnmarshalJSON Event.zero data = (ev, None) -> oneVariant ev)
  /\ (forall (W : Type) (c : Client W) (ctx : context.Context W) (s s1 : state W)
             (ev : Event.t),
        fetchNextEvent c ctx s = (inl ev, s1) ->
        oneVariant ev
        /\ (In unknownEventReceived (snd (snd (dispatch c ctx ev s1))) ->
            In unknownEventReceived (snd s1)))
  /\ (forall (W : Type) (c : Client W) (ctx : context.Context W) (fuel : nat) (s : state W),
        ~ In unknownEventReceived (snd s) ->
        ~ In unknownEventReceived (snd (snd (Run fuel c ctx s)))).
Proof.
  split; [|split].
  - intros data ev H. apply (UnmarshalJSON_zero_one_variant data ev H).
  - intros W c ctx s s1 ev Hf.
    pose proof (fetchNextEvent_one_variant c ctx s s1 ev Hf) as Hone.
    split; [exact Hone|]. apply dispatch_no_unknown. exact Hone.
  - intros W c ctx fuel s Hs H. apply Hs.
    unfold Run in H. destruct (String.eqb (extensionId c) "").
    + exact H.
    + apply (loop_no_unknown fuel c ctx s H).
Qed.

Lemma decoded_event_has_one_variant_witness :
  let data := script.object [("eventType", "INVOKE")] in
  let ev := Event.mk (Some (InvokeEvent.mk "INVOKE" 0 "" "" Tracing.zero)) None in
  let c := scenario.silent in
  let s := script.start [script.event "SHUTDOWN"; script.event "FUTURE"] in
  Event.UnmarshalJSON Event.zero data = (ev, None)
  /\ oneVariant ev
  /\ oneVariant (Event.mk None (Some (ShutdownEvent.mk "SHUTDOWN" 0 "")))
  /\ ~ In unknownEventReceived (snd (snd (Run 3 c script.ctx s))).
Proof.
  intros data ev c s.
  destruct decoded_event_has_one_variant as (Hdec & Hfetch & Hrun).
  assert (H1 : Event.UnmarshalJSON Event.zero data = (ev, None)) by (vm_compute; reflexivity).
  split; [exact H1|]. split; [exact (Hdec data ev H1)|]. split.
  - refine (proj1 (Hfetch script.world c script.ctx s
                     (snd (fetchNextEvent c script.ctx s)) _ _)).
    vm_compute. reflexivity.
  - apply (Hrun script.world c script.ctx 3 s). cbn. tauto.
Defined.

(** ** The decoder on well-formed payloads *)

Lemma given_snoc (fields : list string) (f : string) (ms : list (string * json))
  (kv : string * json) :
  given fields f (ms ++ [kv])
  = if selects fields f kv then Some (snd kv) else given fields f ms.
Proof.
  induction ms as [|m ms IH]; cbn [app given].
  - destruct (selects fields f kv); reflexivity.
  - rewrite IH. destruct (selects fields f kv); reflexivity.
Qed.

Lemma given_ext (F F' : list string) (f f' : string) (ms : list (string * json)) :
  (forall kv, selects F f kv = selects F' f' kv) ->
  given F f ms = given F' f' ms.
Proof.
  intros H. induction ms as [|m ms IH]; cbn [given]; [reflexivity|].
  rewrite IH, H. reflexivity.
Qed.

Lemma tracingMembers_snoc (ms : list (string * json)) (kv : string * json) :
  tracingMembers (ms ++ [kv])
  = tracingMembers ms
      ++ (if selects InvokeEvent.fields "tracing" kv then
            match snd kv with
            | JObject tms => tms
            | _ => []
            end
          else []).
Proof.
  unfold tracingMembers. rewrite flat_map_app. cbn [flat_map].
  rewrite app_nil_r. reflexivity.
Qed.

(** A decoding step on a struct that starts from what the members seen so
    far describe, extended to a whole list of members. *)
Lemma fold_members_described {T : Type} (fields : list string)
  (setField : string -> json -> T -> T * option error)
  (wf : string * json -> bool) (described : list (string * json) -> T) :
  (forall seen kv,
      wf kv = true ->
      decode.member fields setField (described seen, None) kv
      = (described (seen ++ [kv]), None)) ->
  forall ms seen,
    forallb wf ms = true ->
    fold_left (decode.member fields setField) ms (described seen, None)
    = (described (seen ++ ms), None).
Proof.
  intros Hstep ms. induction ms as [|kv ms IH]; intros seen Hwf.
  - rewrite app_nil_r. reflexivity.
  - cbn [forallb] in Hwf. apply andb_true_iff in Hwf as [Hkv Hms].
    cbn [fold_left]. rewrite Hstep by exact Hkv.
    rewrite IH by exact Hms. rewrite <- app_assoc. reflexivity.
Qed.

#[local] Arguments decode.ParseInt : simpl never.

Ltac field_cases Hl :=
  let Hf := fresh "Hf" in
  apply lookupField_In in Hl as Hf; cbn in Hf;
  repeat (destruct Hf as [<-|Hf]); [..|destruct Hf].

Lemma tracing_member (seen : list (string * json)) (kv : string * json) :
  wfTracingMember kv = true ->
  decode.member Tracing.fields Tracing.setField (tracingOf seen, None) kv
  = (tracingOf (seen ++ [kv]), None).
Proof.
  unfold wfTracingMember, decode.member, tracingOf. intros Hwf.
  rewrite !given_snoc. unfold selects.
  destruct (decode.lookupField Tracing.fields (fst kv)) as [g|] eqn:Hl;
    [|reflexivity].
  destruct (snd kv) as [| | |x| |]; try discriminate Hwf.
  field_cases Hl; reflexivity.
Qed.

Lemma invoke_member (seen : list (string * json)) (kv : string * json) :
  wfInvokeMember kv = true ->
  decode.member InvokeEvent.fields InvokeEvent.setField (invokeOf seen, None) kv
  = (invokeOf (seen ++ [kv]), None).
Proof.
  unfold wfInvokeMember, decode.member, invokeOf. intros Hwf.
  rewrite !given_snoc, tracingMembers_snoc. unfold selects.
  destruct (decode.lookupField InvokeEvent.fields (fst kv)) as [g|] eqn:Hl;
    [|rewrite app_nil_r; reflexivity].
  field_cases Hl; cbn in Hwf |- *.
  - destruct (snd kv); try discriminate Hwf. rewrite app_nil_r. reflexivity.
  - destruct (snd kv) as [| |lit| | |]; try discriminate Hwf.
    rewrite app_nil_r. unfold isInt in Hwf. cbn.
    destruct (decode.ParseInt lit); [reflexivity | discriminate Hwf].
  - destruct (snd kv); try discriminate Hwf. rewrite app_nil_r. reflexivity.
  - destruct (snd kv); try discriminate Hwf. rewrite app_nil_r. reflexivity.
  - destruct (snd kv) as [| | | | |tms]; try discriminate Hwf.
    unfold Tracing.into, decode.intoStruct.
    rewrite (fold_members_described Tracing.fields Tracing.setField
               wfTracingMember tracingOf tracing_member tms _ Hwf).
    reflexivity.
Qed.

Lemma shutdown_member (seen : list (string * json)) (kv : string * json) :
  wfShutdownMember kv = true ->
  decode.member ShutdownEvent.fields ShutdownEvent.setField (shutdownOf seen, None) kv
  = (shutdownOf (seen ++ [kv]), None).
Proof.
  unfold wfShutdownMember, decode.member, shutdownOf. intros Hwf.
  rewrite !given_snoc. unfold selects.
  destruct (decode.lookupField ShutdownEvent.fields (fst kv)) as [g|] eqn:Hl;
    [|reflexivity].
  field_cases Hl; cbn in Hwf |- *.
  - destruct (snd kv); try discriminate Hwf. reflexivity.
  - destruct (snd kv) as [| |lit| | |]; try discriminate Hwf. unfold isInt in Hwf. cbn.
    destruct (decode.ParseInt lit); [reflexivity | discriminate Hwf].
  - destruct (snd kv); try discriminate Hwf. reflexivity.
Qed.

Lemma into_invoke (ms : list (string * json)) :
  forallb wfInvokeMember ms = true ->
  InvokeEvent.into (JObject ms) InvokeEvent.zero = (invokeOf ms, None).
Proof.
  intros Hwf. unfold InvokeEvent.into, decode.intoStruct.
  apply (fold_members_described InvokeEvent.fields InvokeEvent.setField
           wfInvokeMember invokeOf invoke_member ms [] Hwf).
Qed.

Lemma into_shutdown (ms : list (string * json)) :
  forallb wfShutdownMember ms = true ->
  ShutdownEvent.into (JObject ms) ShutdownEvent.zero = (shutdownOf ms, None).
Proof.
  intros Hwf. unfold ShutdownEvent.into, decode.intoStruct.
  apply (fold_members_described ShutdownEvent.fields ShutdownEvent.setField
           wfShutdownMember shutdownOf shutdown_member ms [] Hwf).
Qed.

(** A payload of a known kind with a field of the wrong type: the decoder
    returns a type error, and the receiver keeps the variant it had been
    given before the second pass ([fetchNextEvent] drops it). *)
Example UnmarshalJSON_type_error_keeps_variant :
  let data := script.object [("eventType", "INVOKE"); ("deadlineMs", "soon")] in
  Event.UnmarshalJSON Event.zero data
  = (Event.mk (Some (InvokeEvent.mk "INVOKE" 0 "" "" Tracing.zero)) None,
     Some (UnmarshalTypeError "string" TInt)).
Proof. vm_compute. reflexivity. Qed.

(** The first pass and the second select [eventType] by the same keys. *)
Lemma selects_eventType_invoke (kv : string * json) :
  selects Event.commonFields "eventType" kv = selects InvokeEvent.fields "eventType" kv.
Proof.
  unfold selects, decode.lookupField, Event.commonFields, InvokeEvent.fields.
  generalize (fst kv) as k. intros k. cbn [find].
  destruct (String.eqb_spec k "eventType") as [->|_]; [reflexivity|].
  destruct (String.eqb_spec k "deadlineMs") as [->|_]; [vm_compute; reflexivity|].
  destruct (String.eqb_spec k "requestId") as [->|_]; [vm_compute; reflexivity|].
  destruct (String.eqb_spec k "invokedFunctionArn") as [->|_]; [vm_compute; reflexivity|].
  destruct (String.eqb_spec k "tracing") as [->|_]; [vm_compute; reflexivity|].
  destruct (String.eqb (decode.foldName "eventType") (decode.foldName k)); [reflexivity|].
  repeat match goal with
         | |- context [if ?b then _ else _] => destruct b
         end; reflexivity.
Qed.

Lemma selects_eventType_shutdown (kv : string * json) :
  selects Event.commonFields "eventType" kv = selects ShutdownEvent.fields "eventType" kv.
Proof.
  unfold selects, decode.lookupField, Event.commonFields, ShutdownEvent.fields.
  generalize (fst kv) as k. intros k. cbn [find].
  destruct (String.eqb_spec k "eventType") as [->|_]; [reflexivity|].
  destruct (String.eqb_spec k "deadlineMs") as [->|_]; [vm_compute; reflexivity|].
  destruct (String.eqb_spec k "shutdownReason") as [->|_]; [vm_compute; reflexivity|].
  destruct (String.eqb (decode.foldName "eventType") (decode.foldName k)); [reflexivity|].
  repeat match goal with
         | |- context [if ?b then _ else _] => destruct b
         end; reflexivity.
Qed.

Lemma selects_eventType_lookup (fields : list string) (kv : string * json) :
  selects fields "eventType" kv = true ->
  decode.lookupField fields (fst kv) = Some "eventType".
Proof.
  unfold selects. destruct (decode.lookupField fields (fst kv)) as [g|]; [|discriminate].
  intros H. apply String.eqb_eq in H. congruence.
Qed.

Lemma wfCommon_of_selects (fields : list string) (wf : string * json -> bool) :
  (forall kv, selects Event.commonFields "eventType" kv = selects fields "eventType" kv) ->
  (forall kv, wf kv = true ->
              decode.lookupField fields (fst kv) = Some "eventType" ->
              isString (snd kv) = true) ->
  forall ms, forallb wf ms = true -> forallb wfCommonMember ms = true.
Proof.
  intros Hsel Hwf ms Hall. rewrite forallb_forall in Hall |- *.
  intros kv Hin. unfold wfCommonMember.
  destruct (decode.lookupField Event.commonFields (fst kv)) as [g|] eqn:Hl; [|reflexivity].
  apply (Hwf kv (Hall kv Hin)). apply selects_eventType_lookup.
  rewrite <- Hsel. unfold selects. rewrite Hl.
  field_cases Hl. reflexivity.
Qed.

Lemma common_member (seen : list (string * json)) (kv : string * json) :
  wfCommonMember kv = true ->
  decode.member Event.commonFields Event.commonSetField (commonOf seen, None) kv
  = (commonOf (seen ++ [kv]), None).
Proof.
  unfold wfCommonMember, decode.member, commonOf. intros Hwf.
  rewrite !given_snoc. unfold selects.
  destruct (decode.lookupField Event.commonFields (fst kv)) as [g|] eqn:Hl;
    [|reflexivity].
  destruct (snd kv) as [| | |x| |]; try discriminate Hwf.
  field_cases Hl. reflexivity.
Qed.

(** The discriminator of an object whose members for [eventType] are
    strings is the last of them. *)
Lemma discriminator_given (data : bytes) (ms : list (string * json)) :
  scanner.whole data = Some (JObject ms) ->
  forallb wfCommonMember ms = true ->
  discriminator data = Some (stringOf (given Event.commonFields "eventType" ms)).
Proof.
  intros Hw Hwf. unfold discriminator, decode.Unmarshal. rewrite Hw.
  unfold Event.intoCommon, decode.intoStruct.
  change (Event.mkCommon "") with (commonOf []).
  rewrite (fold_members_described Event.commonFields Event.commonSetField
             wfCommonMember commonOf common_member ms [] Hwf).
  reflexivity.
Qed.

Lemma invokeOf_EventType (data : bytes) (ms : list (string * json)) :
  wellFormedInvoke data ms -> InvokeEvent.EventType (invokeOf ms) = extensions.Invoke.
Proof.
  intros (Hw & Hwf & Hd).
  rewrite (discriminator_given data ms Hw) in Hd.
  - injection Hd as Hd. cbn [invokeOf InvokeEvent.EventType].
    rewrite <- (given_ext _ _ _ _ ms selects_eventType_invoke). exact Hd.
  - apply (wfCommon_of_selects InvokeEvent.fields wfInvokeMember selects_eventType_invoke);
      [|exact Hwf].
    intros kv Hkv Hl. unfold wfInvokeMember in Hkv. rewrite Hl in Hkv. exact Hkv.
Qed.

Lemma shutdownOf_EventType (data : bytes) (ms : list (string * json)) :
  wellFormedShutdown data ms -> ShutdownEvent.EventType (shutdownOf ms) = extensions.Shutdown.
Proof.
  intros (Hw & Hwf & Hd).
  rewrite (discriminator_given data ms Hw) in Hd.
  - injection Hd as Hd. cbn [shutdownOf ShutdownEvent.EventType].
    rewrite <- (given_ext _ _ _ _ ms selects_eventType_shutdown). exact Hd.
  - apply (wfCommon_of_selects ShutdownEvent.fields wfShutdownMember
             selects_eventType_shutdown); [|exact Hwf].
    intros kv Hkv Hl. unfold wfShutdownMember in Hkv. rewrite Hl in Hkv. exact Hkv.
Qed.

Lemma discriminator_first_pass (data : bytes) (d : EventType) :
  discriminator data = Some d ->
  decode.Unmarshal Event.intoCommon data (Event.mkCommon "") = (Event.mkCommon d, None).
Proof.
  unfold discriminator.
  destruct (decode.Unmarshal Event.intoCommon data _) as [[x] [err|]]; [discriminate|].
  intros [= <-]. reflexivity.
Qed.

(** C5.  On a well-formed payload whose discriminator is INVOKE the
    decoder succeeds: a fresh event gets the Invoke variant, each of its
    fields holding what the payload gives for it (the zero value when the
    payload gives nothing), its event type being INVOKE, and the Shutdown
    variant stays nil.  Likewise for SHUTDOWN, with the variants
    exchanged. *)
Theorem UnmarshalJSON_well_formed :
  (forall (data : bytes) (ms : list (string * json)),
      wellFormedInvoke data ms ->
      Event.UnmarshalJSON Event.zero data = (Event.mk (Some (invokeOf ms)) None, None)
      /\ InvokeEvent.EventType (invokeOf ms) = extensions.Invoke)
  /\ (forall (data : bytes) (ms : list (string * json)),
        wellFormedShutdown data ms ->
        Event.UnmarshalJSON Event.zero data = (Event.mk None (Some (shutdownOf ms)), None)
        /\ ShutdownEvent.EventType (shutdownOf ms) = extensions.Shutdown).
Proof.
  split; intros data ms Hwf.
  - split; [|exact (invokeOf_EventType data ms Hwf)].
    destruct Hwf as (Hw & Hms & Hd).
    unfold Event.UnmarshalJSON.
    rewrite (discriminator_first_pass data _ Hd). cbn [Event.EventType].
    rewrite String.eqb_refl.
    unfold decode.Unmarshal. rewrite Hw, (into_invoke ms Hms). reflexivity.
  - split; [|exact (shutdownOf_EventType data ms Hwf)].
    destruct Hwf as (Hw & Hms & Hd).
    unfold Event.UnmarshalJSON.
    rewrite (discriminator_first_pass data _ Hd). cbn [Event.EventType].
    change (String.eqb extensions.Shutdown extensions.Invoke) with false.
    rewrite String.eqb_refl. cbn iota.
    unfold decode.Unmarshal. rewrite Hw, (into_shutdown ms Hms). reflexivity.
Qed.

Lemma UnmarshalJSON_well_formed_witness :
  wellFormedInvoke payload.invoke payload.invokeMembers
  /\ Event.UnmarshalJSON Event.zero payload.invoke
     = (Event.mk
          (Some (InvokeEvent.mk "INVOKE" 676051 "3da1f2dc-3222-475e-9205-e2e6c6318895"
                   "arn:aws:lambda:us-east-1:123456789012:function:ExtensionTest"
                   (Tracing.mk "X-Amzn-Trace-Id"
                      "Root=1-5f35ae12-0c0fec141ab77a00bc047aa2;Parent=2be948a625588e32;Sampled=1")))
          None, None)
  /\ wellFormedShutdown payload.shutdown payload.shutdownMembers
  /\ Event.UnmarshalJSON Event.zero payload.shutdown
     = (Event.mk None (Some (ShutdownEvent.mk "SHUTDOWN" 1596036475071 "spindown")), None).
Proof.
  assert (Hi : wellFormedInvoke payload.invoke payload.invokeMembers).
  { repeat split; vm_compute; reflexivity. }
  assert (Hs : wellFormedShutdown payload.shutdown payload.shutdownMembers).
  { repeat split; vm_compute; reflexivity. }
  destruct UnmarshalJSON_well_formed as [Hinv Hshut].
  split; [exact Hi|]. split.
  { rewrite (proj1 (Hinv _ _ Hi)). vm_compute. reflexivity. }
  split; [exact Hs|].
  rewrite (proj1 (Hshut _ _ Hs)). vm_compute. reflexivity.
Defined.

(** ** Register *)

(** The two header names are in canonical form: [Header.Set] and
    [Header.Get] use them as they are. *)
Lemma header_names_canonical :
  http.CanonicalHeaderKey extensions.lambdaExtensionNameHeader
  = extensions.lambdaExtensionNameHeader
  /\ http.CanonicalHeaderKey extensions.lambdaExtensionIdentifierHeader
     = extensions.lambdaExtensionIdentifierHeader.
Proof. split; vm_compute; reflexivity. Qed.

Section RegisterFacts.

Context {W : Type}.

Implicit Types (c : Client W) (ctx : context.Context W) (s : state W).

(** [Register] by cases on the answer of the transport. *)
Lemma Register_eq c ctx s :
  Register c ctx s =
    match client c (registerRequest c) (fst s) with
    | (inr err, w) =>
        ((c, Some (Errorf "failed to register extension: %w" [AError err])),
         (w, registering c (snd s)))
    | (inl resp, w) =>
        match decode.Decode decode.intoMap (http.Body resp) None with
        | (_, Some err) =>
            ((c, Some (Errorf "failed to decode register response: %w" [AError err])),
             (w, registering c (snd s)))
        | (result, None) =>
            let status :=
              Log LevelInfo "register status"
                [("status", VString (http.Status resp)); ("response", VMap result)] in
            if String.eqb (identifierOf resp) "" then
              ((withExtensionId c (identifierOf resp),
                Some (Errorf "extension identifier is empty: %d %v"
                        [AInt (http.StatusCode resp); AHeader (http.Header_ resp)])),
               (w, registering c (snd s) ++ [status]))
            else
              ((withExtensionId c (identifierOf resp), None),
               (w, registering c (snd s)
                     ++ [status;
                         Log LevelInfo "extension registered"
                           [("extension_id", VString (identifierOf resp))]]))
        end
    end.
Proof.
  unfold Register, registering, registerRequest, requestedEvents, identifierOf.
  destruct (CallbackInvoke c), (CallbackShutdown c);
    unfold_M; cbn [app]; rewrite <- app_assoc; cbn [app];
    (destruct (client c _ (fst s)) as [[resp|err] w]; [|reflexivity]);
    (destruct (decode.Decode decode.intoMap (http.Body resp) None) as [result [e|]];
     [reflexivity|]);
    cbn [extensionId withExtensionId];
    destruct (String.eqb _ ""); cbn [fst snd];
    rewrite <- ?app_assoc; reflexivity.
Qed.

Lemma withExtensionId_same c : withExtensionId c (extensionId c) = c.
Proof. destruct c. reflexivity. Qed.

(** C8, as amended.  [Register] changes nothing of the client but the
    identifier.  A call that fails on the transport or on decoding the body
    of the response leaves the client as it was.  A call whose response
    decodes and carries a non-empty identifier succeeds and sets the
    identifier to that of the response, whatever it was before; every call
    that succeeds is of this kind.  A response without the identifier makes
    the call fail, and a call that fails on a client whose identifier is
    empty leaves it empty. *)
Theorem Register_extensionId c ctx s :
  let c' := fst (fst (Register c ctx s)) in
  let err := snd (fst (Register c ctx s)) in
  c' = withExtensionId c (extensionId c')
  /\ (forall e w, client c (registerRequest c) (fst s) = (inr e, w) ->
                  c' = c /\ err = Some (Errorf "failed to register extension: %w" [AError e]))
  /\ (forall resp w e,
        client c (registerRequest c) (fst s) = (inl resp, w) ->
        snd (decode.Decode decode.intoMap (http.Body resp) None) = Some e ->
        c' = c /\ err = Some (Errorf "failed to decode register response: %w" [AError e]))
  /\ (forall resp w,
        client c (registerRequest c) (fst s) = (inl resp, w) ->
        snd (decode.Decode decode.intoMap (http.Body resp) None) = None ->
        (identifierOf resp <> "" -> err = None /\ extensionId c' = identifierOf resp)
        /\ (identifierOf resp = "" -> err <> None))
  /\ (err = None ->
      exists resp w,
        client c (registerRequest c) (fst s) = (inl resp, w)
        /\ extensionId c' = identifierOf resp /\ extensionId c' <> "")
  /\ (err <> None -> extensionId c = "" -> extensionId c' = "").
Proof.
  cbv zeta. rewrite Register_eq.
  destruct (client c (registerRequest c) (fst s)) as [[resp|e0] w0] eqn:Hc.
  - destruct (decode.Decode decode.intoMap (http.Body resp) None) as [result [e1|]] eqn:Hd.
    + cbn [fst snd]. split; [symmetry; apply withExtensionId_same|].
      split; [intros e w [=]|].
      split; [intros resp' w e [= <- _] He; rewrite Hd in He; cbn in He; split; congruence|].
      split; [intros resp' w [= <- _] He; rewrite Hd in He; discriminate He|].
      split; [discriminate|].
      intros _ Hid. exact Hid.
    + cbn zeta.
      destruct (String.eqb_spec (identifierOf resp) "") as [Hid|Hid]; cbn [fst snd].
      * split; [reflexivity|].
        split; [intros e w [=]|].
        split; [intros resp' w e [= <- _] He; rewrite Hd in He; discriminate He|].
        split; [intros resp' w [= <- _] _; split; [contradiction | discriminate]|].
        split; [discriminate|].
        intros _ _. exact Hid.
      * split; [reflexivity|].
        split; [intros e w [=]|].
        split; [intros resp' w e [= <- _] He; rewrite Hd in He; discriminate He|].
        split; [intros resp' w [= <- _] _; split; [split; reflexivity | contradiction]|].
        split; [intros _; exists resp, w0; split; [reflexivity|split; [reflexivity|exact Hid]]|].
        intros H. contradiction.
  - cbn [fst snd]. split; [symmetry; apply withExtensionId_same|].
    split; [intros e w [= <- _]; split; reflexivity|].
    split; [intros resp w e [=]|].
    split; [intros resp w [=]|].
    split; [discriminate|].
    intros _ Hid. exact Hid.
Qed.

End RegisterFacts.

Lemma Register_extensionId_witness :
  let c := script.withCallbacks (script.fresh "ext")
             (Some (script.answering None)) (Some (script.answering None)) in
  let c1 := withExtensionId c "0000-0000-0000-0000" in
  fst (Register c script.ctx (script.start [script.registered "0000-0000-0000-0000"]))
  = (c1, None)
  /\ fst (Register c1 script.ctx (script.start [script.registered "1111"]))
     = (withExtensionId c1 "1111", None)
  /\ fst (Register c1 script.ctx (script.start [scenario.refused]))
     = (c1, Some (Errorf "failed to register extension: %w"
                    [AError (errorString "connection refused")]))
  /\ extensionId (fst (fst (Register c script.ctx (script.start [script.unidentified])))) = ""
  /\ snd (fst (Register c script.ctx (script.start [script.unidentified]))) <> None.
Proof.
  intros c c1.
  pose (ok0 := http.mkResponse "200 OK" 200
                 (http.Set_ script.jsonHeader extensions.lambdaExtensionIdentifierHeader
                    "0000-0000-0000-0000")
                 (script.object [("functionName", "helloWorld");
                                 ("functionVersion", "$LATEST"); ("handler", "handler")])).
  pose (ok1 := http.mkResponse "200 OK" 200
                 (http.Set_ script.jsonHeader extensions.lambdaExtensionIdentifierHeader "1111")
                 (script.object [("functionName", "helloWorld");
                                 ("functionVersion", "$LATEST"); ("handler", "handler")])).
  pose (bare := http.mkResponse "200 OK" 200 script.jsonHeader
                  (script.object [("functionName", "helloWorld")])).
  destruct (Register_extensionId c script.ctx
              (script.start [script.registered "0000-0000-0000-0000"]))
    as (Hframe0 & _ & _ & Hok0 & _ & _).
  destruct (Hok0 ok0 (script.mk [] false) eq_refl ltac:(vm_compute; reflexivity))
    as [Hset0 _].
  destruct (Hset0 ltac:(vm_compute; discriminate)) as [He0 Hid0].
  destruct (Register_extensionId c1 script.ctx (script.start [script.registered "1111"]))
    as (Hframe1 & _ & _ & Hok1 & _ & _).
  destruct (Hok1 ok1 (script.mk [] false) eq_refl ltac:(vm_compute; reflexivity))
    as [Hset1 _].
  destruct (Hset1 ltac:(vm_compute; discriminate)) as [He1 Hid1].
  destruct (Register_extensionId c1 script.ctx (script.start [scenario.refused]))
    as (_ & Hnet & _ & _ & _ & _).
  destruct (Hnet (errorString "connection refused") (script.mk [] false) eq_refl)
    as [Hc2 He2].
  destruct (Register_extensionId c script.ctx (script.start [script.unidentified]))
    as (_ & _ & _ & Hok3 & _ & Hempty).
  destruct (Hok3 bare (script.mk [] false) eq_refl ltac:(vm_compute; reflexivity))
    as [_ Hfail].
  specialize (Hfail ltac:(vm_compute; reflexivity)).
  split.
  { rewrite (surjective_pairing (fst (Register c script.ctx _))).
    rewrite He0, Hframe0, Hid0. reflexivity. }
  split.
  { rewrite (surjective_pairing (fst (Register c1 script.ctx _))).
    rewrite He1, Hframe1, Hid1. reflexivity. }
  split.
  { rewrite (surjective_pairing (fst (Register c1 script.ctx _))).
    rewrite He2, Hc2. reflexivity. }
  split; [exact (Hempty Hfail eq_refl) | exact Hfail].
Defined.

(** C8, as the claim words it, fails: a second call that succeeds
    replaces the identifier the first one set. *)
Lemma session_identifier_set_once_fails : ~ session_identifier_set_once.
Proof.
  intros H.
  pose (c := script.fresh "ext").
  pose (c1 := withExtensionId c "0000-0000-0000-0000").
  pose (s := script.start [script.registered "0000-0000-0000-0000"]).
  pose (s' := script.start [script.registered "1111"]).
  assert (H1 : Register c script.ctx s = ((c1, None), snd (Register c script.ctx s)))
    by (vm_compute; reflexivity).
  destruct (H script.world c c1 script.ctx s _ None H1) as [_ Hkeep].
  assert (H2 : Register c1 script.ctx s'
               = ((withExtensionId c1 "1111", None), snd (Register c1 script.ctx s')))
    by (vm_compute; reflexivity).
  specialize (Hkeep eq_refl s' _ _ None H2).
  vm_compute in Hkeep. discriminate Hkeep.
Qed.

(** On a client that is registered, a response without the identifier
    makes [Register] fail and leaves the identifier empty. *)
Example Register_without_identifier_on_registered_client :
  let c1 := withExtensionId (script.fresh "ext") "0000-0000-0000-0000" in
  let r := Register c1 script.ctx (script.start [script.unidentified]) in
  extensionId (fst (fst r)) = "" /\ snd (fst r) <> None.
Proof. vm_compute. split; [reflexivity | discriminate]. Qed.

(** ** SubscribeTelemetry *)

Section TelemetryFacts.

Context {W : Type}.

Implicit Types (c : Client W) (ctx : context.Context W) (s : state W).

Lemma requests_app (tr tr' : list action) :
  requests (tr ++ tr') = requests tr ++ requests tr'.
Proof.
  induction tr as [|a tr IH]; [reflexivity|].
  destruct a; cbn [app requests]; rewrite IH; reflexivity.
Qed.

(** [SubscribeTelemetry] by cases on the answer of the transport. *)
Lemma SubscribeTelemetry_eq c ctx (subscription : option TelemetrySubscription.t) s :
  SubscribeTelemetry c ctx subscription s =
    let sub := default NewDefaultTelemetrySubscription subscription in
    match client c (telemetryRequest c sub) (fst s) with
    | (inr err, w) =>
        (Some (Errorf "failed to register extension: %w" [AError err]),
         (w, subscribing c sub (snd s)))
    | (inl resp, w) =>
        if negb (Z.eqb (http.StatusCode resp) http.StatusOK) then
          (Some (Errorf "failed to subscribe telemetry API: %d %s"
                   [AInt (http.StatusCode resp);
                    AString (string_of_list_byte (http.Body resp))]),
           (w, subscribing c sub (snd s)))
        else
          (None,
           (w, subscribing c sub (snd s)
                 ++ [Log LevelInfo "subscribed telemetry API"
                       [("status", VString (http.Status resp));
                        ("response", VString (string_of_list_byte (http.Body resp)))]]))
    end.
Proof.
  unfold SubscribeTelemetry, subscribing, telemetryRequest.
  destruct subscription as [sub|]; cbn [default]; unfold_M;
    rewrite <- app_assoc; cbn [app];
    (destruct (client c _ (fst s)) as [[resp|err] w]; [|reflexivity]);
    destruct (negb _); cbn [fst snd]; rewrite <- ?app_assoc; reflexivity.
Qed.

(** C9.  With the nil subscription, [SubscribeTelemetry] sends one
    request, a PUT to the telemetry endpoint, whatever the client, the
    world and the answer.  Its body is the encoding of the documented
    default subscription, byte for byte the documented text, and it reads
    back as the documented document:
    schemaVersion "2022-12-13", types "function" and "platform", buffering
    500 items, 1048576 bytes and 1000 ms, destination HTTP to
    http://sandbox.localdomain:8080. *)
Theorem SubscribeTelemetry_default_body c ctx s :
  let req := telemetryRequest c DefaultTelemetrySubscription in
  requests (snd (snd (SubscribeTelemetry c ctx None s))) = requests (snd s) ++ [req]
  /\ http.Method req = http.MethodPut
  /\ http.URL req = lambdaTelemetryAPIEndpoint c
  /\ http.ReqBody req = TelemetrySubscription.Marshal documentedSubscription
  /\ http.ReqBody req = documentedText
  /\ scanner.whole (http.ReqBody req) = Some documentedDocument.
Proof.
  cbv zeta. split.
  - rewrite SubscribeTelemetry_eq. cbn [default]. unfold NewDefaultTelemetrySubscription.
    destruct (client c _ (fst s)) as [[resp|err] w]; cbn [fst snd].
    + destruct (negb _); cbn [fst snd]; unfold subscribing;
        rewrite !requests_app; cbn [requests]; rewrite ?app_nil_r; reflexivity.
    + unfold subscribing. rewrite requests_app. reflexivity.
  - split; [reflexivity|]. split; [reflexivity|].
    repeat split; vm_compute; reflexivity.
Qed.

End TelemetryFacts.

(** ** The scenario of the test of the repository

    A host that answers the registration, then one Invoke event and one
    Shutdown event: [Register] succeeds, and [Run] calls the invoke
    callback once, then the shutdown callback once, and returns nil after
    two polls. *)
Example Run_invoke_then_shutdown :
  let c := script.withCallbacks (script.fresh "ext")
             (Some (script.answering None)) (Some (script.answering None)) in
  let s := script.start [script.registered "0000-0000-0000-0000";
                         script.event "INVOKE"; script.event "SHUTDOWN"] in
  let r := Register c script.ctx s in
  let run := Run 5 (fst (fst r)) script.ctx (snd r) in
  snd (fst r) = None
  /\ fst run = Some None
  /\ List.filter isCallback (snd (snd run))
     = [CalledInvoke (InvokeEvent.mk "INVOKE" 0 "" "" Tracing.zero);
        CalledShutdown (ShutdownEvent.mk "SHUTDOWN" 0 "")]
  /\ roundTrips (snd (snd run)) = 3.
Proof. vm_compute. repeat split; reflexivity. Qed.

(** * Further properties of the client *)

(** ** Headers *)

Lemma Get_Set_same (h : http.Header) (key value : string) :
  http.Get (http.Set_ h key value) key = value.
Proof. unfold http.Get, http.Set_. rewrite lookup_insert_eq. reflexivity. Qed.

Lemma Get_Set_other (h : http.Header) (key key' value : string) :
  http.CanonicalHeaderKey key <> http.CanonicalHeaderKey key' ->
  http.Get (http.Set_ h key value) key' = http.Get h key'.
Proof.
  intros Hne. unfold http.Get, http.Set_. rewrite lookup_insert_ne by exact Hne.
  reflexivity.
Qed.

(** ** What one pass of the loop adds to the trace *)

Section PassFacts.

Context {W : Type}.

Implicit Types (c : Client W) (ctx : context.Context W) (s : state W).

Lemma requests_polled c tr : requests (polled c tr) = requests tr ++ [pollRequest c].
Proof. unfold polled. rewrite requests_app. reflexivity. Qed.

(** A dispatch sends nothing, calls at most one callback, and ends in one
    of three ways. *)
Lemma dispatch_effect c ctx ev s :
  requests (snd (snd (dispatch c ctx ev s))) = requests (snd s)
  /\ length (List.filter isCallback (snd (snd (dispatch c ctx ev s))))
     <= S (length (List.filter isCallback (snd s)))
  /\ (fst (dispatch c ctx ev s) = Polling
      \/ fst (dispatch c ctx ev s) = Returned None
      \/ exists e, fst (dispatch c ctx ev s) = Returned (Some (shutdownFailed e))).
Proof.
  destruct ev as [[iv|] sh].
  - rewrite dispatch_invoke. destruct (CallbackInvoke c) as [f|]; cbn [fst snd].
    + destruct (fst (f ctx iv (fst s)));
        rewrite !requests_app, !List.filter_app, !length_app; cbn;
        rewrite ?app_nil_r; repeat split; try lia; left; reflexivity.
    + rewrite requests_app, List.filter_app, length_app. cbn.
      rewrite app_nil_r. repeat split; try lia. left; reflexivity.
  - destruct sh as [sv|].
    + rewrite dispatch_shutdown. destruct (CallbackShutdown c) as [f|]; cbn [fst snd].
      * destruct (fst (f ctx sv (fst s))) as [e|];
          rewrite !requests_app, !List.filter_app, !length_app; cbn;
          rewrite ?app_nil_r; repeat split; try lia.
        -- right; right. exists e. reflexivity.
        -- right; left. reflexivity.
      * rewrite requests_app, List.filter_app, length_app. cbn.
        rewrite app_nil_r. repeat split; try lia. right; left; reflexivity.
    + unfold dispatch. cbn [Event.Invoke Event.Shutdown]. unfold_M.
      rewrite requests_app, List.filter_app, length_app. cbn.
      rewrite app_nil_r. repeat split; try lia. left; reflexivity.
Qed.

(** A pass sends the poll and nothing else. *)
Lemma iteration_effect c ctx s :
  requests (snd (snd (iteration c ctx s))) = requests (snd s) ++ [pollRequest c]
  /\ length (List.filter isCallback (snd (snd (iteration c ctx s))))
     <= S (length (List.filter isCallback (snd s)))
  /\ (fst (iteration c ctx s) = Polling
      \/ fst (iteration c ctx s) = Returned None
      \/ exists e, fst (iteration c ctx s) = Returned (Some (shutdownFailed e))).
Proof.
  rewrite iteration_eq.
  pose proof (fetchNextEvent_state c ctx s) as Hst.
  destruct (fetchNextEvent c ctx s) as [[ev|err] s1]; cbn [snd] in Hst; subst s1.
  - destruct (dispatch_effect c ctx ev
                (snd (client c (pollRequest c) (fst s)), polled c (snd s)))
      as (Hr & Hc & Hn).
    cbn [fst snd] in Hr, Hc. rewrite requests_polled in Hr. rewrite callbacks_polled in Hc.
    repeat split; assumption.
  - cbn [fst snd]. destruct (context.Done ctx _); cbn [fst snd].
    + rewrite requests_polled, callbacks_polled. repeat split; try lia.
      right; left; reflexivity.
    + rewrite requests_app, requests_polled, List.filter_app, callbacks_polled.
      cbn. rewrite !app_nil_r. repeat split; try lia. left; reflexivity.
Qed.

Lemma repeat_snoc {A : Type} (x : A) (k : nat) :
  List.repeat x k ++ [x] = List.repeat x (S k).
Proof.
  induction k as [|k IH]; [reflexivity|].
  cbn [List.repeat app]. rewrite IH. reflexivity.
Qed.

Lemma loop_effect fuel : forall c ctx s,
  exists k,
    k <= fuel
    /\ requests (snd (snd (loop fuel c ctx s)))
       = requests (snd s) ++ List.repeat (pollRequest c) k
    /\ (fst (loop fuel c ctx s) = None -> k = fuel)
    /\ length (List.filter isCallback (snd (snd (loop fuel c ctx s))))
       <= length (List.filter isCallback (snd s)) + k
    /\ (forall r, fst (loop fuel c ctx s) = Some r ->
                  r = None \/ exists e, r = Some (shutdownFailed e)).
Proof.
  induction fuel as [|fuel IH]; intros c ctx s.
  - exists 0. cbn. rewrite app_nil_r. repeat split; try lia. discriminate.
  - rewrite loop_S.
    destruct (iteration_effect c ctx s) as (Hr & Hc & Hn).
    destruct (iteration c ctx s) as [[|r] s1]; cbn [fst snd] in *.
    + destruct (IH c ctx s1) as (k & Hk & Hreq & Hnone & Hcb & Hres).
      exists (S k). rewrite Hreq, Hr, <- app_assoc.
      change ([pollRequest c] ++ List.repeat (pollRequest c) k)
        with (List.repeat (pollRequest c) (S k)).
      repeat split; try lia.
      * intros H. rewrite (Hnone H). reflexivity.
      * exact Hres.
    + exists 1. rewrite Hr. repeat split; try lia.
      * discriminate.
      * intros r' [= <-]. destruct Hn as [Hn|[Hn|[e Hn]]].
        -- discriminate Hn.
        -- left. congruence.
        -- right. exists e. congruence.
Qed.

End PassFacts.

(** ** Run: what it sends, how it ends *)

Section RunExtras.

Context {W : Type}.

Implicit Types (c : Client W) (ctx : context.Context W) (s : state W).

(** X1.  Whatever the host, the callbacks and the fuel, the requests [Run]
    sends are polls and nothing else: copies of one GET to the endpoint
    followed by /event/next, without a body, carrying the identifier of the
    client in the identifier header; there are as many as there were
    passes, and at most that many calls of callbacks. *)
Theorem Run_sends_only_polls c ctx fuel s :
  (exists k,
      k <= fuel
      /\ requests (snd (snd (Run fuel c ctx s)))
         = requests (snd s) ++ List.repeat (pollRequest c) k
      /\ (fst (Run fuel c ctx s) = None -> k = fuel)
      /\ length (List.filter isCallback (snd (snd (Run fuel c ctx s))))
         <= length (List.filter isCallback (snd s)) + k)
  /\ http.Method (pollRequest c) = http.MethodGet
  /\ http.URL (pollRequest c) = (lambdaExtensionAPIEndpoint c ++ "/event/next")%string
  /\ http.ReqBody (pollRequest c) = []
  /\ http.Get (http.ReqHeader (pollRequest c)) extensions.lambdaExtensionIdentifierHeader
     = extensionId c.
Proof.
  split; [|repeat split; apply Get_Set_same].
  unfold Run. destruct (String.eqb (extensionId c) ""); cbn [ret fst snd].
  - exists 0. cbn. rewrite app_nil_r. repeat split; try lia. discriminate.
  - destruct (loop_effect fuel c ctx s) as (k & Hk & Hreq & Hnone & Hcb & _).
    exists k. repeat split; assumption.
Qed.

(** X2.  When [Run] returns, its result is one of three: the error of a
    client that is not registered (and then only), nil, or the wrapped
    error of the shutdown callback.  No error of a poll or of the invoke
    callback ever comes out of [Run]. *)
Theorem Run_results c ctx fuel s r :
  fst (Run fuel c ctx s) = Some r ->
  (extensionId c = "" /\ r = Some notRegistered)
  \/ (extensionId c <> ""
      /\ (r = None \/ exists e, r = Some (shutdownFailed e))).
Proof.
  unfold Run. destruct (String.eqb_spec (extensionId c) "") as [Hid|Hid].
  - cbn. intros [= <-]. left. split; [exact Hid | reflexivity].
  - intros H. right. split; [exact Hid|].
    destruct (loop_effect fuel c ctx s) as (_ & _ & _ & _ & _ & Hres).
    apply Hres. exact H.
Qed.

(** X3.  As long as every poll fails and the context is not done, [Run]
    goes on polling, without pause or bound: after any number of passes it
    has not returned, has sent that many requests and has called no
    callback.  [I] is any property of the world that such polls keep. *)
Theorem Run_retries_without_bound c ctx (I : W -> Prop) :
  extensionId c <> "" ->
  (forall w, I w -> context.Done ctx w = false) ->
  (forall w tr, I w ->
                exists err s1,
                  fetchNextEvent c ctx (w, tr) = (inr err, s1) /\ I (fst s1)) ->
  forall fuel s,
    I (fst s) ->
    fst (Run fuel c ctx s) = None
    /\ I (fst (snd (Run fuel c ctx s)))
    /\ requests (snd (snd (Run fuel c ctx s)))
       = requests (snd s) ++ List.repeat (pollRequest c) fuel
    /\ List.filter isCallback (snd (snd (Run fuel c ctx s)))
       = List.filter isCallback (snd s).
Proof.
  intros Hid Hdone Hfail fuel.
  assert (Hgen : forall fuel s, I (fst s) ->
             fst (loop fuel c ctx s) = None
             /\ I (fst (snd (loop fuel c ctx s)))
             /\ requests (snd (snd (loop fuel c ctx s)))
                = requests (snd s) ++ List.repeat (pollRequest c) fuel
             /\ List.filter isCallback (snd (snd (loop fuel c ctx s)))
                = List.filter isCallback (snd s)).
  { clear fuel. induction fuel as [|fuel IH]; intros [w tr] HI; cbn [fst snd] in HI.
    - cbn. rewrite app_nil_r. repeat split. exact HI.
    - rewrite loop_S, iteration_eq.
      destruct (Hfail w tr HI) as (err & s1 & Hf & HI1).
      pose proof (fetchNextEvent_state c ctx (w, tr)) as Hst.
      rewrite Hf in Hst |- *. cbn [fst snd] in Hst.
      assert (Hr1 : requests (snd s1) = requests tr ++ [pollRequest c])
        by (rewrite Hst; apply requests_polled).
      assert (Hc1 : List.filter isCallback (snd s1) = List.filter isCallback tr)
        by (rewrite Hst; apply callbacks_polled).
      clear Hst. rewrite (Hdone _ HI1).
      destruct (IH (fst s1, snd s1 ++ [Log LevelError "failed to fetch next event"
                                         [("error", VError err)]]) HI1)
        as (Hn & HIn & Hreq & Hcb).
      cbn [fst snd] in *.
      rewrite Hreq, Hcb, requests_app, List.filter_app. cbn [requests List.filter isCallback].
      rewrite !app_nil_r, Hr1, Hc1, <- app_assoc.
      repeat split; assumption. }
  intros s HI. rewrite Run_registered by exact Hid. apply Hgen. exact HI.
Qed.

(** X4.  [Run] is polling in state [s] after [k] passes and the next poll
    brings a Shutdown event.  If no shutdown callback is set, or the one
    that is set returns nil, [Run] returns nil, with any fuel beyond [k]:
    it sends no further request and calls the callback once, or not at
    all. *)
Theorem Run_shutdown_success c ctx k s0 s s1 ev sv :
  Run k c ctx s0 = (None, s) ->
  fetchNextEvent c ctx s = (inl ev, s1) ->
  Event.Shutdown ev = Some sv ->
  (CallbackShutdown c = None
   \/ exists f, CallbackShutdown c = Some f /\ fst (f ctx sv (fst s1)) = None) ->
  forall n,
    fst (Run (k + S n) c ctx s0) = Some None
    /\ requests (snd (snd (Run (k + S n) c ctx s0))) = requests (snd s1)
    /\ List.filter isCallback (snd (snd (Run (k + S n) c ctx s0)))
       = List.filter isCallback (snd s1)
           ++ (if CallbackShutdown c is Some _ then [CalledShutdown sv] else []).
Proof.
  intros Hk Hf Hsv Hcb n.
  assert (Hev : ev = Event.mk None (Some sv)).
  { destruct (fetchNextEvent_one_variant _ _ _ _ _ Hf) as [[_ Hs]|[Hi _]].
    - congruence.
    - destruct ev as [i sh]. cbn in *. congruence. }
  subst ev.
  rewrite (Run_continues k (S n) c ctx s0 s Hk).
  rewrite loop_S, iteration_eq, Hf, dispatch_shutdown.
  destruct Hcb as [Hnone|(f & Hsome & Hres)].
  - rewrite Hnone. cbn [fst snd].
    rewrite requests_app, List.filter_app. cbn. rewrite !app_nil_r. repeat split.
  - rewrite Hsome. rewrite Hres. cbn [fst snd option_map].
    rewrite !requests_app, !List.filter_app. cbn. rewrite !app_nil_r. repeat split.
Qed.

End RunExtras.

Lemma Run_results_witness :
  let s := script.start [script.event "INVOKE"; script.event "SHUTDOWN"] in
  fst (Run 4 scenario.failing script.ctx s) = Some (Some (shutdownFailed scenario.boom))
  /\ fst (Run 4 scenario.silent script.ctx s) = Some None
  /\ fst (Run 4 (script.fresh "ext") script.ctx s) = Some (Some notRegistered).
Proof.
  intros s.
  assert (H1 : fst (Run 4 scenario.failing script.ctx s)
               = Some (Some (shutdownFailed scenario.boom))) by (vm_compute; reflexivity).
  assert (H2 : fst (Run 4 scenario.silent script.ctx s) = Some None)
    by (vm_compute; reflexivity).
  assert (H3 : fst (Run 4 (script.fresh "ext") script.ctx s) = Some (Some notRegistered))
    by (vm_compute; reflexivity).
  pose proof (Run_results scenario.failing script.ctx 4 s _ H1) as R1.
  pose proof (Run_results scenario.silent script.ctx 4 s _ H2) as R2.
  pose proof (Run_results (script.fresh "ext") script.ctx 4 s _ H3) as R3.
  split; [exact H1|]. split; [exact H2 | exact H3].
Defined.

Lemma Run_retries_without_bound_witness :
  let c := scenario.silent in
  let s := script.start [] in
  fst (Run 25 c script.ctx s) = None
  /\ requests (snd (snd (Run 25 c script.ctx s))) = List.repeat (pollRequest c) 25
  /\ List.filter isCallback (snd (snd (Run 25 c script.ctx s))) = [].
Proof.
  intros c s.
  destruct (Run_retries_without_bound c script.ctx
              (fun w => script.replies w = [] /\ script.cancelled w = false))
    with (fuel := 25) (s := s) as (Hn & _ & Hreq & Hcb).
  - vm_compute. discriminate.
  - intros w [_ Hc]. exact Hc.
  - intros [rs cc] tr [Hr Hc]. cbn in Hr, Hc. subst rs cc.
    rewrite fetchNextEvent_eq.
    change (client c (pollRequest c) (fst (script.mk [] false, tr)))
      with (@inr http.Response error (errorString "connection refused"), script.mk [] false).
    eexists. eexists. split; [reflexivity|]. split; reflexivity.
  - split; reflexivity.
  - split; [exact Hn|]. split; [exact Hreq | exact Hcb].
Defined.

Lemma Run_shutdown_success_witness :
  let c := scenario.silent in
  let s0 := script.start [script.event "INVOKE"; script.event "SHUTDOWN"; script.event "INVOKE"] in
  let s := snd (Run 1 c script.ctx s0) in
  let s1 := snd (fetchNextEvent c script.ctx s) in
  let sv := ShutdownEvent.mk "SHUTDOWN" 0 "" in
  Run 1 c script.ctx s0 = (None, s)
  /\ fetchNextEvent c script.ctx s = (inl (Event.mk None (Some sv)), s1)
  /\ fst (Run 6 c script.ctx s0) = Some None
  /\ requests (snd (snd (Run 6 c script.ctx s0))) = [pollRequest c; pollRequest c].
Proof.
  intros c s0 s s1 sv.
  assert (H1 : Run 1 c script.ctx s0 = (None, s)) by (vm_compute; reflexivity).
  assert (H2 : fetchNextEvent c script.ctx s = (inl (Event.mk None (Some sv)), s1))
    by (vm_compute; reflexivity).
  destruct (Run_shutdown_success c script.ctx 1 s0 s s1 _ sv H1 H2 eq_refl
              (or_introl eq_refl) 4) as (Hres & Hreq & _).
  change (1 + 5) with 6 in Hres, Hreq.
  split; [exact H1|]. split; [exact H2|]. split; [exact Hres|].
  rewrite Hreq. vm_compute. reflexivity.
Defined.

(** ** Run against a host that sends Invoke events and then Shutdown *)

Lemma fetch_scripted_invoke (c : Client script.world) (w : script.world)
  (tr : list action) (rs : list (http.Response + error)) :
  client c = script.transport ->
  script.replies w = script.event "INVOKE" :: rs ->
  fetchNextEvent c script.ctx (w, tr)
  = (inl (Event.mk (Some bareInvoke) None),
     (script.mk rs (script.cancelled w), polled c tr)).
Proof.
  intros Hc Hr. rewrite fetchNextEvent_eq. cbn [fst snd]. rewrite Hc.
  unfold script.transport. rewrite Hr.
  change (script.event "INVOKE")
    with (@inl http.Response error
            (http.mkResponse "200 OK" 200 script.jsonHeader
               (script.object [("eventType", "INVOKE")]))).
  cbn [http.StatusCode http.Body].
  change (negb (200 =? http.StatusOK)%Z) with false. cbn iota.
  replace (Event.Decode (script.object [("eventType", "INVOKE")]) Event.zero)
    with (Event.mk (Some bareInvoke) None, @None error) by (vm_compute; reflexivity).
  reflexivity.
Qed.

Lemma fetch_scripted_shutdown (c : Client script.world) (w : script.world)
  (tr : list action) (rs : list (http.Response + error)) :
  client c = script.transport ->
  script.replies w = script.event "SHUTDOWN" :: rs ->
  fetchNextEvent c script.ctx (w, tr)
  = (inl (Event.mk None (Some bareShutdown)),
     (script.mk rs (script.cancelled w), polled c tr)).
Proof.
  intros Hc Hr. rewrite fetchNextEvent_eq. cbn [fst snd]. rewrite Hc.
  unfold script.transport. rewrite Hr.
  change (script.event "SHUTDOWN")
    with (@inl http.Response error
            (http.mkResponse "200 OK" 200 script.jsonHeader
               (script.object [("eventType", "SHUTDOWN")]))).
  cbn [http.StatusCode http.Body].
  change (negb (200 =? http.StatusOK)%Z) with false. cbn iota.
  replace (Event.Decode (script.object [("eventType", "SHUTDOWN")]) Event.zero)
    with (Event.mk None (Some bareShutdown), @None error) by (vm_compute; reflexivity).
  reflexivity.
Qed.

(** X5.  A registered client with both callbacks runs against a host that
    answers the polls with [n] Invoke events and then a Shutdown event.
    Whatever the invoke callback returns (its errors are not fatal) and
    whatever it does to the context, provided it leaves the answers of the
    host alone and the shutdown callback returns nil: [Run] calls the
    invoke callback [n] times, then the shutdown callback once, sends
    [n + 1] polls, and returns nil; what the host would have sent next is
    never asked for. *)
Theorem Run_invokes_then_shutdown (name id : string)
  (f : callback script.world InvokeEvent.t) (g : callback script.world ShutdownEvent.t)
  (n : nat) (rest : list (http.Response + error)) (w0 : script.world)
  (tr0 : list action) :
  let c := script.withCallbacks (withExtensionId (script.fresh name) id) (Some f) (Some g) in
  id <> "" ->
  (forall ctx iv w, script.replies (snd (f ctx iv w)) = script.replies w) ->
  (forall ctx sv w, fst (g ctx sv w) = None) ->
  script.replies w0
  = List.repeat (script.event "INVOKE") n ++ script.event "SHUTDOWN" :: rest ->
  forall m,
    fst (Run (n + S m) c script.ctx (w0, tr0)) = Some None
    /\ List.filter isCallback (snd (snd (Run (n + S m) c script.ctx (w0, tr0))))
       = List.filter isCallback tr0
           ++ List.repeat (CalledInvoke bareInvoke) n ++ [CalledShutdown bareShutdown]
    /\ requests (snd (snd (Run (n + S m) c script.ctx (w0, tr0))))
       = requests tr0 ++ List.repeat (pollRequest c) (S n).
Proof.
  intros c Hid Hf Hg Hrep m.
  assert (Hc : client c = script.transport) by reflexivity.
  assert (Hci : CallbackInvoke c = Some f) by reflexivity.
  assert (Hcs : CallbackShutdown c = Some g) by reflexivity.
  rewrite Run_registered by exact Hid.
  clearbody c. revert w0 tr0 Hrep.
  induction n as [|n IH]; intros w0 tr0 Hrep; cbn [List.repeat app Nat.add] in *.
  - rewrite loop_S, iteration_eq, (fetch_scripted_shutdown c w0 tr0 rest Hc Hrep).
    rewrite dispatch_shutdown, Hcs, Hg. cbn [fst snd option_map].
    rewrite !requests_app, !List.filter_app, requests_polled, callbacks_polled.
    cbn. rewrite !app_nil_r. repeat split.
  - rewrite loop_S, iteration_eq, (fetch_scripted_invoke c w0 tr0 _ Hc Hrep).
    rewrite dispatch_invoke, Hci. cbn [fst snd].
    match goal with
    | |- context [loop _ c script.ctx (?w, ?tr)] =>
        destruct (IH w tr) as (Hres & Hcb & Hreq)
    end.
    { rewrite Hf. reflexivity. }
    rewrite Hres, Hcb, Hreq. split; [reflexivity|].
    rewrite !requests_app, !List.filter_app, requests_polled, callbacks_polled.
    split.
    + destruct (fst (f script.ctx bareInvoke _)); cbn; rewrite ?app_nil_r;
        rewrite <- !app_assoc; reflexivity.
    + destruct (fst (f script.ctx bareInvoke _)); cbn; rewrite ?app_nil_r;
        rewrite <- !app_assoc; reflexivity.
Qed.

Lemma Run_invokes_then_shutdown_witness :
  let c := script.withCallbacks (withExtensionId (script.fresh "ext") "0000-0000-0000-0000")
             (Some (fun _ _ w => (Some scenario.boom, script.cancel w)))
             (Some (script.answering None)) in
  let s := script.start (List.repeat (script.event "INVOKE") 4
                           ++ [script.event "SHUTDOWN"; script.event "INVOKE"]) in
  fst (Run 9 c script.ctx s) = Some None
  /\ List.filter isCallback (snd (snd (Run 9 c script.ctx s)))
     = List.repeat (CalledInvoke bareInvoke) 4 ++ [CalledShutdown bareShutdown]
  /\ requests (snd (snd (Run 9 c script.ctx s))) = List.repeat (pollRequest c) 5.
Proof.
  intros c s.
  exact (Run_invokes_then_shutdown "ext" "0000-0000-0000-0000"
           (fun _ _ w => (Some scenario.boom, script.cancel w)) (script.answering None)
           4 [script.event "INVOKE"] (script.mk _ false) []
           ltac:(discriminate) ltac:(reflexivity) ltac:(reflexivity) eq_refl 4).
Defined.

(** ** The decoder: the variant and its event type *)

Lemma discriminator_object (data : bytes) (d : EventType) :
  discriminator data = Some d -> d <> "" ->
  exists ms, scanner.whole data = Some (JObject ms).
Proof.
  unfold discriminator, decode.Unmarshal.
  destruct (scanner.whole data) as [v|]; [|discriminate].
  destruct v; cbn; try discriminate.
  - intros [= <-] H. contradiction.
  - intros _ _. eexists. reflexivity.
Qed.

(** The two passes keep the same event type, member after member, whatever
    else goes wrong in the second. *)
Lemma member_eventType_invoke (stc : Event.common * option error)
  (sti : InvokeEvent.t * option error) (kv : string * json) :
  Event.EventType (fst stc) = InvokeEvent.EventType (fst sti) ->
  Event.EventType (fst (decode.member Event.commonFields Event.commonSetField stc kv))
  = InvokeEvent.EventType
      (fst (decode.member InvokeEvent.fields InvokeEvent.setField sti kv)).
Proof.
  intros Heq. unfold decode.member.
  destruct (selects Event.commonFields "eventType" kv) eqn:Hsel.
  - rewrite (selects_eventType_lookup _ _ Hsel).
    rewrite selects_eventType_invoke in Hsel.
    rewrite (selects_eventType_lookup _ _ Hsel).
    unfold Event.commonSetField. cbn. rewrite Heq.
    destruct (snd kv); reflexivity.
  - rewrite (selects_common_false _ Hsel).
    rewrite selects_eventType_invoke in Hsel. unfold selects in Hsel.
    destruct (decode.lookupField InvokeEvent.fields (fst kv)) as [g|] eqn:Hl;
      [|exact Heq].
    field_cases Hl; try discriminate Hsel; cbn.
    + destruct (decode.intoInt _ _). exact Heq.
    + destruct (decode.intoString _ _ _). exact Heq.
    + destruct (decode.intoString _ _ _). exact Heq.
    + destruct (Tracing.into _ _). exact Heq.
Qed.

Lemma member_eventType_shutdown (stc : Event.common * option error)
  (sts : ShutdownEvent.t * option error) (kv : string * json) :
  Event.EventType (fst stc) = ShutdownEvent.EventType (fst sts) ->
  Event.EventType (fst (decode.member Event.commonFields Event.commonSetField stc kv))
  = ShutdownEvent.EventType
      (fst (decode.member ShutdownEvent.fields ShutdownEvent.setField sts kv)).
Proof.
  intros Heq. unfold decode.member.
  destruct (selects Event.commonFields "eventType" kv) eqn:Hsel.
  - rewrite (selects_eventType_lookup _ _ Hsel).
    rewrite selects_eventType_shutdown in Hsel.
    rewrite (selects_eventType_lookup _ _ Hsel).
    unfold Event.commonSetField. cbn. rewrite Heq.
    destruct (snd kv); reflexivity.
  - rewrite (selects_common_false _ Hsel).
    rewrite selects_eventType_shutdown in Hsel. unfold selects in Hsel.
    destruct (decode.lookupField ShutdownEvent.fields (fst kv)) as [g|] eqn:Hl;
      [|exact Heq].
    field_cases Hl; try discriminate Hsel; cbn.
    + destruct (decode.intoInt _ _). exact Heq.
    + destruct (decode.intoString _ _ _). exact Heq.
Qed.

Lemma fold_eventType_invoke (ms : list (string * json)) :
  forall stc sti,
    Event.EventType (fst stc) = InvokeEvent.EventType (fst sti) ->
    Event.EventType
      (fst (fold_left (decode.member Event.commonFields Event.commonSetField) ms stc))
    = InvokeEvent.EventType
        (fst (fold_left (decode.member InvokeEvent.fields InvokeEvent.setField) ms sti)).
Proof.
  induction ms as [|kv ms IH]; intros stc sti Heq; [exact Heq|].
  cbn [fold_left]. apply IH. apply member_eventType_invoke. exact Heq.
Qed.

Lemma fold_eventType_shutdown (ms : list (string * json)) :
  forall stc sts,
    Event.EventType (fst stc) = ShutdownEvent.EventType (fst sts) ->
    Event.EventType
      (fst (fold_left (decode.member Event.commonFields Event.commonSetField) ms stc))
    = ShutdownEvent.EventType
        (fst (fold_left (decode.member ShutdownEvent.fields ShutdownEvent.setField) ms sts)).
Proof.
  induction ms as [|kv ms IH]; intros stc sts Heq; [exact Heq|].
  cbn [fold_left]. apply IH. apply member_eventType_shutdown. exact Heq.
Qed.

(** Whatever the decoder puts into a fresh event carries the event type of
    its variant, also when the decoder fails half way. *)
Lemma UnmarshalJSON_zero_eventType (data : bytes) :
  match Event.Invoke (fst (Event.UnmarshalJSON Event.zero data)) with
  | Some iv => InvokeEvent.EventType iv = extensions.Invoke
  | None => True
  end
  /\ match Event.Shutdown (fst (Event.UnmarshalJSON Event.zero data)) with
     | Some sv => ShutdownEvent.EventType sv = extensions.Shutdown
     | None => True
     end.
Proof.
  unfold Event.UnmarshalJSON.
  destruct (decode.Unmarshal Event.intoCommon data (Event.mkCommon ""))
    as [[d] [err|]] eqn:Hc; [cbn; tauto|].
  assert (Hd : discriminator data = Some d) by (unfold discriminator; rewrite Hc; reflexivity).
  cbn [Event.EventType].
  destruct (String.eqb_spec d extensions.Invoke) as [->|Hni].
  - destruct (discriminator_object data _ Hd ltac:(discriminate)) as [ms Hw].
    unfold decode.Unmarshal in Hc |- *. rewrite Hw in Hc |- *.
    unfold Event.intoCommon, InvokeEvent.into, decode.intoStruct in Hc |- *.
    pose proof (fold_eventType_invoke ms (Event.mkCommon "", None)
                  (InvokeEvent.zero, None) eq_refl) as Heq.
    rewrite Hc in Heq. cbn [fst Event.EventType] in Heq.
    destruct (fold_left _ ms (InvokeEvent.zero, None)) as [iv e].
    cbn in Heq |- *. split; [congruence | exact I].
  - destruct (String.eqb_spec d extensions.Shutdown) as [->|Hns]; [|cbn; tauto].
    destruct (discriminator_object data _ Hd ltac:(discriminate)) as [ms Hw].
    unfold decode.Unmarshal in Hc |- *. rewrite Hw in Hc |- *.
    unfold Event.intoCommon, ShutdownEvent.into, decode.intoStruct in Hc |- *.
    pose proof (fold_eventType_shutdown ms (Event.mkCommon "", None)
                  (ShutdownEvent.zero, None) eq_refl) as Heq.
    rewrite Hc in Heq. cbn [fst Event.EventType] in Heq.
    destruct (fold_left _ ms (ShutdownEvent.zero, None)) as [sv e].
    cbn in Heq |- *. split; [exact I | congruence].
Qed.

Section TypedEvents.

Context {W : Type}.

Implicit Types (c : Client W) (ctx : context.Context W) (s : state W).

Lemma fetchNextEvent_eventType c ctx s s1 ev :
  fetchNextEvent c ctx s = (inl ev, s1) ->
  match Event.Invoke ev with
  | Some iv => InvokeEvent.EventType iv = extensions.Invoke
  | None => True
  end
  /\ match Event.Shutdown ev with
     | Some sv => ShutdownEvent.EventType sv = extensions.Shutdown
     | None => True
     end.
Proof.
  rewrite fetchNextEvent_eq.
  destruct (client c _ (fst s)) as [[resp|err] w]; [|discriminate].
  destruct (negb _); [discriminate|].
  unfold Event.Decode.
  destruct (scanner.next (http.Body resp)) as [[[raw v] rest]|]; [|discriminate].
  pose proof (UnmarshalJSON_zero_eventType raw) as H.
  destruct (Event.UnmarshalJSON Event.zero raw) as [ev' [e|]]; [discriminate|].
  intros [= <- _]. exact H.
Qed.

Lemma iteration_wellTyped c ctx s :
  Forall wellTyped (snd s) -> Forall wellTyped (snd (snd (iteration c ctx s))).
Proof.
  intros Hs. rewrite iteration_eq.
  pose proof (fetchNextEvent_state c ctx s) as Hst.
  destruct (fetchNextEvent c ctx s) as [[ev|err] s1] eqn:Hf; cbn [snd] in Hst.
  - assert (Hp : Forall wellTyped (snd s1)).
    { rewrite Hst. cbn [snd]. unfold polled. apply Forall_app. split; [exact Hs|].
      repeat constructor. }
    destruct (fetchNextEvent_eventType c ctx s s1 ev Hf) as [Hi Hsd].
    destruct ev as [[iv|] sh]; cbn [Event.Invoke Event.Shutdown] in Hi, Hsd.
    + rewrite dispatch_invoke. destruct (CallbackInvoke c) as [f|]; cbn [fst snd].
      * destruct (fst (f ctx iv (fst s1))); rewrite !Forall_app;
          repeat split; try exact Hp; repeat constructor; exact Hi.
      * rewrite Forall_app. split; [exact Hp | repeat constructor].
    + destruct sh as [sv|].
      * rewrite dispatch_shutdown. destruct (CallbackShutdown c) as [f|]; cbn [fst snd].
        -- destruct (fst (f ctx sv (fst s1))); rewrite !Forall_app;
             repeat split; try exact Hp; repeat constructor; exact Hsd.
        -- rewrite Forall_app. split; [exact Hp | repeat constructor].
      * unfold dispatch. cbn [Event.Invoke Event.Shutdown]. unfold_M.
        rewrite Forall_app. split; [exact Hp | repeat constructor].
  - assert (Hp : Forall wellTyped (snd s1)).
    { rewrite Hst. cbn [snd]. unfold polled. apply Forall_app. split; [exact Hs|].
      repeat constructor. }
    cbn [fst snd]. destruct (context.Done ctx _); cbn [fst snd]; [exact Hp|].
    rewrite Forall_app. split; [exact Hp | repeat constructor].
Qed.

Lemma loop_wellTyped fuel : forall c ctx s,
  Forall wellTyped (snd s) -> Forall wellTyped (snd (snd (loop fuel c ctx s))).
Proof.
  induction fuel as [|fuel IH]; intros c ctx s Hs; [exact Hs|].
  rewrite loop_S. pose proof (iteration_wellTyped c ctx s Hs) as Hit.
  destruct (iteration c ctx s) as [[|r] s1]; cbn [snd] in Hit |- *.
  - apply IH. exact Hit.
  - exact Hit.
Qed.

End TypedEvents.

(** X6.  The event type of a decoded variant is that of its kind: what the
    decoder puts into the Invoke field of a fresh event has the event type
    INVOKE, what it puts into the Shutdown field has SHUTDOWN, for every
    payload, well-formed or not.  Hence every event [Run] hands to the
    invoke callback has the event type INVOKE and every event it hands to
    the shutdown callback has SHUTDOWN (what the callbacks of the test of
    the repository check). *)
Theorem callbacks_get_events_of_their_kind :
  (forall (data : bytes) (iv : InvokeEvent.t),
      Event.Invoke (fst (Event.UnmarshalJSON Event.zero data)) = Some iv ->
      InvokeEvent.EventType iv = extensions.Invoke)
  /\ (forall (data : bytes) (sv : ShutdownEvent.t),
        Event.Shutdown (fst (Event.UnmarshalJSON Event.zero data)) = Some sv ->
        ShutdownEvent.EventType sv = extensions.Shutdown)
  /\ (forall (W : Type) (c : Client W) (ctx : context.Context W) (fuel : nat)
             (s : state W),
        Forall wellTyped (snd s) ->
        Forall wellTyped (snd (snd (Run fuel c ctx s)))).
Proof.
  split; [|split].
  - intros data iv H. pose proof (proj1 (UnmarshalJSON_zero_eventType data)) as Hi.
    rewrite H in Hi. exact Hi.
  - intros data sv H. pose proof (proj2 (UnmarshalJSON_zero_eventType data)) as Hs.
    rewrite H in Hs. exact Hs.
  - intros W c ctx fuel s Hs. unfold Run.
    destruct (String.eqb (extensionId c) ""); [exact Hs|].
    apply loop_wellTyped. exact Hs.
Qed.

Lemma callbacks_get_events_of_their_kind_witness :
  let data := script.object [("EventType", "INVOKE"); ("requestId", "r-1")] in
  let s := script.start [script.event "INVOKE"; script.event "SHUTDOWN"] in
  Event.Invoke (fst (Event.UnmarshalJSON Event.zero data))
  = Some (InvokeEvent.mk "INVOKE" 0 "r-1" "" Tracing.zero)
  /\ Forall wellTyped (snd (snd (Run 3 scenario.failing script.ctx s))).
Proof.
  intros data s.
  destruct callbacks_get_events_of_their_kind as (Hi & _ & Hrun).
  assert (H : Event.Invoke (fst (Event.UnmarshalJSON Event.zero data))
              = Some (InvokeEvent.mk "INVOKE" 0 "r-1" "" Tracing.zero))
    by (vm_compute; reflexivity).
  pose proof (Hi data _ H) as Hty.
  split; [exact H|].
  apply (Hrun script.world scenario.failing script.ctx 3 s). constructor.
Defined.

(** X7.  The decoder writes the variant its first pass names and no other
    field: with the discriminator INVOKE the Invoke field is set (also
    when the second pass then fails) and the Shutdown field keeps what the
    receiver held; with SHUTDOWN the other way round; with anything else
    the receiver is returned as it was.  It succeeds only on these two
    discriminators.  So an event that is decoded into twice can hold both
    variants: only a fresh one is sure to hold one. *)
Theorem UnmarshalJSON_writes_named_variant (r : Event.t) (data : bytes) :
  (discriminator data = Some extensions.Invoke ->
   is_Some (Event.Invoke (fst (Event.UnmarshalJSON r data)))
   /\ Event.Shutdown (fst (Event.UnmarshalJSON r data)) = Event.Shutdown r)
  /\ (discriminator data = Some extensions.Shutdown ->
      is_Some (Event.Shutdown (fst (Event.UnmarshalJSON r data)))
      /\ Event.Invoke (fst (Event.UnmarshalJSON r data)) = Event.Invoke r)
  /\ (discriminator data <> Some extensions.Invoke ->
      discriminator data <> Some extensions.Shutdown ->
      fst (Event.UnmarshalJSON r data) = r)
  /\ (snd (Event.UnmarshalJSON r data) = None ->
      discriminator data = Some extensions.Invoke
      \/ discriminator data = Some extensions.Shutdown).
Proof.
  unfold discriminator, Event.UnmarshalJSON.
  destruct (decode.Unmarshal Event.intoCommon data _) as [[d] [err|]];
    cbn [Event.EventType fst snd].
  - split; [intros H; discriminate H|].
    split; [intros H; discriminate H|].
    split; [reflexivity | intros H; discriminate H].
  - destruct (String.eqb_spec d extensions.Invoke) as [->|Hi].
    + destruct (decode.Unmarshal InvokeEvent.into data _) as [iv e]. cbn [fst snd].
      split; [intros _; split; [eexists; reflexivity | reflexivity]|].
      split; [intros H; discriminate H|].
      split; [intros H; contradiction | intros _; left; reflexivity].
    + destruct (String.eqb_spec d extensions.Shutdown) as [->|Hs].
      * destruct (decode.Unmarshal ShutdownEvent.into data _) as [sv e]. cbn [fst snd].
        split; [intros H; discriminate H|].
        split; [intros _; split; [eexists; reflexivity | reflexivity]|].
        split; [intros _ H; contradiction | intros _; right; reflexivity].
      * cbn [fst snd].
        split; [intros [= H]; contradiction|].
        split; [intros [= H]; contradiction|].
        split; [reflexivity | intros H; discriminate H].
Qed.

Lemma UnmarshalJSON_writes_named_variant_witness :
  let r := Event.mk None (Some bareShutdown) in
  let data := script.object [("eventType", "INVOKE")] in
  discriminator data = Some extensions.Invoke
  /\ Event.UnmarshalJSON r data = (Event.mk (Some bareInvoke) (Some bareShutdown), None)
  /\ fst (Event.UnmarshalJSON r (script.object [("eventType", "FUTURE")])) = r.
Proof.
  intros r data.
  assert (Hd : discriminator data = Some extensions.Invoke) by (vm_compute; reflexivity).
  destruct (UnmarshalJSON_writes_named_variant r data) as (Hinv & _ & _ & _).
  destruct (Hinv Hd) as [_ Hkeep].
  destruct (UnmarshalJSON_writes_named_variant r (script.object [("eventType", "FUTURE")]))
    as (_ & _ & Hother & _).
  split; [exact Hd|]. split; [vm_compute; reflexivity|].
  apply Hother; vm_compute; discriminate.
Defined.

(** ** The decoder: members it does not know *)

Lemma fold_members_without {T : Type} (fields : list string)
  (setField : string -> json -> T -> T * option error)
  (ms1 ms2 : list (string * json)) (kv : string * json) (st : T * option error) :
  decode.lookupField fields (fst kv) = None ->
  fold_left (decode.member fields setField) (ms1 ++ kv :: ms2) st
  = fold_left (decode.member fields setField) (ms1 ++ ms2) st.
Proof.
  intros Hk. rewrite !fold_left_app. cbn [fold_left].
  unfold decode.member at 2. rewrite Hk. reflexivity.
Qed.

Lemma unknownKey_common (k : string) :
  unknownKey k -> decode.lookupField Event.commonFields k = None.
Proof.
  intros [Hi _].
  apply (selects_common_false (k, JNull)).
  rewrite selects_eventType_invoke. unfold selects. cbn [fst]. rewrite Hi. reflexivity.
Qed.

(** X8.  Members the decoder has no field for are skipped: two payloads
    that are objects and differ by one member whose key selects no field
    of either event decode alike, result and error, into any receiver.  A
    payload may carry fields of a later version of the protocol. *)
Theorem UnmarshalJSON_skips_unknown_members (r : Event.t) (data data' : bytes)
  (ms1 ms2 : list (string * json)) (kv : string * json) :
  scanner.whole data = Some (JObject (ms1 ++ kv :: ms2)) ->
  scanner.whole data' = Some (JObject (ms1 ++ ms2)) ->
  unknownKey (fst kv) ->
  Event.UnmarshalJSON r data = Event.UnmarshalJSON r data'.
Proof.
  intros Hw Hw' Hk. pose proof (unknownKey_common _ Hk) as Hc. destruct Hk as [Hi Hs].
  unfold Event.UnmarshalJSON, decode.Unmarshal. rewrite Hw, Hw'.
  unfold Event.intoCommon, InvokeEvent.into, ShutdownEvent.into, decode.intoStruct.
  rewrite (fold_members_without Event.commonFields _ ms1 ms2 kv _ Hc).
  rewrite (fold_members_without InvokeEvent.fields _ ms1 ms2 kv _ Hi).
  rewrite (fold_members_without ShutdownEvent.fields _ ms1 ms2 kv _ Hs).
  reflexivity.
Qed.

Lemma UnmarshalJSON_skips_unknown_members_witness :
  let data := script.object [("eventType", "SHUTDOWN"); ("futureField", "x");
                             ("shutdownReason", "spindown")] in
  let data' := script.object [("eventType", "SHUTDOWN"); ("shutdownReason", "spindown")] in
  unknownKey "futureField"
  /\ Event.UnmarshalJSON Event.zero data = Event.UnmarshalJSON Event.zero data'
  /\ Event.UnmarshalJSON Event.zero data'
     = (Event.mk None (Some (ShutdownEvent.mk "SHUTDOWN" 0 "spindown")), None).
Proof.
  intros data data'.
  assert (Hk : unknownKey "futureField") by (split; vm_compute; reflexivity).
  split; [exact Hk|]. split.
  - apply (UnmarshalJSON_skips_unknown_members Event.zero data data'
             [("eventType", JString "SHUTDOWN")]
             [("shutdownReason", JString "spindown")]
             ("futureField", JString "x")).
    + vm_compute. reflexivity.
    + vm_compute. reflexivity.
    + exact Hk.
  - vm_compute. reflexivity.
Defined.

(** ** Register, SubscribeTelemetry and NewClient *)

Section HandshakeExtras.

Context {W : Type}.

Implicit Types (c : Client W) (ctx : context.Context W) (s : state W).

Lemma requests_registering c tr :
  requests (registering c tr) = requests tr ++ [registerRequest c].
Proof. unfold registering. rewrite requests_app. reflexivity. Qed.

Lemma requests_subscribing c sub tr :
  requests (subscribing c sub tr) = requests tr ++ [telemetryRequest c sub].
Proof. unfold subscribing. rewrite requests_app. reflexivity. Qed.

(** X9.  [Register] sends one request and never a second, whatever the
    answer: a POST to the endpoint followed by /register, with the name of
    the client in the name header.  Its body is an object whose member
    [events] is an array (never null) holding INVOKE exactly when the
    invoke callback is set and SHUTDOWN exactly when the shutdown callback
    is set, in this order: a client without callbacks asks for no events.
    The world is left as the transport left it. *)
Theorem Register_request c ctx s :
  requests (snd (snd (Register c ctx s))) = requests (snd s) ++ [registerRequest c]
  /\ fst (snd (Register c ctx s)) = snd (client c (registerRequest c) (fst s))
  /\ http.Method (registerRequest c) = http.MethodPost
  /\ http.URL (registerRequest c) = (lambdaExtensionAPIEndpoint c ++ "/register")%string
  /\ http.Get (http.ReqHeader (registerRequest c)) extensions.lambdaExtensionNameHeader
     = Name c
  /\ scanner.whole (http.ReqBody (registerRequest c))
     = Some (JObject
               [("events",
                 JArray ((if CallbackInvoke c is Some _ then [JString "INVOKE"] else [])
                           ++ (if CallbackShutdown c is Some _
                               then [JString "SHUTDOWN"] else [])))]).
Proof.
  split; [|split].
  - rewrite Register_eq.
    destruct (client c _ (fst s)) as [[resp|err] w]; cbn [fst snd].
    + destruct (decode.Decode decode.intoMap (http.Body resp) None) as [result [e|]];
        cbn [fst snd]; [apply requests_registering|].
      cbn zeta. destruct (String.eqb _ ""); cbn [fst snd];
        rewrite requests_app, requests_registering; cbn; rewrite app_nil_r; reflexivity.
    + apply requests_registering.
  - rewrite Register_eq.
    destruct (client c _ (fst s)) as [[resp|err] w]; cbn [fst snd]; [|reflexivity].
    destruct (decode.Decode decode.intoMap (http.Body resp) None) as [result [e|]];
      cbn [fst snd]; [reflexivity|].
    cbn zeta. destruct (String.eqb _ ""); reflexivity.
  - split; [reflexivity|]. split; [reflexivity|].
    split; [apply Get_Set_same|].
    unfold registerRequest, requestedEvents. cbn [http.ReqBody http.SetHeader http.NewRequest].
    destruct (CallbackInvoke c), (CallbackShutdown c); vm_compute; reflexivity.
Qed.

(** X10.  [SubscribeTelemetry] sends one request, registered or not: a
    PUT to the telemetry endpoint whose body is the encoding of the
    subscription (of the default when it is nil), with the name of the
    client in the name header and its identifier, empty if it has none, in
    the identifier header.  It returns nil exactly when the transport
    answers with the status 200. *)
Theorem SubscribeTelemetry_outcome c ctx (subscription : option TelemetrySubscription.t) s :
  let sub := default NewDefaultTelemetrySubscription subscription in
  let req := telemetryRequest c sub in
  requests (snd (snd (SubscribeTelemetry c ctx subscription s))) = requests (snd s) ++ [req]
  /\ fst (snd (SubscribeTelemetry c ctx subscription s)) = snd (client c req (fst s))
  /\ http.Method req = http.MethodPut
  /\ http.URL req = lambdaTelemetryAPIEndpoint c
  /\ http.ReqBody req = TelemetrySubscription.Marshal sub
  /\ http.Get (http.ReqHeader req) extensions.lambdaExtensionNameHeader = Name c
  /\ http.Get (http.ReqHeader req) extensions.lambdaExtensionIdentifierHeader = extensionId c
  /\ (fst (SubscribeTelemetry c ctx subscription s) = None
      <-> exists resp w, client c req (fst s) = (inl resp, w)
                         /\ http.StatusCode resp = http.StatusOK).
Proof.
  cbv zeta. rewrite SubscribeTelemetry_eq. cbv zeta.
  set (sub := default NewDefaultTelemetrySubscription subscription).
  destruct (client c (telemetryRequest c sub) (fst s)) as [[resp|err] w]; cbn [fst snd].
  - destruct (Z.eqb_spec (http.StatusCode resp) http.StatusOK) as [Hst|Hst];
      cbn [negb fst snd].
    + rewrite requests_app, requests_subscribing. cbn [requests]. rewrite app_nil_r.
      split; [reflexivity|]. split; [reflexivity|].
      split; [reflexivity|]. split; [reflexivity|]. split; [reflexivity|].
      split; [|split; [apply Get_Set_same|]].
      * unfold telemetryRequest. cbn [http.ReqHeader http.SetHeader].
        rewrite Get_Set_other by (vm_compute; discriminate). apply Get_Set_same.
      * split; [intros _; exists resp, w; split; [reflexivity | exact Hst] | reflexivity].
    + rewrite requests_subscribing.
      split; [reflexivity|]. split; [reflexivity|].
      split; [reflexivity|]. split; [reflexivity|]. split; [reflexivity|].
      split; [|split; [apply Get_Set_same|]].
      * unfold telemetryRequest. cbn [http.ReqHeader http.SetHeader].
        rewrite Get_Set_other by (vm_compute; discriminate). apply Get_Set_same.
      * split; [intros H; discriminate H|].
        intros (resp' & w' & [= <- _] & Hok). contradiction.
  - rewrite requests_subscribing.
    split; [reflexivity|]. split; [reflexivity|].
    split; [reflexivity|]. split; [reflexivity|]. split; [reflexivity|].
    split; [|split; [apply Get_Set_same|]].
    + unfold telemetryRequest. cbn [http.ReqHeader http.SetHeader].
      rewrite Get_Set_other by (vm_compute; discriminate). apply Get_Set_same.
    + split; [intros H; discriminate H|].
      intros (resp' & w' & [=] & _).
Qed.

(** X11.  After a [Register] that returned nil the client can run: its
    identifier is the one the response carried, not empty, [Run] does not
    refuse, and every poll carries that identifier.  After a [Register]
    that failed on a client without identifier, [Run] refuses without
    sending anything. *)
Theorem Register_then_Run c ctx s c' err s1 :
  Register c ctx s = ((c', err), s1) ->
  (err = None ->
   (exists resp w,
       client c (registerRequest c) (fst s) = (inl resp, w)
       /\ extensionId c' = identifierOf resp
       /\ http.Get (http.ReqHeader (pollRequest c')) extensions.lambdaExtensionIdentifierHeader
          = identifierOf resp)
   /\ extensionId c' <> ""
   /\ forall fuel s2, Run fuel c' ctx s2 = loop fuel c' ctx s2)
  /\ (err <> None -> extensionId c = "" ->
      forall fuel s2, Run fuel c' ctx s2 = (Some (Some notRegistered), s2)).
Proof.
  rewrite Register_eq.
  destruct (client c (registerRequest c) (fst s)) as [[resp|e0] w0].
  - destruct (decode.Decode decode.intoMap (http.Body resp) None) as [result [e1|]].
    + intros [= <- <- _]. split; [intros H; discriminate H|].
      intros _ Hid fuel s2. unfold Run. rewrite Hid. reflexivity.
    + cbn zeta. destruct (String.eqb_spec (identifierOf resp) "") as [Hid|Hid].
      * intros [= <- <- _]. split; [intros H; discriminate H|].
        intros _ _ fuel s2. unfold Run. cbn [extensionId withExtensionId].
        rewrite Hid. reflexivity.
      * intros [= <- <- _]. split; [|intros H; contradiction].
        intros _. split; [|split].
        -- exists resp, w0. split; [reflexivity|]. split; [reflexivity|].
           apply Get_Set_same.
        -- exact Hid.
        -- intros fuel s2. apply Run_registered. exact Hid.
  - intros [= <- <- _]. split; [intros H; discriminate H|].
    intros _ Hid fuel s2. unfold Run. rewrite Hid. reflexivity.
Qed.


End HandshakeExtras.

Lemma Register_then_Run_witness :
  let c := script.fresh "ext" in
  let c' := withExtensionId c "0000-0000-0000-0000" in
  let s := script.start [script.registered "0000-0000-0000-0000"; script.event "SHUTDOWN"] in
  Register c script.ctx s = ((c', None), snd (Register c script.ctx s))
  /\ extensionId c' <> ""
  /\ Run 2 c' script.ctx (snd (Register c script.ctx s))
     = loop 2 c' script.ctx (snd (Register c script.ctx s))
  /\ fst (Register c script.ctx (script.start [script.unidentified]))
     = (withExtensionId c "",
        Some (Errorf "extension identifier is empty: %d %v"
                [AInt 200; AHeader script.jsonHeader]))
  /\ fst (Run 2 (withExtensionId c "") script.ctx (script.start [])) = Some (Some notRegistered).
Proof.
  intros c c' s.
  assert (H1 : Register c script.ctx s = ((c', None), snd (Register c script.ctx s)))
    by (vm_compute; reflexivity).
  destruct (Register_then_Run c script.ctx s c' None _ H1) as [Hok _].
  destruct (Hok eq_refl) as (_ & Hid & Hrun).
  assert (H2 : Register c script.ctx (script.start [script.unidentified])
               = ((withExtensionId c "",
                   Some (Errorf "extension identifier is empty: %d %v"
                           [AInt 200; AHeader script.jsonHeader])),
                  snd (Register c script.ctx (script.start [script.unidentified]))))
    by (vm_compute; reflexivity).
  destruct (Register_then_Run c script.ctx _ _ _ _ H2) as [_ Hfail].
  split; [exact H1|]. split; [exact Hid|]. split; [apply Hrun|].
  split; [rewrite H2; reflexivity|].
  rewrite (Hfail ltac:(discriminate) eq_refl 2 (script.start [])). reflexivity.
Defined.


(** ** JSON: what is encoded scans back *)

(** One byte of ASCII, escaped, is one step of the scanner. *)
Lemma stringBody_escape_step (b : byte) (n f : nat) (s rest : bytes) :
  ascii7 b = true ->
  scanner.stringBody (S f) (encode.escape (S n) (b :: s) ++ rest)
  = match scanner.stringBody f (encode.escape n s ++ rest) with
    | Some (w, r) => Some (b :: w, r)
    | None => None
    end.
Proof. intros H. destruct b; try discriminate H; reflexivity. Qed.

Lemma length_escape_step (b : byte) (n : nat) (s : bytes) :
  ascii7 b = true ->
  S (length (encode.escape n s)) <= length (encode.escape (S n) (b :: s)).
Proof. intros H. destruct b; try discriminate H; simpl; lia. Qed.

Lemma length_escape (s : bytes) : forall n,
  forallb ascii7 s = true -> length s <= n -> length s <= length (encode.escape n s).
Proof.
  induction s as [|b s IH]; intros n Ha Hn; [cbn; lia|].
  cbn [forallb] in Ha. apply andb_true_iff in Ha as [Hb Hs].
  destruct n as [|n]; [cbn in Hn; lia|]. cbn [length] in Hn |- *.
  pose proof (length_escape_step b n s Hb). specialize (IH n Hs ltac:(lia)). lia.
Qed.

(** The escaped contents of a string of ASCII, followed by the closing
    quote, scan back to the string. *)
Lemma stringBody_escape (s : bytes) : forall n f rest,
  forallb ascii7 s = true -> length s <= n -> length s < f ->
  scanner.stringBody f (encode.escape n s ++ x22 :: rest) = Some (s, rest).
Proof.
  induction s as [|b s IH]; intros n f rest Ha Hn Hf.
  - destruct f as [|f]; [lia|]. destruct n; reflexivity.
  - cbn [forallb] in Ha. apply andb_true_iff in Ha as [Hb Hs].
    destruct n as [|n]; [cbn in Hn; lia|]. destruct f as [|f]; [lia|].
    cbn [length] in Hn, Hf.
    rewrite (stringBody_escape_step b n f s _ Hb).
    rewrite (IH n f rest Hs ltac:(lia) ltac:(lia)). reflexivity.
Qed.

Lemma String_quoted (s : string) (tail : bytes) :
  encode.String s ++ tail
  = x22 :: encode.escape (length (list_byte_of_string s)) (list_byte_of_string s)
        ++ x22 :: tail.
Proof. unfold encode.String. cbn [app]. rewrite <- app_assoc. reflexivity. Qed.

Lemma scan_String (s : string) (tail : bytes) :
  isASCII s = true ->
  scanner.stringBody
    (S (length (encode.escape (length (list_byte_of_string s)) (list_byte_of_string s)
              ++ x22 :: tail)))
    (encode.escape (length (list_byte_of_string s)) (list_byte_of_string s) ++ x22 :: tail)
  = Some (list_byte_of_string s, tail).
Proof.
  intros Ha. apply stringBody_escape; [exact Ha | lia|].
  rewrite length_app. pose proof (length_escape _ _ Ha (Nat.le_refl _)). cbn [length]. lia.
Qed.

(** A string of ASCII, encoded, scans back to itself, whatever follows. *)
Lemma value_String (s : string) (fuel : nat) (depth : N) (tail : bytes) :
  isASCII s = true ->
  scanner.value (S fuel) depth (encode.String s ++ tail) = Some (JString s, tail).
Proof.
  intros Ha. rewrite String_quoted. cbn [scanner.value scanner.skipSpace scanner.isSpace].
  rewrite (scan_String s tail Ha), string_of_list_byte_of_string. reflexivity.
Qed.

Lemma elements_S (fuel : nat) (depth : N) (s : bytes) :
  scanner.elements (S fuel) depth s
  = match scanner.value fuel depth s with
    | Some (v, r) =>
        match scanner.skipSpace r with
        | x2c :: r1 =>
            match scanner.elements fuel depth r1 with
            | Some (vs, r2) => Some (v :: vs, r2)
            | None => None
            end
        | x5d :: r1 => Some ([v], r1)
        | _ => None
        end
    | None => None
    end.
Proof. reflexivity. Qed.

(** A list of strings between commas, up to the closing bracket. *)
Lemma elements_Strings (l : list string) : forall fuel depth tail,
  l <> [] -> Forall (fun s => isASCII s = true) l -> length l < fuel ->
  scanner.elements fuel depth (encode.commas (map encode.String l) ++ x5d :: tail)
  = Some (map JString l, tail).
Proof.
  induction l as [|s l IH]; intros fuel depth tail Hne Ha Hf; [contradiction|].
  inversion Ha as [|? ? Hs Hl]; subst.
  destruct fuel as [|fuel]; [lia|]. destruct fuel as [|fuel]; [cbn in Hf; lia|].
  rewrite elements_S.
  destruct l as [|s' l].
  - cbn [map encode.commas].
    rewrite (value_String s fuel depth _ Hs). reflexivity.
  - change (encode.commas (map encode.String (s :: s' :: l)))
      with (encode.String s ++ x2c :: encode.commas (map encode.String (s' :: l))).
    rewrite <- app_assoc. cbn [app].
    rewrite (value_String s fuel depth _ Hs).
    cbn [scanner.skipSpace scanner.isSpace].
    rewrite (IH (S fuel) depth tail ltac:(discriminate) Hl ltac:(cbn [length] in *; lia)).
    reflexivity.
Qed.

(** *** Integers *)

Lemma digits_uintBytes (d : Decimal.uint) (tail : bytes) :
  delimited tail = true ->
  scanner.digits (uintBytes d ++ tail) = (uintBytes d, tail).
Proof.
  intros Ht. induction d as [|d IH|d IH|d IH|d IH|d IH|d IH|d IH|d IH|d IH|d IH];
    try (change (uintBytes (_ d)) with (x30 :: uintBytes d)
         || change (uintBytes (_ d)) with (x31 :: uintBytes d)
         || change (uintBytes (_ d)) with (x32 :: uintBytes d)
         || change (uintBytes (_ d)) with (x33 :: uintBytes d)
         || change (uintBytes (_ d)) with (x34 :: uintBytes d)
         || change (uintBytes (_ d)) with (x35 :: uintBytes d)
         || change (uintBytes (_ d)) with (x36 :: uintBytes d)
         || change (uintBytes (_ d)) with (x37 :: uintBytes d)
         || change (uintBytes (_ d)) with (x38 :: uintBytes d)
         || change (uintBytes (_ d)) with (x39 :: uintBytes d));
    try (cbn [app scanner.digits]; rewrite IH; reflexivity).
  change (uintBytes Decimal.Nil) with (@nil byte). cbn [app].
  destruct tail as [|b t]; [reflexivity|].
  destruct b; try discriminate Ht; reflexivity.
Qed.

Lemma decimal_uintBytes (d : Decimal.uint) : forall acc,
  decode.decimal acc (uintBytes d) = Some (uintZ acc d).
Proof.
  induction d as [|d IH|d IH|d IH|d IH|d IH|d IH|d IH|d IH|d IH|d IH]; intros acc;
    [reflexivity|..];
    (change (uintBytes (_ d)) with (x30 :: uintBytes d)
     || change (uintBytes (_ d)) with (x31 :: uintBytes d)
     || change (uintBytes (_ d)) with (x32 :: uintBytes d)
     || change (uintBytes (_ d)) with (x33 :: uintBytes d)
     || change (uintBytes (_ d)) with (x34 :: uintBytes d)
     || change (uintBytes (_ d)) with (x35 :: uintBytes d)
     || change (uintBytes (_ d)) with (x36 :: uintBytes d)
     || change (uintBytes (_ d)) with (x37 :: uintBytes d)
     || change (uintBytes (_ d)) with (x38 :: uintBytes d)
     || change (uintBytes (_ d)) with (x39 :: uintBytes d));
    cbn [decode.decimal uintZ];
    match goal with
    | |- context [decode.digitVal ?b] =>
        let v := eval vm_compute in (decode.digitVal b) in
        change (decode.digitVal b) with v
    end;
    cbn iota; rewrite IH; f_equal; f_equal; lia.
Qed.

Lemma uintZ_pos (d : Decimal.uint) : forall acc : positive,
  uintZ (Z.pos acc) d = Z.pos (Pos.of_uint_acc d acc).
Proof.
  induction d as [|d IH|d IH|d IH|d IH|d IH|d IH|d IH|d IH|d IH|d IH]; intros acc;
    cbn [uintZ Pos.of_uint_acc]; [reflexivity|..];
    match goal with
    | |- uintZ ?z d = Z.pos (Pos.of_uint_acc d ?p) =>
        replace z with (Z.pos p) by lia; apply IH
    end.
Qed.

Lemma uintZ_0 (d : Decimal.uint) : uintZ 0 d = Z.of_N (Pos.of_uint d).
Proof.
  induction d as [|d IH|d IH|d IH|d IH|d IH|d IH|d IH|d IH|d IH|d IH];
    cbn [uintZ Pos.of_uint]; [reflexivity | exact IH |..];
    match goal with
    | |- uintZ ?z d = _ =>
        let z' := eval vm_compute in z in change z with z'
    end;
    rewrite uintZ_pos; reflexivity.
Qed.

(** The numeral of a positive number is not empty and does not begin
    with 0. *)
Lemma to_uint_head (p : positive) :
  match Pos.to_uint p with
  | Decimal.Nil | Decimal.D0 _ => False
  | _ => True
  end.
Proof.
  pose proof (DecimalPos.Unsigned.to_of (Pos.to_uint p)) as Hn.
  rewrite DecimalPos.Unsigned.of_to in Hn. cbn [N.to_uint] in Hn.
  pose proof (DecimalPos.Unsigned.to_uint_nonzero p) as Hz.
  pose proof (DecimalPos.Unsigned.to_uint_nonnil p) as Hnil.
  destruct (Pos.to_uint p) as [|l| | | | | | | | |]; try exact I; [contradiction|].
  unfold Decimal.unorm in Hn. cbn [Decimal.nzhead] in Hn.
  destruct (Decimal.nzhead l) eqn:Hh.
  - injection Hn as Hl. apply Hz. rewrite <- Hl. reflexivity.
  - exfalso. injection Hn as Hl. subst.
    match type of Hh with
    | Decimal.nzhead ?x = _ =>
        pose proof (DecimalFacts.nb_digits_nzhead x) as Hlen
    end.
    rewrite Hh in Hlen. cbn in Hlen. lia.
  - discriminate Hn.
  - discriminate Hn.
  - discriminate Hn.
  - discriminate Hn.
  - discriminate Hn.
  - discriminate Hn.
  - discriminate Hn.
  - discriminate Hn.
  - discriminate Hn.
Qed.

Lemma uintBytes_to_uint (p : positive) :
  exists d l, uintBytes (Pos.to_uint p) = d :: uintBytes l
    /\ scanner.isDigit d = true /\ d <> x30 /\ d <> x2d /\ d <> x2b
    /\ NilZero.string_of_uint (Pos.to_uint p) = NilEmpty.string_of_uint (Pos.to_uint p).
Proof.
  pose proof (to_uint_head p) as Hh.
  destruct (Pos.to_uint p) as [|l|l|l|l|l|l|l|l|l|l]; try contradiction;
    eexists _, l; (split; [reflexivity|]);
    repeat split; discriminate.
Qed.

Lemma Int_cases (n : Z) :
  encode.Int n
  = match n with
    | Z0 => [x30]
    | Z.pos p => uintBytes (Pos.to_uint p)
    | Z.neg p => x2d :: uintBytes (Pos.to_uint p)
    end.
Proof.
  destruct n as [|p|p]; [reflexivity|..];
    destruct (uintBytes_to_uint p) as (d & l & _ & _ & _ & _ & _ & Hs);
    unfold encode.Int, Itoa, uintBytes; cbn [Z.to_int NilZero.string_of_int];
    rewrite Hs; reflexivity.
Qed.

Lemma decimal_to_uint (p : positive) :
  decode.decimal 0 (uintBytes (Pos.to_uint p)) = Some (Z.pos p).
Proof.
  rewrite decimal_uintBytes, uintZ_0, DecimalPos.Unsigned.of_to. reflexivity.
Qed.

(** [strconv.ParseInt] reads back what [strconv.Itoa] wrote. *)
Lemma ParseInt_Itoa (n : Z) :
  isInt64 n = true -> decode.ParseInt (Itoa n) = Some n.
Proof.
  intros Hn. unfold decode.ParseInt.
  change (list_byte_of_string (Itoa n)) with (encode.Int n).
  rewrite Int_cases. destruct n as [|p|p]; [reflexivity|..].
  - destruct (uintBytes_to_uint p) as (d & l & Hd & Hdig & H0 & Hm & Hp & _).
    pose proof (decimal_to_uint p) as Hdec. rewrite Hd in *.
    destruct d; try discriminate Hdig; try congruence;
      rewrite Hdec; cbv beta iota; fold (isInt64 (Z.pos p)); rewrite Hn; reflexivity.
  - destruct (uintBytes_to_uint p) as (d & l & Hd & Hdig & H0 & Hm & Hp & _).
    pose proof (decimal_to_uint p) as Hdec. rewrite Hd in *.
    cbv beta iota. rewrite Hdec. cbv beta iota.
    change (- Z.pos p)%Z with (Z.neg p).
    fold (isInt64 (Z.neg p)). rewrite Hn. reflexivity.
Qed.

Lemma number_unsigned (d : byte) (l : Decimal.uint) (tail : bytes) :
  scanner.isDigit d = true -> d <> x30 -> delimited tail = true ->
  scanner.number (d :: uintBytes l ++ tail) = Some (d :: uintBytes l, tail).
Proof.
  intros Hdig H0 Ht. unfold scanner.number.
  destruct d; try discriminate Hdig; try congruence;
    cbv beta iota; rewrite Hdig, (digits_uintBytes _ _ Ht);
    (destruct tail as [|b t]; [rewrite app_nil_r; reflexivity|]);
    destruct b; try discriminate Ht; rewrite app_nil_r; reflexivity.
Qed.

Lemma number_signed (d : byte) (l : Decimal.uint) (tail : bytes) :
  scanner.isDigit d = true -> d <> x30 -> delimited tail = true ->
  scanner.number (x2d :: d :: uintBytes l ++ tail)
  = Some (x2d :: d :: uintBytes l, tail).
Proof.
  intros Hdig H0 Ht. unfold scanner.number. cbv beta iota.
  destruct d; try discriminate Hdig; try congruence;
    cbv beta iota; rewrite Hdig, (digits_uintBytes _ _ Ht);
    (destruct tail as [|b t]; [rewrite app_nil_r; reflexivity|]);
    destruct b; try discriminate Ht; rewrite app_nil_r; reflexivity.
Qed.

Lemma number_Int (n : Z) (tail : bytes) :
  delimited tail = true ->
  scanner.number (encode.Int n ++ tail) = Some (encode.Int n, tail).
Proof.
  intros Ht. rewrite Int_cases. destruct n as [|p|p].
  - destruct tail as [|b t]; [reflexivity|].
    destruct b; try discriminate Ht; reflexivity.
  - destruct (uintBytes_to_uint p) as (d & l & Hd & Hdig & H0 & _).
    rewrite Hd. apply number_unsigned; assumption.
  - destruct (uintBytes_to_uint p) as (d & l & Hd & Hdig & H0 & _).
    rewrite Hd. apply number_signed; assumption.
Qed.

Lemma value_Int (n : Z) (fuel : nat) (depth : N) (tail : bytes) :
  delimited tail = true ->
  scanner.value (S fuel) depth (encode.Int n ++ tail)
  = Some (JNumber (Itoa n), tail).
Proof.
  intros Ht. pose proof (number_Int n tail Ht) as Hnum.
  assert (Hs : string_of_list_byte (encode.Int n) = Itoa n)
    by apply string_of_list_byte_of_string.
  rewrite Int_cases in Hnum, Hs |- *.
  destruct n as [|p|p].
  - cbn [app] in *. cbn [scanner.value scanner.skipSpace scanner.isSpace].
    cbv beta iota. rewrite Hnum. rewrite <- Hs. reflexivity.
  - destruct (uintBytes_to_uint p) as (d & l & Hd & Hdig & H0 & _).
    rewrite Hd in *. cbn [app] in *.
    destruct d; try discriminate Hdig; try congruence;
      cbn [scanner.value scanner.skipSpace scanner.isSpace]; cbv beta iota;
      rewrite Hnum, <- Hs; reflexivity.
  - cbn [app] in *. cbn [scanner.value scanner.skipSpace scanner.isSpace].
    cbv beta iota. rewrite Hnum. rewrite <- Hs. reflexivity.
Qed.

(** *** Values, slices and structs *)

Lemma parsesAs_le (b : bytes) (v : json) (k k' : nat) (d d' : N) :
  parsesAs b v k d -> k <= k' -> (d <= d')%N -> parsesAs b v k' d'.
Proof.
  intros H Hk Hd fuel depth tail Hf Hdepth Ht. apply H; [lia | lia | exact Ht].
Qed.

Lemma parsesAs_String (s : string) :
  isASCII s = true -> parsesAs (encode.String s) (JString s) 1 0.
Proof.
  intros Ha fuel depth tail Hf _ _. destruct fuel as [|fuel]; [lia|].
  apply value_String, Ha.
Qed.

Lemma parsesAs_Int (n : Z) : parsesAs (encode.Int n) (JNumber (Itoa n)) 1 0.
Proof.
  intros fuel depth tail Hf _ Ht. destruct fuel as [|fuel]; [lia|].
  apply value_Int, Ht.
Qed.

Lemma parsesAs_Slice (l : option (list string)) :
  Forall (fun s => isASCII s = true) (default [] l) ->
  parsesAs (encode.Slice encode.String l) (stringsJSON l) (length (default [] l) + 2) 1.
Proof.
  intros Ha fuel depth tail Hf Hd Ht. destruct fuel as [|fuel]; [lia|].
  destruct l as [l|]; [|reflexivity].
  cbn [encode.Slice stringsJSON]. cbn in Ha, Hf.
  assert (Hlim : (scanner.maxNestingDepth <=? depth)%N = false)
    by (apply N.leb_gt; lia).
  destruct l as [|s l].
  - cbn [map encode.commas app scanner.value scanner.skipSpace scanner.isSpace].
    rewrite Hlim. reflexivity.
  - assert (He : scanner.elements fuel (depth + 1)
                   (encode.commas (map encode.String (s :: l)) ++ x5d :: tail)
                 = Some (map JString (s :: l), tail))
      by (apply elements_Strings; [discriminate | exact Ha | lia]).
    assert (Hq : exists r, encode.commas (map encode.String (s :: l)) ++ x5d :: tail
                           = x22 :: r).
    { destruct l as [|s' l]; cbn [map encode.commas];
        [|rewrite <- app_assoc]; rewrite String_quoted; eexists; reflexivity. }
    destruct Hq as [r Hr].
    change (x5b :: ?a ++ [x5d]) with ([x5b] ++ a ++ [x5d]).
    rewrite <- !app_assoc. cbn [app].
    cbn [scanner.value scanner.skipSpace scanner.isSpace].
    rewrite Hlim. rewrite Hr in He |- *.
    cbn [scanner.skipSpace scanner.isSpace]. rewrite He. reflexivity.
Qed.

Lemma members_S (fuel : nat) (depth : N) (s : bytes) :
  scanner.members (S fuel) depth s
  = match scanner.skipSpace s with
    | x22 :: s1 =>
        match scanner.stringBody (S (length s1)) s1 with
        | Some (k, r) =>
            match scanner.skipSpace r with
            | x3a :: r1 =>
                match scanner.value fuel depth r1 with
                | Some (v, r2) =>
                    match scanner.skipSpace r2 with
                    | x2c :: r3 =>
                        match scanner.members fuel depth r3 with
                        | Some (ms, r4) => Some ((string_of_list_byte k, v) :: ms, r4)
                        | None => None
                        end
                    | x7d :: r3 => Some ([(string_of_list_byte k, v)], r3)
                    | _ => None
                    end
                | None => None
                end
            | _ => None
            end
        | None => None
        end
    | _ => None
    end.
Proof. reflexivity. Qed.

(** One member, encoded, and what follows it. *)
Lemma members_field (fuel : nat) (depth : N) (n : string) (b : bytes) (v : json)
    (rest : bytes) :
  isASCII n = true ->
  scanner.value fuel depth (b ++ rest) = Some (v, rest) ->
  scanner.members (S fuel) depth ((encode.String n ++ x3a :: b) ++ rest)
  = match scanner.skipSpace rest with
    | x2c :: r3 =>
        match scanner.members fuel depth r3 with
        | Some (ms, r4) => Some ((n, v) :: ms, r4)
        | None => None
        end
    | x7d :: r3 => Some ([(n, v)], r3)
    | _ => None
    end.
Proof.
  intros Ha Hv. rewrite members_S, <- app_assoc, String_quoted.
  cbn [scanner.skipSpace scanner.isSpace]. rewrite (scan_String n _ Ha).
  cbn [app scanner.skipSpace scanner.isSpace]. rewrite Hv.
  rewrite string_of_list_byte_of_string. reflexivity.
Qed.

Lemma members_fields (fs : list (string * bytes * json)) :
  forall fuel depth tail k d,
    fs <> [] -> Forall (fieldParses k d) fs -> length fs + k <= fuel ->
    (depth + d <= scanner.maxNestingDepth)%N ->
    scanner.members fuel depth
      (encode.commas (map (fun f => encode.String (fst f) ++ x3a :: snd f) (map encoded fs))
         ++ x7d :: tail)
    = Some (map scanned fs, tail).
Proof.
  induction fs as [|f fs IH]; intros fuel depth tail k d Hne Hall Hf Hd; [contradiction|].
  inversion Hall as [|? ? [Hn Hp] Hrest]; subst.
  destruct fuel as [|fuel]; [cbn [length] in Hf; lia|]. cbn [length] in Hf.
  destruct fs as [|f' fs].
  - cbn [map encode.commas].
    rewrite (members_field fuel depth _ _ (snd f) (x7d :: tail) Hn).
    + reflexivity.
    + apply Hp; [lia | exact Hd | reflexivity].
  - change (encode.commas (map ?g (map encoded (f :: f' :: fs))))
      with (g (encoded f) ++ x2c :: encode.commas (map g (map encoded (f' :: fs)))).
    cbv beta. rewrite <- app_assoc. cbn [app].
    rewrite (members_field fuel depth _ _ (snd f) _ Hn).
    + cbn [scanner.skipSpace scanner.isSpace].
      rewrite (IH fuel depth tail k d ltac:(discriminate) Hrest
                 ltac:(cbn [length] in *; lia) Hd).
      reflexivity.
    + apply Hp; [lia | exact Hd | reflexivity].
Qed.

(** A struct whose fields scan scans as the object of their values. *)
Lemma parsesAs_Struct (fs : list (string * bytes * json)) (k : nat) (d : N) :
  fs <> [] -> Forall (fieldParses k d) fs ->
  parsesAs (encode.Struct (map encoded fs)) (JObject (map scanned fs))
    (S (length fs + k)) (d + 1).
Proof.
  intros Hne Hall fuel depth tail Hf Hd Ht. destruct fuel as [|fuel]; [lia|].
  assert (Hlim : (scanner.maxNestingDepth <=? depth)%N = false)
    by (apply N.leb_gt; lia).
  pose proof (members_fields fs fuel (depth + 1) tail k d Hne Hall ltac:(lia) ltac:(lia))
    as Hm.
  assert (Hq : exists r,
    encode.commas (map (fun f => encode.String (fst f) ++ x3a :: snd f) (map encoded fs))
      ++ x7d :: tail = x22 :: r).
  { destruct fs as [|f fs]; [contradiction|].
    destruct fs as [|f' fs]; cbn [map encode.commas];
      rewrite <- !app_assoc; rewrite String_quoted; eexists; reflexivity. }
  destruct Hq as [r Hr]. unfold encode.Struct.
  change (x7b :: ?a ++ [x7d]) with ([x7b] ++ a ++ [x7d]).
  rewrite <- !app_assoc. cbn [app].
  cbn [scanner.value scanner.skipSpace scanner.isSpace].
  rewrite Hlim. rewrite Hr in Hm |- *.
  cbn [scanner.skipSpace scanner.isSpace]. rewrite Hm. reflexivity.
Qed.

(** *** The structs of the package *)

Lemma forallb_Forall_ascii (l : list string) :
  forallb isASCII l = true -> Forall (fun s => isASCII s = true) l.
Proof.
  induction l as [|s l IH]; intros H; [constructor|].
  cbn [forallb] in H. apply andb_true_iff in H as [Hs Hl].
  constructor; [exact Hs | exact (IH Hl)].
Qed.

Lemma parsesAs_Buffering (b : TelemetryBuffering.t) :
  parsesAs (TelemetryBuffering.Marshal b) (JObject (map scanned (bufferingParts b))) 5 1.
Proof.
  apply (parsesAs_Struct (bufferingParts b) 1 0); [discriminate|].
  repeat constructor; apply parsesAs_Int.
Qed.

Lemma parsesAs_Destination (d : TelemetryDestination.t) :
  plainDestination d = true ->
  parsesAs (TelemetryDestination.Marshal d) (JObject (map scanned (destinationParts d))) 4 1.
Proof.
  intros H. apply andb_true_iff in H as [Hp Hu].
  apply (parsesAs_Struct (destinationParts d) 1 0); [discriminate|].
  repeat constructor; apply parsesAs_String; assumption.
Qed.

Lemma parsesAs_Subscription (s : TelemetrySubscription.t) :
  plainSubscription s = true ->
  parsesAs (TelemetrySubscription.Marshal s) (JObject (map scanned (subscriptionParts s)))
    (length (default [] (TelemetrySubscription.Types s)) + 10) 2.
Proof.
  intros H. unfold plainSubscription in H.
  apply andb_true_iff in H as [H Hd]. apply andb_true_iff in H as [H Hb].
  apply andb_true_iff in H as [Hv Ht].
  eapply parsesAs_le;
    [apply (parsesAs_Struct (subscriptionParts s)
              (length (default [] (TelemetrySubscription.Types s)) + 5) 1);
       [discriminate|]
    | cbn [length subscriptionParts]; lia | reflexivity].
  repeat constructor; cbn [fst snd].
  - eapply parsesAs_le; [apply parsesAs_String, Hv | lia | discriminate].
  - eapply parsesAs_le;
      [apply parsesAs_Slice, forallb_Forall_ascii, Ht | lia | apply N.le_refl].
  - eapply parsesAs_le; [apply parsesAs_Buffering | lia | apply N.le_refl].
  - eapply parsesAs_le; [apply parsesAs_Destination, Hd | lia | apply N.le_refl].
Qed.

Lemma parsesAs_Payload (p : registerPayload.t) :
  plainPayload p = true ->
  parsesAs (registerPayload.Marshal p) (JObject (map scanned (payloadParts p)))
    (length (default [] (registerPayload.Events p)) + 4) 2.
Proof.
  intros H.
  eapply parsesAs_le;
    [apply (parsesAs_Struct (payloadParts p)
              (length (default [] (registerPayload.Events p)) + 2) 1);
       [discriminate|]
    | cbn [length payloadParts]; lia | reflexivity].
  repeat constructor; cbn [fst snd].
  apply parsesAs_Slice, forallb_Forall_ascii, H.
Qed.

(** An encoding is at least as long as the slice in it. *)
Lemma length_String (s : string) : 2 <= length (encode.String s).
Proof. unfold encode.String. cbn [length]. rewrite length_app. cbn [length]. lia. Qed.

Lemma length_commas_Strings (l : list string) :
  length l <= length (encode.commas (map encode.String l)).
Proof.
  induction l as [|s l IH]; [cbn; lia|].
  pose proof (length_String s) as Hs.
  destruct l as [|s' l].
  - cbn [map encode.commas length]. lia.
  - change (encode.commas (map encode.String (s :: s' :: l)))
      with (encode.String s ++ x2c :: encode.commas (map encode.String (s' :: l))).
    rewrite length_app. cbn [length] in *. lia.
Qed.

Lemma length_Slice (l : option (list string)) :
  length (default [] l) + 2 <= length (encode.Slice encode.String l).
Proof.
  destruct l as [l|]; [|cbn; lia].
  unfold encode.Slice. cbn [length default from_option]. rewrite length_app.
  pose proof (length_commas_Strings l). cbn [length]. cbn. lia.
Qed.

(** What [Decoder.Decode] reads of an encoding that scans. *)
Lemma next_parsesAs (b : bytes) (v : json) (k : nat) (d : N) :
  parsesAs b v k d -> (d <= scanner.maxNestingDepth)%N ->
  k <= 2 * length b + 2 -> scanner.skipSpace b = b ->
  exists raw, scanner.next b = Some (raw, v, []).
Proof.
  intros Hp Hd Hk Hs. unfold scanner.next. cbv zeta. rewrite Hs.
  pose proof (Hp (2 * length b + 2) 0%N [] Hk ltac:(lia) eq_refl) as Hv.
  rewrite app_nil_r in Hv. rewrite Hv.
  eexists. reflexivity.
Qed.

Lemma Decode_parsesAs {T : Type} (into : json -> T -> T * option error)
    (b : bytes) (v : json) (k : nat) (d : N) (old : T) :
  parsesAs b v k d -> (d <= scanner.maxNestingDepth)%N ->
  k <= 2 * length b + 2 -> scanner.skipSpace b = b ->
  decode.Decode into b old = into v old.
Proof.
  intros Hp Hd Hk Hs. unfold decode.Decode.
  destruct (next_parsesAs b v k d Hp Hd Hk Hs) as [raw ->]. reflexivity.
Qed.

(** *** Storing the scanned values *)

#[local] Arguments Itoa : simpl never.
#[local] Arguments decode.intoInt : simpl never.

Lemma intoInt_Itoa (n old : Z) :
  isInt64 n = true -> decode.intoInt (JNumber (Itoa n)) old = (n, None).
Proof. intros H. unfold decode.intoInt. rewrite (ParseInt_Itoa n H). reflexivity. Qed.

Lemma fold_intoStrings (elem : string) (l : list string) : forall acc,
  fold_left
    (fun (st : list string * option error) (e : json) =>
       let '(s, err) := decode.intoString (TString elem) e "" in
       (fst st ++ [s], decode.saveError (snd st) err))
    (map JString l) (acc, None)
  = (acc ++ l, None).
Proof.
  induction l as [|s l IH]; intros acc; [cbn; rewrite app_nil_r; reflexivity|].
  cbn [map fold_left decode.intoString fst snd decode.saveError].
  rewrite IH, <- app_assoc. reflexivity.
Qed.

Lemma intoStrings_stringsJSON (name elem : string) (l old : option (list string)) :
  mock.intoStrings name elem (stringsJSON l) old = (l, None).
Proof.
  destruct l as [l|]; [|reflexivity].
  cbn [stringsJSON mock.intoStrings]. rewrite fold_intoStrings. reflexivity.
Qed.

Lemma intoBuffering_parts (b old : TelemetryBuffering.t) :
  plainBuffering b = true ->
  mock.intoBuffering (JObject (map scanned (bufferingParts b))) old = (b, None).
Proof.
  intros H. unfold plainBuffering in H.
  apply andb_true_iff in H as [H H3]. apply andb_true_iff in H as [H1 H2].
  destruct b as [mi mb tm]. cbn in H1, H2, H3.
  unfold mock.intoBuffering, decode.intoStruct. cbn.
  rewrite (intoInt_Itoa mi _ H1). cbn.
  rewrite (intoInt_Itoa mb _ H2). cbn.
  rewrite (intoInt_Itoa tm _ H3). reflexivity.
Qed.

Lemma intoDestination_parts (d old : TelemetryDestination.t) :
  mock.intoDestination (JObject (map scanned (destinationParts d))) old = (d, None).
Proof. destruct d as [p u]. reflexivity. Qed.

Lemma member_selected {T : Type} (fields : list string)
    (setField : string -> json -> T -> T * option error)
    (st : T * option error) (kv : string * json) (f : string) (t : T)
    (err : option error) :
  decode.lookupField fields (fst kv) = Some f ->
  setField f (snd kv) (fst st) = (t, err) ->
  decode.member fields setField st kv = (t, decode.saveError (snd st) err).
Proof.
  intros Hf Hs. unfold decode.member. rewrite Hf, Hs. reflexivity.
Qed.

Lemma subscription_set_types (l : option (list string)) (x : TelemetrySubscription.t) :
  mock.subscriptionSetField "types" (stringsJSON l) x
  = (TelemetrySubscription.mk (TelemetrySubscription.SchemaVersion x) l
       (TelemetrySubscription.Buffering x) (TelemetrySubscription.Destination x), None).
Proof.
  unfold mock.subscriptionSetField.
  change ("types" =? "schemaVersion")%string with false.
  change ("types" =? "types")%string with true. cbv beta iota.
  rewrite intoStrings_stringsJSON. reflexivity.
Qed.

Lemma subscription_set_buffering (b : TelemetryBuffering.t) (x : TelemetrySubscription.t) :
  plainBuffering b = true ->
  mock.subscriptionSetField "buffering" (JObject (map scanned (bufferingParts b))) x
  = (TelemetrySubscription.mk (TelemetrySubscription.SchemaVersion x)
       (TelemetrySubscription.Types x) b (TelemetrySubscription.Destination x), None).
Proof.
  intros Hb. unfold mock.subscriptionSetField.
  change ("buffering" =? "schemaVersion")%string with false.
  change ("buffering" =? "types")%string with false.
  change ("buffering" =? "buffering")%string with true. cbv beta iota.
  rewrite (intoBuffering_parts b _ Hb). reflexivity.
Qed.

Lemma subscription_set_destination (d : TelemetryDestination.t)
    (x : TelemetrySubscription.t) :
  mock.subscriptionSetField "destination" (JObject (map scanned (destinationParts d))) x
  = (TelemetrySubscription.mk (TelemetrySubscription.SchemaVersion x)
       (TelemetrySubscription.Types x) (TelemetrySubscription.Buffering x) d, None).
Proof.
  unfold mock.subscriptionSetField.
  change ("destination" =? "schemaVersion")%string with false.
  change ("destination" =? "types")%string with false.
  change ("destination" =? "buffering")%string with false. cbv beta iota.
  rewrite intoDestination_parts. reflexivity.
Qed.

Lemma intoSubscription_parts (s old : TelemetrySubscription.t) :
  plainSubscription s = true ->
  mock.intoSubscription (JObject (map scanned (subscriptionParts s))) old = (s, None).
Proof.
  intros H. unfold plainSubscription in H.
  apply andb_true_iff in H as [H Hd]. apply andb_true_iff in H as [H Hb].
  destruct s as [sv ty bu de]. cbn [TelemetrySubscription.Buffering] in Hb.
  unfold mock.intoSubscription, decode.intoStruct.
  cbn [map scanned subscriptionParts fst snd fold_left
       TelemetrySubscription.SchemaVersion TelemetrySubscription.Types
       TelemetrySubscription.Buffering TelemetrySubscription.Destination].
  rewrite (member_selected mock.subscriptionFields mock.subscriptionSetField
             (old, None) (scanned ("schemaVersion", encode.String sv, JString sv))
             "schemaVersion" _ _ eq_refl eq_refl).
  rewrite (member_selected mock.subscriptionFields mock.subscriptionSetField
             _ (scanned ("types", encode.Slice encode.String ty, stringsJSON ty))
             "types" _ _ eq_refl (subscription_set_types ty _)).
  rewrite (member_selected mock.subscriptionFields mock.subscriptionSetField
             _ (scanned ("buffering", TelemetryBuffering.Marshal bu,
                         JObject (map scanned (bufferingParts bu))))
             "buffering" _ _ eq_refl (subscription_set_buffering bu _ Hb)).
  rewrite (member_selected mock.subscriptionFields mock.subscriptionSetField
             _ (scanned ("destination", TelemetryDestination.Marshal de,
                         JObject (map scanned (destinationParts de))))
             "destination" _ _ eq_refl (subscription_set_destination de _)).
  reflexivity.
Qed.

Lemma payload_set_events (l : option (list string)) (x : registerPayload.t) :
  mock.payloadSetField "events" (stringsJSON l) x = (registerPayload.mk l, None).
Proof. unfold mock.payloadSetField. rewrite intoStrings_stringsJSON. reflexivity. Qed.

Lemma intoPayload_parts (p old : registerPayload.t) :
  mock.intoPayload (JObject (map scanned (payloadParts p))) old = (p, None).
Proof.
  destruct p as [ev]. unfold mock.intoPayload, decode.intoStruct.
  cbn [map payloadParts fold_left registerPayload.Events].
  rewrite (member_selected mock.payloadFields mock.payloadSetField (old, None)
             (scanned ("events", encode.Slice encode.String ev, stringsJSON ev))
             "events" _ _ eq_refl (payload_set_events ev _)).
  reflexivity.
Qed.

Lemma length_Marshal_subscription (s : TelemetrySubscription.t) :
  length (default [] (TelemetrySubscription.Types s)) + 4
  <= length (TelemetrySubscription.Marshal s).
Proof.
  unfold TelemetrySubscription.Marshal, encode.Struct.
  cbn [map fst snd encode.commas].
  pose proof (length_Slice (TelemetrySubscription.Types s)) as Hl.
  repeat (rewrite length_app || rewrite length_cons). lia.
Qed.

Lemma length_Marshal_payload (p : registerPayload.t) :
  length (default [] (registerPayload.Events p)) + 2 <= length (registerPayload.Marshal p).
Proof.
  unfold registerPayload.Marshal, encode.Struct.
  cbn [map fst snd encode.commas].
  eapply Nat.le_trans; [exact (length_Slice (registerPayload.Events p))|].
  repeat (rewrite length_app || rewrite length_cons). lia.
Qed.

Lemma subscription_round_trip (s old : TelemetrySubscription.t) :
  plainSubscription s = true ->
  decode.Decode mock.intoSubscription (TelemetrySubscription.Marshal s) old = (s, None).
Proof.
  intros H.
  rewrite (Decode_parsesAs _ _ _ _ _ old (parsesAs_Subscription s H)).
  - apply intoSubscription_parts, H.
  - vm_compute. discriminate.
  - pose proof (length_Marshal_subscription s). lia.
  - reflexivity.
Qed.

Lemma payload_round_trip (p old : registerPayload.t) :
  plainPayload p = true ->
  decode.Decode mock.intoPayload (registerPayload.Marshal p) old = (p, None).
Proof.
  intros H.
  rewrite (Decode_parsesAs _ _ _ _ _ old (parsesAs_Payload p H)).
  - apply intoPayload_parts.
  - vm_compute. discriminate.
  - pose proof (length_Marshal_payload p). lia.
  - reflexivity.
Qed.

(** X13.  What [json.Marshal] writes for a telemetry subscription, the
    decoder of the mock host reads back as the same subscription, without
    error and whatever the target held before: for every subscription
    whose strings are ASCII and whose numbers are in the range of int64.
    A nil slice of types comes back nil, an empty one empty. *)
Theorem Decode_Marshal_subscription (s old : TelemetrySubscription.t) :
  plainSubscription s = true ->
  decode.Decode mock.intoSubscription (TelemetrySubscription.Marshal s) old = (s, None).
Proof. apply subscription_round_trip. Qed.

(** X14.  What [json.Marshal] writes for a registration, the decoder of
    the mock host reads back as the same list of events, in the same
    order, for every list of ASCII event names (a nil list comes back
    nil). *)
Theorem Decode_Marshal_payload (p old : registerPayload.t) :
  plainPayload p = true ->
  decode.Decode mock.intoPayload (registerPayload.Marshal p) old = (p, None).
Proof. apply payload_round_trip. Qed.

Lemma Decode_Marshal_subscription_witness :
  let s := TelemetrySubscription.mk "2022-12-13" (Some ["function"; "a<b>&c"; ""])
             (TelemetryBuffering.mk (-5) 0 9223372036854775807)
             (TelemetryDestination.mk "HTTP" "http://sandbox.localdomain:8080/x?y=\z") in
  plainSubscription s = true
  /\ decode.Decode mock.intoSubscription (TelemetrySubscription.Marshal s)
       DefaultTelemetrySubscription = (s, None).
Proof.
  intros s.
  assert (H : plainSubscription s = true) by (vm_compute; reflexivity).
  split; [exact H|]. exact (Decode_Marshal_subscription s _ H).
Defined.

Lemma Decode_Marshal_payload_witness :
  let p := registerPayload.mk (Some ["INVOKE"; "SHUTDOWN"; "INVOKE"]) in
  plainPayload p = true
  /\ decode.Decode mock.intoPayload (registerPayload.Marshal p) (registerPayload.mk None)
     = (p, None).
Proof.
  intros p.
  assert (H : plainPayload p = true) by (vm_compute; reflexivity).
  split; [exact H|]. exact (Decode_Marshal_payload p _ H).
Defined.

(** ** The client against the mock host *)

Section MockExtras.

Context {W : Type}.

Variable errorText : error -> string.

Implicit Types (c : Client W) (ctx : context.Context W) (s : state W).

Lemma requestedEvents_plain c :
  plainPayload (registerPayload.mk (Some (requestedEvents c))) = true.
Proof.
  unfold requestedEvents. destruct (CallbackInvoke c), (CallbackShutdown c); reflexivity.
Qed.

Lemma started_requestedEvents c :
  flat_map mock.started (requestedEvents c)
  = (if CallbackInvoke c is Some _ then [mock.InvokeTicker] else [])
      ++ (if CallbackShutdown c is Some _ then [mock.ShutdownTimer] else []).
Proof.
  unfold requestedEvents. destruct (CallbackInvoke c), (CallbackShutdown c); reflexivity.
Qed.

Lemma mock_register_request c :
  mock.register errorText (http.ReqBody (registerRequest c))
  = (http.mkResponse "200 OK" 200
       (http.Set_ (http.Set_ ∅ "Content-Type" "application/json")
          extensions.lambdaExtensionIdentifierHeader "0000-0000-0000-0000")
       mock.registered,
     flat_map mock.started (requestedEvents c)).
Proof.
  unfold mock.register.
  change (http.ReqBody (registerRequest c))
    with (registerPayload.Marshal (registerPayload.mk (Some (requestedEvents c)))).
  rewrite (payload_round_trip _ _ (requestedEvents_plain c)). reflexivity.
Qed.

Lemma Decode_registered :
  snd (decode.Decode decode.intoMap mock.registered None) = None.
Proof. vm_compute. reflexivity. Qed.

(** X15.  Against the mock host [Register] succeeds whatever callbacks
    the client has: when the transport hands the request to the handler of
    /register and brings back its answer, [Register] returns nil and the
    client holds the identifier 0000-0000-0000-0000.  The handler answers
    200 and starts the ticker of Invoke events exactly when the client has
    an invoke callback, the timer of the Shutdown event exactly when it has
    a shutdown callback, and nothing else. *)
Theorem Register_against_mock c ctx s (w : W) :
  client c (registerRequest c) (fst s)
  = (inl (fst (mock.register errorText (http.ReqBody (registerRequest c)))), w) ->
  fst (Register c ctx s) = (withExtensionId c "0000-0000-0000-0000", None)
  /\ http.StatusCode (fst (mock.register errorText (http.ReqBody (registerRequest c))))
     = http.StatusOK
  /\ snd (mock.register errorText (http.ReqBody (registerRequest c)))
     = (if CallbackInvoke c is Some _ then [mock.InvokeTicker] else [])
         ++ (if CallbackShutdown c is Some _ then [mock.ShutdownTimer] else []).
Proof.
  rewrite mock_register_request. cbn [fst snd]. intros Hresp.
  split; [|split; [reflexivity | apply started_requestedEvents]].
  rewrite Register_eq, Hresp. cbn [http.Body].
  pose proof Decode_registered as Hd.
  destruct (decode.Decode decode.intoMap mock.registered None) as [result e].
  cbn [snd] in Hd. subst e. cbv zeta.
  unfold identifierOf. cbn [http.Header_]. rewrite Get_Set_same. reflexivity.
Qed.

(** X16.  Against the mock host [SubscribeTelemetry] succeeds for every
    subscription whose strings are ASCII and whose numbers are in the
    range of int64, and for the nil subscription: when the transport hands
    the request to the handler of /2022-07-01/telemetry and brings back
    its answer, [SubscribeTelemetry] returns nil.  The handler answers 200
    and starts one sender, to the URI of the subscription with its first
    sandbox.localdomain replaced by localhost. *)
Theorem SubscribeTelemetry_against_mock c ctx
    (subscription : option TelemetrySubscription.t) s (w : W) :
  let sub := default NewDefaultTelemetrySubscription subscription in
  let answer := mock.telemetry errorText (http.ReqBody (telemetryRequest c sub)) in
  plainSubscription sub = true ->
  client c (telemetryRequest c sub) (fst s) = (inl (fst answer), w) ->
  fst (SubscribeTelemetry c ctx subscription s) = None
  /\ http.StatusCode (fst answer) = http.StatusOK
  /\ snd answer
     = [mock.TelemetrySender
          (mock.ReplaceOnce
             (TelemetryDestination.URI (TelemetrySubscription.Destination sub))
             "sandbox.localdomain" "localhost")].
Proof.
  cbv zeta. intros Hp.
  assert (Hm : mock.telemetry errorText
                 (http.ReqBody
                    (telemetryRequest c (default NewDefaultTelemetrySubscription subscription)))
               = (http.mkResponse "200 OK" 200 ∅ [],
                  [mock.TelemetrySender
                     (mock.ReplaceOnce
                        (TelemetryDestination.URI
                           (TelemetrySubscription.Destination
                              (default NewDefaultTelemetrySubscription subscription)))
                        "sandbox.localdomain" "localhost")])).
  { unfold mock.telemetry.
    change (http.ReqBody (telemetryRequest c ?x)) with (TelemetrySubscription.Marshal x).
    rewrite (subscription_round_trip _ _ Hp). reflexivity. }
  rewrite Hm. cbn [fst snd]. intros Hresp.
  split; [|split; reflexivity].
  rewrite SubscribeTelemetry_eq. cbv zeta. rewrite Hresp. reflexivity.
Qed.

End MockExtras.

Lemma Register_against_mock_witness :
  let c := script.withCallbacks (script.fresh "ext")
             (Some (script.answering None)) (Some (script.answering None)) in
  let s := script.start [script.registered "0000-0000-0000-0000"] in
  fst (Register c script.ctx s) = (withExtensionId c "0000-0000-0000-0000", None)
  /\ snd (mock.register (fun _ => "error") (http.ReqBody (registerRequest c)))
     = [mock.InvokeTicker; mock.ShutdownTimer].
Proof.
  intros c s.
  assert (H : client c (registerRequest c) (fst s)
              = (inl (fst (mock.register (fun _ => "error")
                             (http.ReqBody (registerRequest c)))),
                 script.mk [] false))
    by (vm_compute; reflexivity).
  destruct (Register_against_mock (fun _ => "error") c script.ctx s _ H) as (H1 & _ & H3).
  split; [exact H1 | exact H3].
Defined.

Lemma SubscribeTelemetry_against_mock_witness :
  let c := withExtensionId (script.fresh "ext") "0000-0000-0000-0000" in
  let s := script.start [script.ok ∅ []] in
  fst (SubscribeTelemetry c script.ctx None s) = None
  /\ snd (mock.telemetry (fun _ => "error")
            (http.ReqBody (telemetryRequest c NewDefaultTelemetrySubscription)))
     = [mock.TelemetrySender "http://localhost:8080"].
Proof.
  intros c s.
  assert (Hp : plainSubscription (default NewDefaultTelemetrySubscription None) = true)
    by (vm_compute; reflexivity).
  assert (H : client c (telemetryRequest c (default NewDefaultTelemetrySubscription None))
                (fst s)
              = (inl (fst (mock.telemetry (fun _ => "error")
                             (http.ReqBody
                                (telemetryRequest c
                                   (default NewDefaultTelemetrySubscription None))))),
                 script.mk [] false))
    by (vm_compute; reflexivity).
  destruct (SubscribeTelemetry_against_mock (fun _ => "error") c script.ctx None s _ Hp H)
    as (H1 & _ & H3).
  split; [exact H1 | exact H3].
Defined.

(** ** Failures of the handshake *)

Section FailureExtras.

Context {W : Type}.

Implicit Types (c : Client W) (ctx : context.Context W) (s : state W).

(** X17.  A failure of the transport is wrapped, so that [errors.Unwrap]
    gives it back, by [Register] and by [SubscribeTelemetry] alike, and
    under the same text: [SubscribeTelemetry] reports it as a failure to
    register the extension.  An answer to [SubscribeTelemetry] with
    another status than 200 gives an error with the status code and the
    body of the answer, which wraps nothing. *)
Theorem handshake_failures c ctx (subscription : option TelemetrySubscription.t) s :
  let sub := default NewDefaultTelemetrySubscription subscription in
  (forall err w,
      client c (registerRequest c) (fst s) = (inr err, w) ->
      fst (Register c ctx s)
      = (c, Some (Errorf "failed to register extension: %w" [AError err]))
      /\ Unwrap (Errorf "failed to register extension: %w" [AError err]) = Some err)
  /\ (forall err w,
        client c (telemetryRequest c sub) (fst s) = (inr err, w) ->
        fst (SubscribeTelemetry c ctx subscription s)
        = Some (Errorf "failed to register extension: %w" [AError err]))
  /\ (forall resp w,
        client c (telemetryRequest c sub) (fst s) = (inl resp, w) ->
        http.StatusCode resp <> http.StatusOK ->
        fst (SubscribeTelemetry c ctx subscription s)
        = Some (Errorf "failed to subscribe telemetry API: %d %s"
                  [AInt (http.StatusCode resp);
                   AString (string_of_list_byte (http.Body resp))])
        /\ Unwrap (Errorf "failed to subscribe telemetry API: %d %s"
                     [AInt (http.StatusCode resp);
                      AString (string_of_list_byte (http.Body resp))]) = None).
Proof.
  cbv zeta. split; [|split].
  - intros err w H. rewrite Register_eq, H. split; reflexivity.
  - intros err w H. rewrite SubscribeTelemetry_eq. cbv zeta. rewrite H. reflexivity.
  - intros resp w H Hst. rewrite SubscribeTelemetry_eq. cbv zeta. rewrite H.
    destruct (Z.eqb_spec (http.StatusCode resp) http.StatusOK) as [E|_];
      [contradiction|].
    split; reflexivity.
Qed.

(** X18.  [Register] does not look at the status of the answer.  Two
    answers with the same body and the same headers, whatever their
    status, give the same client and the same result whenever they carry
    an identifier: an answer 500 with an identifier registers the
    extension. *)
Theorem Register_ignores_status c ctx s s' (resp resp' : http.Response) (w w' : W) :
  client c (registerRequest c) (fst s) = (inl resp, w) ->
  client c (registerRequest c) (fst s') = (inl resp', w') ->
  http.Body resp' = http.Body resp ->
  http.Header_ resp' = http.Header_ resp ->
  identifierOf resp <> "" ->
  fst (Register c ctx s') = fst (Register c ctx s).
Proof.
  intros H H' Hb Hh Hid. rewrite !Register_eq, H, H'.
  unfold identifierOf in *. rewrite Hb, Hh.
  destruct (decode.Decode decode.intoMap (http.Body resp) None) as [result [e|]];
    [reflexivity|].
  cbv zeta. destruct (String.eqb_spec
    (http.Get (http.Header_ resp) extensions.lambdaExtensionIdentifierHeader) "")
    as [E|_]; [contradiction|]. reflexivity.
Qed.

End FailureExtras.

Lemma handshake_failures_witness :
  let c := script.fresh "ext" in
  fst (Register c script.ctx (script.start [scenario.refused]))
  = (c, Some (Errorf "failed to register extension: %w"
                [AError (errorString "connection refused")]))
  /\ fst (SubscribeTelemetry c script.ctx None (script.start []))
     = Some (Errorf "failed to register extension: %w"
               [AError (errorString "connection refused")])
  /\ fst (SubscribeTelemetry c script.ctx None
            (script.start [inl (http.mkResponse "403 Forbidden" 403 ∅
                                  (list_byte_of_string "denied"))]))
     = Some (Errorf "failed to subscribe telemetry API: %d %s"
               [AInt 403; AString "denied"]).
Proof.
  intros c.
  destruct (handshake_failures c script.ctx None (script.start [scenario.refused]))
    as (H1 & _ & _).
  destruct (handshake_failures c script.ctx None (script.start [])) as (_ & H2 & _).
  destruct (handshake_failures c script.ctx None
              (script.start [inl (http.mkResponse "403 Forbidden" 403 ∅
                                    (list_byte_of_string "denied"))]))
    as (_ & _ & H3).
  split; [|split].
  - exact (proj1 (H1 (errorString "connection refused") (script.mk [] false) eq_refl)).
  - exact (H2 (errorString "connection refused") (script.mk [] false) eq_refl).
  - exact (proj1 (H3 (http.mkResponse "403 Forbidden" 403 ∅ (list_byte_of_string "denied"))
                     (script.mk [] false) eq_refl ltac:(discriminate))).
Defined.

Lemma Register_ignores_status_witness :
  let c := script.fresh "ext" in
  let ok := http.mkResponse "200 OK" 200
              (http.Set_ ∅ extensions.lambdaExtensionIdentifierHeader "id-1")
              (list_byte_of_string "{}") in
  let ko := http.mkResponse "500 Internal Server Error" 500
              (http.Set_ ∅ extensions.lambdaExtensionIdentifierHeader "id-1")
              (list_byte_of_string "{}") in
  fst (Register c script.ctx (script.start [inl ko]))
  = fst (Register c script.ctx (script.start [inl ok]))
  /\ fst (Register c script.ctx (script.start [inl ko])) = (withExtensionId c "id-1", None).
Proof.
  intros c ok ko.
  assert (Hid : identifierOf ok <> "") by (vm_compute; discriminate).
  pose proof (Register_ignores_status c script.ctx (script.start [inl ok])
                (script.start [inl ko]) ok ko (script.mk [] false) (script.mk [] false)
                eq_refl eq_refl eq_refl eq_refl Hid) as H.
  split; [exact H|]. rewrite H. vm_compute. reflexivity.
Defined.

(** ** The package extension *)

Section LegacyExtras.

Context {W : Type}.

Implicit Types (c : Client W) (ctx : context.Context W) (s : state W).

Lemma extension_fetch_state c ctx s :
  snd (extension.fetchNextEvent c ctx s)
  = (snd (client c (pollRequest c) (fst s)), polled c (snd s)).
Proof.
  unfold extension.fetchNextEvent, polled, pollRequest. unfold_M.
  rewrite <- app_assoc. cbn [app].
  destruct (client c _ (fst s)) as [[resp|err] w]; [|reflexivity].
  destruct (negb _); [reflexivity|].
  destruct (extension.EventResponse.Decode _ _) as [ev [e|]]; reflexivity.
Qed.

Lemma extension_iteration_eq c ctx s :
  extension.iteration c ctx s =
    if context.Done ctx (fst s) then (Returned None, s)
    else
      match extension.fetchNextEvent c ctx s with
      | (inr err, s1) =>
          (Polling,
           (fst s1,
            snd s1 ++ [Log LevelError "failed to fetch next event" [("error", VError err)]]))
      | (inl ev, s1) => dispatch c ctx ev s1
      end.
Proof.
  unfold extension.iteration. unfold bind at 1. unfold world at 1.
  destruct s as [w tr]. cbn [fst snd].
  destruct (context.Done ctx w); [reflexivity|].
  unfold bind at 1.
  destruct (extension.fetchNextEvent c ctx (w, tr)) as [[ev|err] s1]; [reflexivity|].
  unfold_M. reflexivity.
Qed.

Lemma extension_Run_S n c ctx s :
  extension.Run (S n) c ctx s =
    match extension.iteration c ctx s with
    | (Returned r, s') => (Some r, s')
    | (Polling, s') => extension.Run n c ctx s'
    end.
Proof.
  cbn [extension.Run]. unfold bind.
  destruct (extension.iteration c ctx s) as [[|r] s']; reflexivity.
Qed.

Lemma extension_Run_polling k : forall n c ctx s s',
  extension.Run k c ctx s = (None, s') ->
  extension.Run (k + n) c ctx s = extension.Run n c ctx s'.
Proof.
  induction k as [|k IH]; intros n c ctx s s' Hk.
  - cbn in Hk. injection Hk as <-. reflexivity.
  - rewrite extension_Run_S in Hk. cbn [Nat.add]. rewrite extension_Run_S.
    destruct (extension.iteration c ctx s) as [[|r] s1].
    + apply IH. exact Hk.
    + discriminate Hk.
Qed.

(** A pass sends the poll, unless the context is done, and nothing
    else. *)
Lemma extension_iteration_effect c ctx s :
  requests (snd (snd (extension.iteration c ctx s)))
  = requests (snd s) ++ (if context.Done ctx (fst s) then [] else [pollRequest c])
  /\ (fst (extension.iteration c ctx s) = Polling
      \/ fst (extension.iteration c ctx s) = Returned None
      \/ exists e, fst (extension.iteration c ctx s) = Returned (Some (shutdownFailed e))).
Proof.
  rewrite extension_iteration_eq.
  destruct (context.Done ctx (fst s)).
  - cbn [fst snd]. rewrite app_nil_r. split; [reflexivity|]. right; left; reflexivity.
  - pose proof (extension_fetch_state c ctx s) as Hst.
    destruct (extension.fetchNextEvent c ctx s) as [[ev|err] s1];
      cbn [snd] in Hst; subst s1.
    + destruct (dispatch_effect c ctx ev
                  (snd (client c (pollRequest c) (fst s)), polled c (snd s)))
        as (Hr & _ & Hn).
      cbn [fst snd] in Hr. rewrite requests_polled in Hr. split; assumption.
    + cbn [fst snd]. rewrite requests_app, requests_polled. cbn. rewrite app_nil_r.
      split; [reflexivity|]. left; reflexivity.
Qed.

Lemma extension_Run_effect fuel : forall c ctx s,
  exists k,
    k <= fuel
    /\ requests (snd (snd (extension.Run fuel c ctx s)))
       = requests (snd s) ++ List.repeat (pollRequest c) k
    /\ (context.Done ctx (fst s) = false -> 0 < fuel -> 0 < k)
    /\ (forall r, fst (extension.Run fuel c ctx s) = Some r ->
                  r = None \/ exists e, r = Some (shutdownFailed e)).
Proof.
  induction fuel as [|fuel IH]; intros c ctx s.
  - exists 0. cbn. rewrite app_nil_r.
    split; [lia|]. split; [reflexivity|]. split; [lia | discriminate].
  - rewrite extension_Run_S.
    destruct (extension_iteration_effect c ctx s) as (Hr & Hn).
    destruct (extension.iteration c ctx s) as [[|r] s1]; cbn [fst snd] in *.
    + destruct (IH c ctx s1) as (k & Hk & Hreq & _ & Hres).
      destruct (context.Done ctx (fst s)).
      * exists k. rewrite Hreq, Hr, app_nil_r.
        split; [lia|]. split; [reflexivity|]. split; [discriminate | exact Hres].
      * exists (S k). rewrite Hreq, Hr, <- app_assoc.
        change ([pollRequest c] ++ List.repeat (pollRequest c) k)
          with (List.repeat (pollRequest c) (S k)).
        split; [lia|]. split; [reflexivity|]. split; [lia | exact Hres].
    + assert (Hres : forall r', Some r = Some r' ->
                r' = None \/ exists e, r' = Some (shutdownFailed e)).
      { intros r' [= <-]. destruct Hn as [Hn|[Hn|[e Hn]]].
        - discriminate Hn.
        - left. congruence.
        - right. exists e. congruence. }
      destruct (context.Done ctx (fst s)).
      * exists 0. rewrite Hr.
        split; [lia|]. split; [reflexivity|]. split; [discriminate | exact Hres].
      * exists 1. rewrite Hr.
        split; [lia|]. split; [reflexivity|]. split; [lia | exact Hres].
Qed.

(** X19.  [Run] of the package extension looks at the context before
    each poll.  Once the context is done when a pass begins (at the call,
    or after any number of passes) it returns nil, with any fuel beyond:
    it sends nothing more and calls nothing more. *)
Theorem extension_Run_stops_when_done c ctx k s0 s :
  extension.Run k c ctx s0 = (None, s) ->
  context.Done ctx (fst s) = true ->
  forall n, extension.Run (k + S n) c ctx s0 = (Some None, s).
Proof.
  intros Hk Hdone n.
  rewrite (extension_Run_polling k (S n) c ctx s0 s Hk).
  rewrite extension_Run_S, extension_iteration_eq, Hdone. reflexivity.
Qed.

(** X20.  [Run] of the package extension has no test of registration:
    whatever the identifier of the client, empty or not, it polls when
    the context is not done at the call, with that identifier in the
    header.  The requests it sends are polls and nothing else, and when it
    returns its result is nil or the wrapped error of the shutdown
    callback, never a refusal. *)
Theorem extension_Run_never_refuses c ctx fuel s :
  (exists k,
      k <= fuel
      /\ requests (snd (snd (extension.Run fuel c ctx s)))
         = requests (snd s) ++ List.repeat (pollRequest c) k
      /\ (context.Done ctx (fst s) = false -> 0 < fuel -> 0 < k))
  /\ (forall r, fst (extension.Run fuel c ctx s) = Some r ->
                r = None \/ exists e, r = Some (shutdownFailed e))
  /\ http.Get (http.ReqHeader (pollRequest c)) extensions.lambdaExtensionIdentifierHeader
     = extensionId c.
Proof.
  destruct (extension_Run_effect fuel c ctx s) as (k & Hk & Hreq & Hpos & Hres).
  split; [|split; [exact Hres | apply Get_Set_same]].
  exists k. repeat split; assumption.
Qed.

(** X21.  [Register] of the package extensions is [Register] of the
    package extension called with the events of the callbacks that are
    set: the same request, the same log records, the same client and the
    same result, whatever the transport answers. *)
Theorem Register_is_extension_Register c ctx s :
  Register c ctx s = extension.Register c ctx (Some (requestedEvents c)) s.
Proof.
  unfold Register, extension.Register, requestedEvents.
  destruct (CallbackInvoke c), (CallbackShutdown c); reflexivity.
Qed.

End LegacyExtras.

Lemma extension_Run_stops_when_done_witness :
  let s0 := script.start [script.event "INVOKE"; script.event "INVOKE"] in
  roundTrips (snd (snd (extension.Run 1 scenario.cancelling script.ctx s0))) = 1
  /\ extension.Run 3 scenario.cancelling script.ctx s0
     = (Some None, snd (extension.Run 1 scenario.cancelling script.ctx s0)).
Proof.
  intros s0.
  assert (Hk : extension.Run 1 scenario.cancelling script.ctx s0
               = (None, snd (extension.Run 1 scenario.cancelling script.ctx s0)))
    by (vm_compute; reflexivity).
  assert (Hd : context.Done script.ctx
                 (fst (snd (extension.Run 1 scenario.cancelling script.ctx s0))) = true)
    by (vm_compute; reflexivity).
  split; [vm_compute; reflexivity|].
  exact (extension_Run_stops_when_done scenario.cancelling script.ctx 1 s0 _ Hk Hd 1).
Defined.

(** *** The two event decoders *)

Lemma agree_refl {T : Type} (a : T * option error) : agree a a.
Proof. split; [reflexivity | tauto]. Qed.

Lemma agree_intoString (ty ty' : gotype) (v : json) (old : string) :
  agree (decode.intoString ty v old) (decode.intoString ty' v old).
Proof. destruct v; split; cbn; try reflexivity; split; intros H; discriminate H. Qed.

Lemma agree_member {T : Type} (fields : list string)
    (sf sf' : string -> json -> T -> T * option error)
    (st st' : T * option error) (kv : string * json) :
  (forall f v x, agree (sf f v x) (sf' f v x)) ->
  agree st st' ->
  agree (decode.member fields sf st kv) (decode.member fields sf' st' kv).
Proof.
  intros Hsf [Hfst Hsnd]. unfold decode.member.
  destruct (decode.lookupField fields (fst kv)) as [f|]; [|split; assumption].
  rewrite <- Hfst. destruct (Hsf f (snd kv) (fst st)) as [H1 H2].
  destruct (sf f (snd kv) (fst st)) as [t e], (sf' f (snd kv) (fst st)) as [t' e'].
  cbn [fst snd] in *. subst t'. split; [reflexivity|].
  destruct st as [x [a|]], st' as [x' [a'|]]; cbn [fst snd decode.saveError] in *.
  - split; intros H; discriminate H.
  - destruct Hsnd as [_ H]. discriminate (H eq_refl).
  - destruct Hsnd as [H _]. discriminate (H eq_refl).
  - exact H2.
Qed.

Lemma agree_fold {T : Type} (fields : list string)
    (sf sf' : string -> json -> T -> T * option error) (ms : list (string * json)) :
  (forall f v x, agree (sf f v x) (sf' f v x)) ->
  forall st st',
    agree st st' ->
    agree (fold_left (decode.member fields sf) ms st)
          (fold_left (decode.member fields sf') ms st').
Proof.
  intros Hsf. induction ms as [|kv ms IH]; intros st st' H; [exact H|].
  cbn [fold_left]. apply IH, agree_member; assumption.
Qed.

Lemma agree_intoStruct {T : Type} (ty ty' : gotype) (fields : list string)
    (sf sf' : string -> json -> T -> T * option error) (v : json) (old : T) :
  (forall f v x, agree (sf f v x) (sf' f v x)) ->
  agree (decode.intoStruct ty fields sf v old) (decode.intoStruct ty' fields sf' v old).
Proof.
  intros Hsf.
  destruct v; cbn [decode.intoStruct];
    try (split; cbn; [reflexivity | split; intros H; discriminate H]).
  - apply agree_refl.
  - apply agree_fold; [exact Hsf | apply agree_refl].
Qed.

Lemma agree_Unmarshal {T : Type} (into into' : json -> T -> T * option error)
    (data : bytes) (old : T) :
  (forall v x, agree (into v x) (into' v x)) ->
  agree (decode.Unmarshal into data old) (decode.Unmarshal into' data old).
Proof.
  intros H. unfold decode.Unmarshal.
  destruct (scanner.whole data); [apply H | apply agree_refl].
Qed.

Lemma agree_intoCommon (v : json) (x : Event.common) :
  agree (extension.EventResponse.intoCommon v x) (Event.intoCommon v x).
Proof.
  apply agree_intoStruct. clear v x. intros f v x.
  unfold extension.EventResponse.commonSetField, Event.commonSetField.
  pose proof (agree_intoString (TString "string") (TString "extensions.EventType")
                v (Event.EventType x)) as [H1 H2].
  destruct (decode.intoString (TString "string") v _) as [a e],
           (decode.intoString (TString "extensions.EventType") v _) as [a' e'].
  cbn [fst snd] in *. subst a'. split; [reflexivity | exact H2].
Qed.

Lemma agree_intoInvoke (v : json) (x : InvokeEvent.t) :
  agree (extension.InvokeEventResponse.into v x) (InvokeEvent.into v x).
Proof.
  apply agree_intoStruct. clear v x. intros f v x.
  unfold extension.InvokeEventResponse.setField, InvokeEvent.setField.
  destruct (String.eqb f "eventType"); [|apply agree_refl].
  pose proof (agree_intoString (TString "string") (TString "extensions.EventType")
                v (InvokeEvent.EventType x)) as [H1 H2].
  destruct (decode.intoString (TString "string") v _) as [a e],
           (decode.intoString (TString "extensions.EventType") v _) as [a' e'].
  cbn [fst snd] in *. subst a'. split; [reflexivity | exact H2].
Qed.

Lemma agree_intoShutdown (v : json) (x : ShutdownEvent.t) :
  agree (extension.ShutdownEventResponse.into v x) (ShutdownEvent.into v x).
Proof.
  apply agree_intoStruct. clear v x. intros f v x.
  unfold extension.ShutdownEventResponse.setField, ShutdownEvent.setField.
  destruct (String.eqb f "eventType"); [|apply agree_refl].
  pose proof (agree_intoString (TString "string") (TString "extensions.EventType")
                v (ShutdownEvent.EventType x)) as [H1 H2].
  destruct (decode.intoString (TString "string") v _) as [a e],
           (decode.intoString (TString "extensions.EventType") v _) as [a' e'].
  cbn [fst snd] in *. subst a'. split; [reflexivity | exact H2].
Qed.

Lemma UnmarshalJSON_agree (r : Event.t) (data : bytes) :
  agree (extension.EventResponse.UnmarshalJSON r data) (Event.UnmarshalJSON r data).
Proof.
  unfold extension.EventResponse.UnmarshalJSON, Event.UnmarshalJSON.
  destruct (agree_Unmarshal _ _ data (Event.mkCommon "") agree_intoCommon) as [Hc He].
  destruct (decode.Unmarshal extension.EventResponse.intoCommon data _) as [cm e],
           (decode.Unmarshal Event.intoCommon data _) as [cm' e'].
  cbn [fst snd] in Hc, He. subst cm'.
  destruct e as [e|], e' as [e'|].
  - split; [reflexivity|]. split; intros H; discriminate H.
  - destruct He as [_ H]. discriminate (H eq_refl).
  - destruct He as [H _]. discriminate (H eq_refl).
  - change extension.EventInvoke with extensions.Invoke.
    change extension.EventShutdown with extensions.Shutdown.
    destruct (String.eqb (Event.EventType cm) extensions.Invoke).
    + destruct (agree_Unmarshal _ _ data InvokeEvent.zero agree_intoInvoke) as [Hi Hie].
      destruct (decode.Unmarshal extension.InvokeEventResponse.into data _) as [iv ei],
               (decode.Unmarshal InvokeEvent.into data _) as [iv' ei'].
      cbn [fst snd] in *. subst iv'. split; [reflexivity | exact Hie].
    + destruct (String.eqb (Event.EventType cm) extensions.Shutdown).
      * destruct (agree_Unmarshal _ _ data ShutdownEvent.zero agree_intoShutdown)
          as [Hs Hse].
        destruct (decode.Unmarshal extension.ShutdownEventResponse.into data _) as [sv es],
                 (decode.Unmarshal ShutdownEvent.into data _) as [sv' es'].
        cbn [fst snd] in *. subst sv'. split; [reflexivity | exact Hse].
      * split; [reflexivity|]. split; intros H; discriminate H.
Qed.

Lemma Decode_agree (body : bytes) (ev : Event.t) :
  agree (extension.EventResponse.Decode body ev) (Event.Decode body ev).
Proof.
  unfold extension.EventResponse.Decode, Event.Decode.
  destruct (scanner.next body) as [[[raw v] rest]|];
    [apply UnmarshalJSON_agree | apply agree_refl].
Qed.

(** X22.  The decoder of events of the package extension and that of
    the package extensions agree on every input and every receiver: they
    leave the same event in the receiver, and one returns nil exactly when
    the other does.  (Their errors differ by the type names in them.) *)
Theorem event_decoders_agree (r : Event.t) (data : bytes) :
  fst (extension.EventResponse.UnmarshalJSON r data) = fst (Event.UnmarshalJSON r data)
  /\ (snd (extension.EventResponse.UnmarshalJSON r data) = None
      <-> snd (Event.UnmarshalJSON r data) = None).
Proof. exact (UnmarshalJSON_agree r data). Qed.

(** *** The two loops *)

Lemma visible_app (tr tr' : list action) : visible (tr ++ tr') = visible tr ++ visible tr'.
Proof. apply List.filter_app. Qed.

Section TwoLoops.

Context {W : Type}.

Implicit Types (c : Client W) (ctx : context.Context W) (s : state W).

Lemma visible_polled c tr : visible (polled c tr) = visible tr ++ [RoundTrip (pollRequest c)].
Proof. unfold polled. rewrite visible_app. reflexivity. Qed.

Lemma extension_fetch_eq c ctx s :
  extension.fetchNextEvent c ctx s =
    match client c (pollRequest c) (fst s) with
    | (inr err, w) =>
        (inr (Errorf "failed to get next event: %w" [AError err]), (w, polled c (snd s)))
    | (inl resp, w) =>
        if negb (Z.eqb (http.StatusCode resp) http.StatusOK) then
          (inr (Errorf "failed to get next event: %d" [AInt (http.StatusCode resp)]),
           (w, polled c (snd s)))
        else
          match extension.EventResponse.Decode (http.Body resp) Event.zero with
          | (_, Some err) =>
              (inr (Errorf "failed to decode event response: %w" [AError err]),
               (w, polled c (snd s)))
          | (ev, None) => (inl ev, (w, polled c (snd s)))
          end
    end.
Proof.
  unfold extension.fetchNextEvent, polled, pollRequest. unfold_M.
  rewrite <- app_assoc. cbn [app].
  destruct (client c _ (fst s)) as [[resp|err] w]; [|reflexivity].
  destruct (negb _); [reflexivity|].
  destruct (extension.EventResponse.Decode _ _) as [ev [e|]]; reflexivity.
Qed.

(** The two polls on the same world: the same event or a failure each,
    the same world after, and the poll added to the trace. *)
Lemma fetch_agree c ctx (w : W) (tr tr' : list action) :
  match fetchNextEvent c ctx (w, tr), extension.fetchNextEvent c ctx (w, tr') with
  | (inl ev, s1), (inl ev', s1') =>
      ev = ev' /\ fst s1 = fst s1' /\ snd s1 = polled c tr /\ snd s1' = polled c tr'
  | (inr _, s1), (inr _, s1') =>
      fst s1 = fst s1' /\ snd s1 = polled c tr /\ snd s1' = polled c tr'
  | _, _ => False
  end.
Proof.
  rewrite fetchNextEvent_eq, extension_fetch_eq. cbn [fst snd].
  destruct (client c (pollRequest c) w) as [[resp|err] w1]; [|repeat split].
  destruct (negb _); [repeat split|].
  destruct (Decode_agree (http.Body resp) Event.zero) as [Hv He].
  destruct (extension.EventResponse.Decode _ _) as [ev' [e'|]],
           (Event.Decode _ _) as [ev [e|]]; cbn [fst snd] in *.
  - repeat split.
  - destruct He as [_ H]. discriminate (H eq_refl).
  - destruct He as [H _]. discriminate (H eq_refl).
  - subst ev'. repeat split.
Qed.

(** What a dispatch does depends on the trace only to add to it. *)
Lemma dispatch_visible c ctx ev (w : W) (tr tr' : list action) :
  visible tr = visible tr' ->
  fst (dispatch c ctx ev (w, tr)) = fst (dispatch c ctx ev (w, tr'))
  /\ fst (snd (dispatch c ctx ev (w, tr))) = fst (snd (dispatch c ctx ev (w, tr')))
  /\ visible (snd (snd (dispatch c ctx ev (w, tr))))
     = visible (snd (snd (dispatch c ctx ev (w, tr')))).
Proof.
  intros Hv. destruct ev as [[iv|] sh].
  - rewrite !dispatch_invoke. destruct (CallbackInvoke c) as [f|]; cbn [fst snd].
    + split; [reflexivity|]. split; [reflexivity|].
      rewrite !visible_app, Hv. reflexivity.
    + split; [reflexivity|]. split; [reflexivity|].
      rewrite !visible_app, Hv. reflexivity.
  - destruct sh as [sv|].
    + rewrite !dispatch_shutdown. destruct (CallbackShutdown c) as [f|]; cbn [fst snd].
      * split; [reflexivity|]. split; [reflexivity|].
        rewrite !visible_app, Hv. reflexivity.
      * split; [reflexivity|]. split; [reflexivity|].
        rewrite !visible_app, Hv. reflexivity.
    + unfold dispatch. cbn [Event.Invoke Event.Shutdown]. unfold_M.
      split; [reflexivity|]. split; [reflexivity|].
      rewrite !visible_app, Hv. reflexivity.
Qed.

Lemma iteration_agree c ctx (w : W) (tr tr' : list action) :
  (forall w, context.Done ctx w = false) ->
  visible tr = visible tr' ->
  fst (iteration c ctx (w, tr)) = fst (extension.iteration c ctx (w, tr'))
  /\ fst (snd (iteration c ctx (w, tr))) = fst (snd (extension.iteration c ctx (w, tr')))
  /\ visible (snd (snd (iteration c ctx (w, tr))))
     = visible (snd (snd (extension.iteration c ctx (w, tr')))).
Proof.
  intros Hdone Hv. rewrite iteration_eq, extension_iteration_eq.
  cbn [fst]. rewrite (Hdone w).
  pose proof (fetch_agree c ctx w tr tr') as H.
  destruct (fetchNextEvent c ctx (w, tr)) as [[ev|err] [w1 t1]],
           (extension.fetchNextEvent c ctx (w, tr')) as [[ev'|err'] [w1' t1']];
    cbn [fst snd] in *; try contradiction.
  - destruct H as (-> & -> & -> & ->).
    apply dispatch_visible. rewrite !visible_polled, Hv. reflexivity.
  - destruct H as (-> & -> & ->). rewrite (Hdone w1'). cbn [fst snd].
    split; [reflexivity|]. split; [reflexivity|].
    rewrite !visible_app, !visible_polled, Hv. reflexivity.
Qed.

Lemma loop_agree c ctx :
  (forall w, context.Done ctx w = false) ->
  forall fuel (w : W) (tr tr' : list action),
    visible tr = visible tr' ->
    fst (loop fuel c ctx (w, tr)) = fst (extension.Run fuel c ctx (w, tr'))
    /\ fst (snd (loop fuel c ctx (w, tr))) = fst (snd (extension.Run fuel c ctx (w, tr')))
    /\ visible (snd (snd (loop fuel c ctx (w, tr))))
       = visible (snd (snd (extension.Run fuel c ctx (w, tr')))).
Proof.
  intros Hdone. induction fuel as [|fuel IH]; intros w tr tr' Hv.
  - cbn. repeat split. exact Hv.
  - rewrite loop_S, extension_Run_S.
    destruct (iteration_agree c ctx w tr tr' Hdone Hv) as (Hn & Hw & Ht).
    destruct (iteration c ctx (w, tr)) as [n [w1 t1]],
             (extension.iteration c ctx (w, tr')) as [n' [w1' t1']].
    cbn [fst snd] in *. subst n' w1'.
    destruct n as [|r]; [apply IH; exact Ht|].
    cbn [fst snd]. repeat split. exact Ht.
Qed.

(** X23.  Apart from its two tests, of the registration and of the
    context, [Run] is the [Run] of the package extension.  On a client
    with an identifier, under a context that is never done, the two give
    the same result after the same number of passes, leave the same world,
    and have sent the same requests and called the same callbacks with the
    same events, in the same order. *)
Theorem Run_agrees_with_extension_Run c ctx fuel s :
  extensionId c <> "" ->
  (forall w, context.Done ctx w = false) ->
  fst (Run fuel c ctx s) = fst (extension.Run fuel c ctx s)
  /\ fst (snd (Run fuel c ctx s)) = fst (snd (extension.Run fuel c ctx s))
  /\ visible (snd (snd (Run fuel c ctx s)))
     = visible (snd (snd (extension.Run fuel c ctx s))).
Proof.
  intros Hid Hdone. rewrite Run_registered by exact Hid.
  destruct s as [w tr]. apply loop_agree; [exact Hdone | reflexivity].
Qed.

(** X24.  [NewClient] of the package extensions fails exactly where
    [init] of the package extension panics, on an empty host address, and
    otherwise builds the client that [init] and [NewClient] of the package
    extension build, with the same two endpoints. *)
Theorem NewClient_is_extension_NewClient (name host : string)
    (defaultClient : http.Request -> W -> (http.Response + error) * W) :
  match extension.init host with
  | None =>
      host = ""
      /\ NewClient name host defaultClient
         = inr (Errorf "AWS_LAMBDA_RUNTIME_API is not set" [])
  | Some endpoints =>
      host <> ""
      /\ NewClient name host defaultClient
         = inl (extension.NewClient name defaultClient endpoints)
  end.
Proof.
  unfold extension.init, NewClient.
  destruct (String.eqb_spec host "") as [E|E]; split; [exact E | | exact E |]; reflexivity.
Qed.

End TwoLoops.

Lemma Run_agrees_with_extension_Run_witness :
  let s := script.start [script.event "INVOKE"; scenario.refused; script.event "SHUTDOWN"] in
  fst (Run 5 scenario.failing neverDone s) = fst (extension.Run 5 scenario.failing neverDone s)
  /\ fst (Run 5 scenario.failing neverDone s) = Some (Some (shutdownFailed scenario.boom))
  /\ length (visible (snd (snd (extension.Run 5 scenario.failing neverDone s)))) = 5.
Proof.
  intros s.
  assert (Hid : extensionId scenario.failing <> "") by (vm_compute; discriminate).
  destruct (Run_agrees_with_extension_Run scenario.failing neverDone 5 s Hid
              (fun _ => eq_refl)) as (H1 & _ & H3).
  split; [exact H1|]. split; [vm_compute; reflexivity|].
  rewrite <- H3. vm_compute. reflexivity.
Defined.
